(** * CRT client application: session bootstrapping, connectivity
      monitoring and OAuth callbacks

    A shallow embedding of the TypeScript sources

    - [lib/supabase.ts]: the stub client, [clearSupabaseAuth],
      [checkSupabaseDB], [checkSupabaseAuth];
    - [lib/facebookAuth.ts]: [checkFacebookLoginStatus],
      [handleFacebookStatusChange], [loginWithFacebook],
      [getFacebookUserInfo], [getFacebookPages], [checkLoginState];
    - [App.tsx]: the two boot effects, [initializeAuth], [handleRetry],
      [handleForceReset], the auth-state listener, the route table and
      what the component renders;
    - [components/ConnectionStatus.tsx]: [checkSupabaseConnection],
      [getRetryDelay], [handleRetry], the network handlers, the timer
      callback and the banner;
    - [components/FacebookLoginButton.tsx]: [checkLoginState] and its
      status callback;
    - [pages/FacebookCallback.tsx] and [pages/InstagramCallback.tsx]:
      the two callback effects.

    Conventions.  A React component is a record of its [useState] cells;
    a setter call is a record update.  An [async] function is embedded as
    the function of what it is answered; where scheduling matters (module
    [App]) it is cut at its [await]s, and the sequential run is the
    composition of the pieces.  Everything the hosted backend, the browser
    clock or [Math.random] answers is an input.  Thrown values are [Exn]
    records, [null] and [undefined] included; blocks with [try]/[catch]
    are written in the small monad [M].  Sums and products of fractions
    are rounded to the nearest double ([toDouble]). *)

From Stdlib Require Import String Ascii List Bool Arith ZArith QArith Lia.
From Stdlib Require Import DecimalString Lqa Qround.
From Stdlib Require DecimalPos DecimalN.
Import ListNotations.
Local Close Scope Q_scope.
Local Open Scope string_scope.
Local Open Scope list_scope.

Set Implicit Arguments.

(* ================================================================== *)
(** * JavaScript values and helpers *)
(* ================================================================== *)

Module JS.

(** A thrown or returned value.  Of a value that is not [null] or
    [undefined], [isError] is the answer of [e instanceof Error] and
    [message] is [e.message].  JavaScript lets [null] and [undefined] be
    thrown too: reading a property of such a value raises a [TypeError],
    whose message (the engine's wording) is [typeError]. *)
Inductive Exn : Type :=
| mkExn (isError : bool) (message : string)
| Nullish (typeError : string).

(** [e instanceof Error]: false of [null] and [undefined]. *)
Definition isError (e : Exn) : bool :=
  match e with
  | mkExn b _ => b
  | Nullish _ => false
  end.

(** [e.message] of a value that is an object: the [error] field of an
    answer, which the code reads only after testing it for truth. *)
Definition message (e : Exn) : string :=
  match e with
  | mkExn _ m => m
  | Nullish _ => ""
  end.

(** [new Error(msg)] *)
Definition newError (msg : string) : Exn := mkExn true msg.

(** [s.includes(needle)] *)
Fixpoint includes (s needle : string) : bool :=
  if String.prefix needle s then true
  else match s with
       | EmptyString => false
       | String _ rest => includes rest needle
       end.

(** [s || dflt] on strings: the empty string is falsy. *)
Definition orElse (s dflt : string) : string :=
  if String.eqb s "" then dflt else s.

(** [o || dflt] when [o] may be [null]/[undefined]. *)
Definition optOrElse (o : option string) (dflt : string) : string :=
  match o with
  | Some s => orElse s dflt
  | None => dflt
  end.

(** [`${n}`] for a non-negative integer [n]. *)
Definition showNat (n : nat) : string := NilZero.string_of_uint (Nat.to_uint n).
Definition showN (n : N) : string := NilZero.string_of_uint (N.to_uint n).

(** [arr.slice(-k)] *)
Definition sliceLast {A : Type} (k : nat) (l : list A) : list A :=
  skipn (length l - k) l.

(** [err instanceof Error ? err.message : dflt] *)
Definition messageOr (e : Exn) (dflt : string) : string :=
  if isError e then message e else dflt.

(** ** Numbers

    A JavaScript number is a binary64 double.  The integers this code
    computes with are far below [2^53] and are kept as [nat], [N] or [Z];
    where it multiplies or adds fractions, the exact result is rounded to
    the nearest double, ties to the even significand.  Magnitudes are
    taken in units of [2^-1074], the smallest positive double: there
    every double is an integer, any integer below [2^53] and from then on
    every multiple of [2^(log2 - 52)].  Overflow to [Infinity], at
    [2^1024], is not modelled. *)

(** The nearest integer, ties to even. *)
Definition roundHalfEven (m : Q) : Z :=
  let f := Qfloor m in
  match Qcompare (m - inject_Z f) (1 # 2) with
  | Lt => f
  | Gt => (f + 1)%Z
  | Eq => if Z.even f then f else (f + 1)%Z
  end.

(** The exponent of the distance between neighbouring doubles at the
    scaled magnitude [s]. *)
Definition spacing (s : Q) : Z := Z.max 0 (Z.log2 (Qfloor s) - 52).

Definition roundScaled (s : Q) : Z :=
  (roundHalfEven (s / inject_Z (2 ^ spacing s)) * 2 ^ spacing s)%Z.

Definition roundMagnitude (q : Q) : Q :=
  (inject_Z (roundScaled (q * inject_Z (2 ^ 1074))) / inject_Z (2 ^ 1074))%Q.

(** The double nearest to [q]: the value of an arithmetic operation
    whose exact result is [q]. *)
Definition toDouble (q : Q) : Q :=
  match Qcompare q 0 with
  | Lt => (- roundMagnitude (- q))%Q
  | _ => roundMagnitude q
  end.

(** The outcome of a call that may throw. *)
Inductive Res (A : Type) : Type :=
| Ok (a : A)
| Throw (e : Exn).
Arguments Ok {A} a.
Arguments Throw {A} e.

(** Statements over a mutable state [S]: a state transformer that also
    says whether the statement completed or threw.  State changes made
    before a [throw] stay, as setter calls do. *)
Definition M (S A : Type) : Type := S -> Res A * S.

Definition ret {S A} (a : A) : M S A := fun s => (Ok a, s).
Definition throw {S A} (e : Exn) : M S A := fun s => (Throw e, s).
Definition bind {S A B} (m : M S A) (k : A -> M S B) : M S B :=
  fun s => match m s with
           | (Ok a, s') => k a s'
           | (Throw e, s') => (Throw e, s')
           end.
Definition modify {S} (f : S -> S) : M S unit := fun s => (Ok tt, f s).
Definition gets {S A} (f : S -> A) : M S A := fun s => (Ok (f s), s).

(** [try { m } catch (e) { h e }] *)
Definition tryCatch {S A} (m : M S A) (h : Exn -> M S A) : M S A :=
  fun s => match m s with
           | (Ok a, s') => (Ok a, s')
           | (Throw e, s') => h e s'
           end.

Definition exec {S A} (m : M S A) (s : S) : S := snd (m s).

End JS.

Export JS.

Declare Scope js_scope.
Delimit Scope js_scope with js.
Notation "x <- m ;; k" := (JS.bind m (fun x => k))
  (at level 61, m at next level, right associativity) : js_scope.
Notation "m ;;; k" := (JS.bind m (fun _ => k))
  (at level 61, right associativity) : js_scope.

(* ================================================================== *)
(** * lib/supabase.ts *)
(* ================================================================== *)

Module Supabase.

(** ** Answers of the hosted service *)

Record Session : Type := mkSession { sessionUserEmail : option string }.

(** [auth.getUser()]'s [data.user]: only [id] is read by this code. *)
Record AuthUser : Type := mkAuthUser { authUserId : string }.

(** [await supabase.auth.getSession()] *)
Inductive SessionReply : Type :=
| SessionThrows (e : Exn)
| SessionError (e : Exn)
| SessionData (s : option Session).

(** [await supabase.auth.getUser()] *)
Inductive UserReply : Type :=
| UserThrows (e : Exn)
| UserError (e : Exn)
| UserData (u : option AuthUser).

(** [await supabase.auth.signOut({ scope: 'global' })] *)
Inductive SignOutReply : Type :=
| SignOutThrows (e : Exn)
| SignOutError (e : Exn)
| SignedOut.

(** The stub client installed when the environment variables are
    missing answers every [auth] read with this error. *)
Definition notConfigured : Exn := newError "Supabase not configured".

(** [supabase.auth.getSession()] of the exported client: the real
    client's answer when configured, the stub's otherwise. *)
Definition getSession (configured : bool) (real : SessionReply) : SessionReply :=
  if configured then real else SessionError notConfigured.

Definition getUser (configured : bool) (real : UserReply) : UserReply :=
  if configured then real else UserError notConfigured.

Definition signOut (configured : bool) (real : SignOutReply) : SignOutReply :=
  if configured then real else SignedOut.

(** ** Browser storage *)

(** [localStorage] as the ordered list [key(0), key(1), ...] with the
    values; keys are unique. *)
Definition Storage : Type := list (string * string).

Record Browser : Type := mkBrowser {
  localStorage : Storage;
  (** touching [localStorage] throws (storage disabled) *)
  storageBlocked : bool;
  (** the cookies [document.cookie] lists, all set on path [/] *)
  cookies : list (string * string);
  (** [signOut] requests sent so far, with their scope, oldest first *)
  signOutRequests : list string
}.

Definition setLocalStorage (ls : Storage) (b : Browser) : Browser :=
  mkBrowser ls (storageBlocked b) (cookies b) (signOutRequests b).
Definition setCookies (cs : list (string * string)) (b : Browser) : Browser :=
  mkBrowser (localStorage b) (storageBlocked b) cs (signOutRequests b).
Definition requestSignOut (scope : string) (b : Browser) : Browser :=
  mkBrowser (localStorage b) (storageBlocked b) (cookies b)
            (signOutRequests b ++ [scope]).

(** [localStorage.key(i)] *)
Definition key (i : nat) (ls : Storage) : option string :=
  nth_error (map fst ls) i.

(** [localStorage.removeItem(k)] *)
Definition removeItem (k : string) (ls : Storage) : Storage :=
  filter (fun kv => negb (String.eqb (fst kv) k)) ls.

(** [key.includes('supabase') || key.includes('sb-')] *)
Definition isAuthName (k : string) : bool :=
  includes k "supabase" || includes k "sb-".

(** The loop
    [for (let i = 0; i < localStorage.length; i++) { ... removeItem(key) }]
    started at index [i].  The index advances after a removal as well,
    exactly as written.  [fuel] bounds the iterations; [length ls - i]
    is enough ([sweepFrom_fuel] below). *)
Fixpoint sweepFrom (fuel i : nat) (ls : Storage) : Storage :=
  match fuel with
  | O => ls
  | S fuel' =>
      if (i <? length ls)%nat then
        match key i ls with
        | Some k =>
            if negb (String.eqb k "") && isAuthName k
            then sweepFrom fuel' (S i) (removeItem k ls)
            else sweepFrom fuel' (S i) ls
        | None => sweepFrom fuel' (S i) ls
        end
      else ls
  end.

Definition sweepLocalStorage (ls : Storage) : Storage :=
  sweepFrom (length ls) 0 ls.

(** [document.cookie.split(';').forEach(...)]: every listed cookie whose
    trimmed name matches is overwritten with an expired one. *)
Definition sweepCookies (cs : list (string * string)) : list (string * string) :=
  filter (fun c => negb (isAuthName (fst c))) cs.

(** ** [clearSupabaseAuth] *)

(** Up to the [await]: the local sweep in its own [try], then the
    [signOut] request. *)
Definition clearBegin (b : Browser) : Browser :=
  let b1 := if storageBlocked b then b
            else setLocalStorage (sweepLocalStorage (localStorage b)) b in
  requestSignOut "global" b1.

(** From the [await] on: a returned error is logged and ignored; a thrown
    one lands in the outer [catch], which skips the cookie sweep.  Both
    ways the function returns [true]. *)
Definition clearEnd (reply : SignOutReply) (b : Browser) : bool * Browser :=
  match reply with
  | SignOutThrows _ => (true, b)
  | SignOutError _ | SignedOut => (true, setCookies (sweepCookies (cookies b)) b)
  end.

Definition clearSupabaseAuth (reply : SignOutReply) (b : Browser) : bool * Browser :=
  clearEnd reply (clearBegin b).

(** No two entries of the kind the sweep looks for are neighbours. *)
Fixpoint spaced (ls : Storage) : bool :=
  match ls with
  | [] => true
  | a :: rest =>
      match rest with
      | b :: _ => negb (isAuthName (fst a) && isAuthName (fst b))
      | [] => true
      end && spaced rest
  end.

(** No entry of the kind the sweep looks for is left in [localStorage]:
    the stored sessions are cleared. *)
Definition storedSessionsCleared (b : Browser) : bool :=
  forallb (fun kv => negb (isAuthName (fst kv))) (localStorage b).

(** ** [checkSupabaseDB] *)

(** [false] when not configured, when [getUser] answers an error and
    when it throws; [true] otherwise.  It never throws itself. *)
Definition checkSupabaseDB (configured : bool) (real : UserReply) : bool :=
  if negb configured then false
  else match getUser configured real with
       | UserThrows _ => false
       | UserError _ => false
       | UserData _ => true
       end.

(** ** [checkSupabaseAuth] *)
Definition checkSupabaseAuth (configured : bool) (real : SessionReply) : bool :=
  if negb configured then false
  else match getSession configured real with
       | SessionThrows _ => false
       | SessionError _ => false
       | SessionData (Some _) => true
       | SessionData None => false
       end.

(** The entries the sweep does not look for. *)
Definition foreign (kv : string * string) : bool := negb (isAuthName (fst kv)).

End Supabase.

(* ================================================================== *)
(** * App.tsx: the Session Bootstrapper *)
(* ================================================================== *)

Module App.

Import Supabase.

(** Modelled from the spec: the [User] type of [types.ts], which is not
    among the sources ("attributes: id, email, role").  The code reads
    [email] and [role] only. *)
Record User : Type := mkUser {
  userId : string;
  userEmail : option string;
  role : string
}.

(** [await getCurrentUser()] of [lib/auth], whose answer is an input. *)
Inductive CurrentUserReply : Type :=
| CurrentUserThrows (e : Exn)
| CurrentUser (u : option User).

(** ** Component state: the [useState] cells of [App] *)

Record UI : Type := mkUI {
  user : option User;
  loading : bool;
  error : option string;
  authChecked : bool;
  connectionRetries : nat;
  debugInfo : list string;
  forceReset : bool;
  signOutInProgress : bool
}.

Definition initialUI : UI := mkUI None true None false 0 [] false false.

Definition setUser (u : option User) (s : UI) : UI :=
  mkUI u (loading s) (error s) (authChecked s) (connectionRetries s)
       (debugInfo s) (forceReset s) (signOutInProgress s).
Definition setLoading (b : bool) (s : UI) : UI :=
  mkUI (user s) b (error s) (authChecked s) (connectionRetries s)
       (debugInfo s) (forceReset s) (signOutInProgress s).
Definition setError (e : option string) (s : UI) : UI :=
  mkUI (user s) (loading s) e (authChecked s) (connectionRetries s)
       (debugInfo s) (forceReset s) (signOutInProgress s).
Definition setAuthChecked (b : bool) (s : UI) : UI :=
  mkUI (user s) (loading s) (error s) b (connectionRetries s)
       (debugInfo s) (forceReset s) (signOutInProgress s).
Definition setConnectionRetries (n : nat) (s : UI) : UI :=
  mkUI (user s) (loading s) (error s) (authChecked s) n
       (debugInfo s) (forceReset s) (signOutInProgress s).
Definition setDebugInfo (d : list string) (s : UI) : UI :=
  mkUI (user s) (loading s) (error s) (authChecked s) (connectionRetries s)
       d (forceReset s) (signOutInProgress s).
Definition setForceReset (b : bool) (s : UI) : UI :=
  mkUI (user s) (loading s) (error s) (authChecked s) (connectionRetries s)
       (debugInfo s) b (signOutInProgress s).
Definition setSignOutInProgress (b : bool) (s : UI) : UI :=
  mkUI (user s) (loading s) (error s) (authChecked s) (connectionRetries s)
       (debugInfo s) (forceReset s) b.

(** [setDebugInfo(prev => [...prev.slice(-9), message])] *)
Definition addDebugInfo (msg : string) (s : UI) : UI :=
  setDebugInfo (sliceLast 9 (debugInfo s) ++ [msg]) s.

(** ** [forceClearAuth], the body of the first effect *)

(** Up to [await clearSupabaseAuth()], which itself runs up to its own
    [await]. *)
Definition forceClearAuthBegin (st : UI * Browser) : UI * Browser :=
  let '(s, b) := st in
  (addDebugInfo "Performing forced sign out to clear any stale sessions"
     (setSignOutInProgress true s),
   clearBegin b).

(** After the [await]: [clearSupabaseAuth] never throws, so the [catch]
    is not entered; [finally] resets the flag. *)
Definition forceClearAuthEnd (reply : SignOutReply) (st : UI * Browser)
  : UI * Browser :=
  let '(s, b) := st in
  (setSignOutInProgress false (addDebugInfo "Forced sign out completed" s),
   snd (clearEnd reply b)).

(** ** [initializeAuth], cut at its [await]s *)

(** Where a running [initializeAuth] is suspended. *)
Inductive Await : Type :=
| AwaitSession           (* await supabase.auth.getSession() *)
| AwaitUser              (* await getCurrentUser() *)
| AwaitClearNoUser       (* await clearSupabaseAuth(), user was null *)
| AwaitClearAfterError.  (* await clearSupabaseAuth(), in the inner catch *)

(** What the suspended call is resumed with. *)
Inductive Reply : Type :=
| OfSession (r : SessionReply)
| OfCurrentUser (r : CurrentUserReply)
| OfSignOut (r : SignOutReply).

(** The [finally] block. *)
Definition initFinally (s : UI) : UI := setLoading false s.

(** The outer [catch (err)].  Its first statement reads [err.message]:
    when [err] is [null] or [undefined] that read throws, the block is
    left at once and neither the debug line nor the error is set. *)
Definition initCatch (err : Exn) (s : UI) : UI :=
  match err with
  | mkExn _ m =>
      setError (Some "Failed to initialize application")
        (addDebugInfo ("Initialization error: " ++ orElse m "Unknown error") s)
  | Nullish _ => s
  end.

(** From the call to [await supabase.auth.getSession()]. *)
Definition initStart (s : UI) : UI :=
  addDebugInfo "Checking session"
    (addDebugInfo "Starting initialization"
       (setError None (setLoading true s))).

(** From the session answer to the next [await], or to the end. *)
Definition initAfterSession (r : SessionReply) (s : UI) : UI * option Await :=
  match r with
  | SessionThrows err => (initFinally (initCatch err s), None)
  | SessionError sessionError =>
      (initFinally
         (setLoading false
            (setError (Some "Failed to check authentication status")
               (addDebugInfo ("Session error: " ++ message sessionError) s))),
       None)
  | SessionData None =>
      (initFinally
         (setAuthChecked true
            (setLoading false
               (setUser None (addDebugInfo "No session found" s)))),
       None)
  | SessionData (Some session) =>
      (addDebugInfo "Getting user data"
         (addDebugInfo
            ("Session found for: " ++ optOrElse (sessionUserEmail session) "unknown") s),
       Some AwaitUser)
  end.

(** From the answer of [getCurrentUser] on. *)
Definition initAfterUser (r : CurrentUserReply) (st : UI * Browser)
  : UI * Browser * option Await :=
  let '(s, b) := st in
  match r with
  | CurrentUser None =>
      (addDebugInfo "User data not found - session appears to be invalid" s,
       clearBegin b, Some AwaitClearNoUser)
  | CurrentUser (Some currentUser) =>
      (initFinally
         (setAuthChecked true
            (setUser (Some currentUser)
               (addDebugInfo
                  ("User data retrieved: " ++ optOrElse (userEmail currentUser) "null") s))),
       b, None)
  | CurrentUserThrows (mkExn _ m) =>
      (addDebugInfo ("User data error: " ++ orElse m "Unknown error") s,
       clearBegin b, Some AwaitClearAfterError)
  | CurrentUserThrows (Nullish typeError) =>
      (* [userError.message] throws in the inner [catch]: the [TypeError]
         goes to the outer [catch], and nothing is signed out *)
      (initFinally (initCatch (newError typeError) s), b, None)
  end.

(** From the return of an inner [clearSupabaseAuth] on. *)
Definition initAfterClear (inCatch : bool) (reply : SignOutReply) (st : UI * Browser)
  : UI * Browser :=
  let '(s, b) := st in
  let b' := snd (clearEnd reply b) in
  if inCatch
  then (initFinally (setAuthChecked true (setUser None s)), b')
  else (initFinally (setLoading false (setAuthChecked true (setUser None s))), b').

(** One resumption of a suspended [initializeAuth]; [None] when the
    answer is not the one awaited. *)
Definition resume (a : Await) (r : Reply) (st : UI * Browser)
  : option (UI * Browser * option Await) :=
  match a, r with
  | AwaitSession, OfSession r' =>
      let '(s', next) := initAfterSession r' (fst st) in Some (s', snd st, next)
  | AwaitUser, OfCurrentUser r' => Some (initAfterUser r' st)
  | AwaitClearNoUser, OfSignOut r' => Some (initAfterClear false r' st, None)
  | AwaitClearAfterError, OfSignOut r' => Some (initAfterClear true r' st, None)
  | _, _ => None
  end.

(** ** [initializeAuth] run to its end *)

(** The answers one run of [initializeAuth] may need. *)
Record Backend : Type := mkBackend {
  configured : bool;
  sessionReply : SessionReply;
  currentUserReply : CurrentUserReply;
  signOutReply : SignOutReply
}.

Definition initializeAuth (env : Backend) (st : UI * Browser) : UI * Browser :=
  let '(s, b) := st in
  let s0 := initStart s in
  match initAfterSession (getSession (configured env) (sessionReply env)) s0 with
  | (s1, None) => (s1, b)
  | (s1, Some _) =>
      match initAfterUser (currentUserReply env) (s1, b) with
      | (s2, b2, None) => (s2, b2)
      | (s2, b2, Some AwaitClearAfterError) =>
          initAfterClear true (signOut (configured env) (signOutReply env)) (s2, b2)
      | (s2, b2, Some _) =>
          initAfterClear false (signOut (configured env) (signOutReply env)) (s2, b2)
      end
  end.

(** One boot run to its end: the forced sign-out, then, once it has
    completed, [initializeAuth]. *)
Definition boot (forced : SignOutReply) (env : Backend) (st : UI * Browser)
  : UI * Browser :=
  initializeAuth env
    (forceClearAuthEnd (signOut (configured env) forced) (forceClearAuthBegin st)).

(** A session that does not resolve to a user: [getCurrentUser] returns
    [null], or throws a value other than [null] and [undefined]. *)
Definition unresolved (env : Backend) : Prop :=
  (exists session, getSession (configured env) (sessionReply env) = SessionData (Some session))
  /\ (currentUserReply env = CurrentUser None
      \/ exists isErr msg, currentUserReply env = CurrentUserThrows (mkExn isErr msg)).

(** ** [handleRetry] *)
Definition handleRetry (s : UI) : UI :=
  addDebugInfo
    ("Retrying connection (attempt " ++ showNat (connectionRetries s + 1) ++ ")")
    (setForceReset (negb (forceReset s))
       (setConnectionRetries (connectionRetries s + 1) s)).

(** ** The auth-state listener of the second effect *)
Inductive AuthEvent : Type := SIGNED_IN | TOKEN_REFRESHED | SIGNED_OUT | OtherAuthEvent (name : string).

Definition authEventName (ev : AuthEvent) : string :=
  match ev with
  | SIGNED_IN => "SIGNED_IN"
  | TOKEN_REFRESHED => "TOKEN_REFRESHED"
  | SIGNED_OUT => "SIGNED_OUT"
  | OtherAuthEvent n => n
  end.

Definition onAuthStateChange (ev : AuthEvent) (r : CurrentUserReply)
  (signOutR : SignOutReply) (st : UI * Browser) : UI * Browser :=
  let '(s, b) := st in
  let s := addDebugInfo ("Auth state change: " ++ authEventName ev) s in
  match ev with
  | SIGNED_IN | TOKEN_REFRESHED =>
      match r with
      | CurrentUser (Some currentUser) =>
          (addDebugInfo ("User signed in: " ++ optOrElse (userEmail currentUser) "unknown")
             (setUser (Some currentUser) s), b)
      | CurrentUser None =>
          (setUser None (addDebugInfo "Auth event received but user data not found" s),
           snd (clearSupabaseAuth signOutR b))
      | CurrentUserThrows (mkExn _ m) =>
          (addDebugInfo ("Auth change error: " ++ orElse m "Unknown error") s, b)
      | CurrentUserThrows (Nullish _) =>
          (* [err.message] throws in the [catch]: the listener ends there *)
          (s, b)
      end
  | SIGNED_OUT => (addDebugInfo "User signed out" (setUser None s), b)
  | OtherAuthEvent _ => (s, b)
  end.

(** ** [handleForceReset] *)

(** [clearSupabaseAuth] does not throw, so the [catch] is not entered and
    the assignment [window.location.href = '/auth'] is always reached; the
    third component is that assignment. *)
Definition handleForceReset (reply : SignOutReply) (st : UI * Browser)
  : UI * Browser * option string :=
  let '(s, b) := st in
  (addDebugInfo "User initiated full reset" s,
   snd (clearSupabaseAuth reply b),
   Some "/auth").

(** ** What [App] renders *)

(** The elements of the route table, and [<Navigate to replace />]. *)
Inductive Element : Type :=
| AuthPage
| DeletionStatusPage
| DashboardPage
| MessagesPage
| MessageDetailPage
| SettingsPage
| FacebookCallbackPage
| InstagramCallbackPage
| AdminDashboardPage
| AdminUserManagementPage
| AdminUserDetailPage
| AdminWebhookSetupPage
| NavigateTo (to : string) (replace : bool).

(** The layout route an element is nested in. *)
Inductive Frame : Type := Bare | InLayout | InAdminLayout.

(** One segment of a route path: a literal, a [:param] or the splat. *)
Inductive Segment : Type :=
| Lit (s : string)
| Param (name : string)
| Splat.

Record Route : Type := mkRoute {
  path : list Segment;
  frame : Frame;
  element : Element
}.

(** The children of [<Routes>], nested paths joined, for the [user] of
    the render. *)
Definition routes (u : option User) : list Route :=
  match u with
  | None =>
      [mkRoute [Lit "auth"] Bare AuthPage;
       mkRoute [Lit "deletion-status"] Bare DeletionStatusPage;
       mkRoute [Splat] Bare (NavigateTo "/auth" true)]
  | Some usr =>
      [mkRoute [Lit "dashboard"] InLayout DashboardPage;
       mkRoute [Lit "messages"] InLayout MessagesPage;
       mkRoute [Lit "messages"; Param "id"] InLayout MessageDetailPage;
       mkRoute [Lit "settings"] InLayout SettingsPage]
      ++ (if String.eqb (role usr) "admin"
          then [mkRoute [Lit "admin"] InAdminLayout AdminDashboardPage;
                mkRoute [Lit "admin"; Lit "users"] InAdminLayout AdminUserManagementPage;
                mkRoute [Lit "admin"; Lit "users"; Param "userId"] InAdminLayout
                        AdminUserDetailPage;
                mkRoute [Lit "admin"; Lit "webhooks"] InAdminLayout AdminWebhookSetupPage]
          else [])
      ++ [mkRoute [Lit "oauth"; Lit "facebook"; Lit "callback"] Bare FacebookCallbackPage;
          mkRoute [Lit "oauth"; Lit "instagram"; Lit "callback"] Bare InstagramCallbackPage;
          mkRoute [Lit "deletion-status"] Bare DeletionStatusPage;
          mkRoute [Splat] Bare (NavigateTo "/dashboard" true)]
  end.

(** ASCII lower case: the router compares literal segments without
    regard to case. *)
Definition lowerAscii (c : ascii) : ascii :=
  let n := nat_of_ascii c in
  if (Nat.leb 65 n && Nat.leb n 90)%bool then ascii_of_nat (n + 32) else c.

Fixpoint lower (s : string) : string :=
  match s with
  | EmptyString => EmptyString
  | String c rest => String (lowerAscii c) (lower rest)
  end.

(** A route path against the non-empty segments of a location: a literal
    matches itself, a parameter any one segment, the splat any rest. *)
Fixpoint matches (pattern : list Segment) (location : list string) : bool :=
  match pattern, location with
  | [], [] => true
  | Splat :: _, _ => true
  | Lit s :: pattern', seg :: location' =>
      String.eqb (lower s) (lower seg) && matches pattern' location'
  | Param _ :: pattern', _ :: location' => matches pattern' location'
  | _, _ => false
  end.

Definition isSplat (r : Route) : bool :=
  match path r with
  | [Splat] => true
  | _ => false
  end.

(** The route the router picks: a matching route that is not the
    catch-all outranks the catch-all. *)
Definition pick (table : list Route) (location : list string) : option Route :=
  match find (fun r => negb (isSplat r) && matches (path r) location) table with
  | Some r => Some r
  | None => find (fun r => matches (path r) location) table
  end.

(** What the component returns. *)
Inductive Screen : Type :=
| LoadingScreen (retryButtons : bool)
| ErrorScreen (message : string)
| Routed (r : option Route).

Definition render (s : UI) (location : list string) : Screen :=
  if loading s && negb (authChecked s)
  then LoadingScreen (Nat.ltb 0 (length (debugInfo s)) && Nat.ltb 2 (length (debugInfo s)))
  else match error s with
       | Some e => if String.eqb e "" then Routed (pick (routes (user s)) location)
                   else ErrorScreen e
       | None => Routed (pick (routes (user s)) location)
       end.

(** The elements only a signed-in user may be shown, and those of the
    admin sub-tree. *)
Definition needsUser (e : Element) : bool :=
  match e with
  | AuthPage | DeletionStatusPage | NavigateTo _ _ => false
  | _ => true
  end.

Definition isAdminElement (e : Element) : bool :=
  match e with
  | AdminDashboardPage | AdminUserManagementPage | AdminUserDetailPage
  | AdminWebhookSetupPage => true
  | _ => false
  end.


(** ** The two boot effects under React's scheduling

    What is modelled.  Each event handler, timer callback or promise
    continuation runs to completion; the setter calls it made are then
    committed, and the effects whose dependency arrays changed run before
    anything else happens ([settle]): a timer armed by an effect cannot
    fire between the setter call of another effect of the same commit and
    the re-render that call causes.  Timers and backend answers arrive in
    any order.  The third effect (a ten-second warning that only writes a
    debug line) is left out, and so are the calls of the auth-state
    listener ([onAuthStateChange] above): they write [user] and
    [debugInfo] only, which no dependency array reads. *)

(** The calls the ordering property of the boot sequence is about. *)
Inductive Call : Type :=
| ForcedSignOutBegins    (* forceClearAuth calls clearSupabaseAuth *)
| ForcedSignOutEnds      (* that clearSupabaseAuth has returned *)
| SessionCheckBegins.    (* initializeAuth calls supabase.auth.getSession *)

Record Sys : Type := mkSys {
  ui : UI;
  browser : Browser;
  (** [forceReset] as the first effect last saw it; [None] before mount *)
  forceDeps : option bool;
  (** [connectionRetries, signOutInProgress] as the second effect last saw them *)
  initDeps : option (nat * bool);
  (** the pending [initTimeout]: its delay in ms and the
      [signOutInProgress] its callback closed over *)
  initTimeout : option (nat * bool);
  (** the auth-state subscription of the second effect is active *)
  subscribed : bool;
  (** [forceClearAuth] calls waiting for [clearSupabaseAuth] *)
  forcedInFlight : nat;
  (** [initializeAuth] calls in flight, oldest first *)
  inits : list Await;
  (** the calls made so far, oldest first *)
  calls : list Call
}.

Definition withUI (f : UI -> UI) (s : Sys) : Sys :=
  mkSys (f (ui s)) (browser s) (forceDeps s) (initDeps s) (initTimeout s)
        (subscribed s) (forcedInFlight s) (inits s) (calls s).

Definition eqbForceDeps (d : option bool) (now : bool) : bool :=
  match d with
  | Some b => Bool.eqb b now
  | None => false
  end.

Definition eqbInitDeps (d : option (nat * bool)) (now : nat * bool) : bool :=
  match d with
  | Some (n, b) => Nat.eqb n (fst now) && Bool.eqb b (snd now)
  | None => false
  end.

(** The first, the second, some effect has to run for the state as
    rendered. *)
Definition forcePending (s : Sys) : bool :=
  negb (eqbForceDeps (forceDeps s) (forceReset (ui s))).

Definition initPending (s : Sys) : bool :=
  negb (eqbInitDeps (initDeps s) (connectionRetries (ui s), signOutInProgress (ui s))).

Definition effectsPending (s : Sys) : bool := forcePending s || initPending s.

(** The clean-up the second effect returned: [clearTimeout(initTimeout)]
    and [subscription.unsubscribe()].  After an early [return] there is
    none, and nothing is armed either. *)
Definition initCleanup (s : Sys) : Sys :=
  mkSys (ui s) (browser s) (forceDeps s) (initDeps s) None
        false (forcedInFlight s) (inits s) (calls s).

(** The first effect: [forceClearAuth()]. *)
Definition forceEffect (rendered : UI) (s : Sys) : Sys :=
  let '(u, b) := forceClearAuthBegin (ui s, browser s) in
  mkSys u b (Some (forceReset rendered)) (initDeps s) (initTimeout s)
        (subscribed s) (S (forcedInFlight s)) (inits s)
        (calls s ++ [ForcedSignOutBegins]).

(** The second effect, for the values of the render it belongs to:
    [if (signOutInProgress) return;] else arm the timer and subscribe. *)
Definition initEffect (rendered : UI) (s : Sys) : Sys :=
  let deps := Some (connectionRetries rendered, signOutInProgress rendered) in
  if signOutInProgress rendered
  then mkSys (ui s) (browser s) (forceDeps s) deps (initTimeout s)
             (subscribed s) (forcedInFlight s) (inits s) (calls s)
  else mkSys (ui s) (browser s) (forceDeps s) deps
             (Some (connectionRetries rendered * 500, signOutInProgress rendered))
             true (forcedInFlight s) (inits s) (calls s).

(** One commit: clean-ups of the effects that changed, then their bodies
    in declaration order, all seeing the rendered values. *)
Definition runEffects (s : Sys) : Sys :=
  let rendered := ui s in
  let force := forcePending s in
  let init := initPending s in
  let s1 := if init then initCleanup s else s in
  let s2 := if force then forceEffect rendered s1 else s1 in
  if init then initEffect rendered s2 else s2.

(** Commits until no effect is pending; two rounds always suffice
    ([settle_quiet]). *)
Fixpoint settleN (fuel : nat) (s : Sys) : Sys :=
  match fuel with
  | O => s
  | S fuel' => if effectsPending s then settleN fuel' (runEffects s) else s
  end.

Definition settle (s : Sys) : Sys := settleN 2 s.

(** The component before its first commit, and once mounted. *)
Definition unmounted (b : Browser) : Sys :=
  mkSys initialUI b None None None false 0 [] [].

Definition mount (b : Browser) : Sys := settle (unmounted b).

(** A retry control is on screen: on the loading screen the button shows
    once more than two debug lines exist; the error screen always has
    one; otherwise the connection banner carries one whenever it is
    visible, which this component does not decide. *)
Definition retryOffered (s : UI) : bool :=
  if loading s && negb (authChecked s)
  then Nat.ltb 0 (length (debugInfo s)) && Nat.ltb 2 (length (debugInfo s))
  else true.

(** What can happen next. *)
Inductive Event : Type :=
| ForcedSignOutSettles (r : SignOutReply)
| InitTimeoutFires
| InitResumes (i : nat) (r : Reply)
| ClickRetry.

(** [l] with its [i]-th element replaced by [x], or removed. *)
Fixpoint replaceNth {A : Type} (i : nat) (x : option A) (l : list A) : list A :=
  match l, i with
  | [], _ => []
  | _ :: t, O => match x with Some y => y :: t | None => t end
  | h :: t, S i' => h :: replaceNth i' x t
  end.

(** One event, handled to completion and committed; [None] when the
    event cannot happen in [s].  A click is always taken; whether a retry
    control was on screen for it is what [retriesOffered] checks. *)
Definition step (s : Sys) (ev : Event) : option Sys :=
  match ev with
  | ForcedSignOutSettles r =>
      match forcedInFlight s with
      | O => None
      | S n =>
          let '(u, b) := forceClearAuthEnd r (ui s, browser s) in
          Some (settle (mkSys u b (forceDeps s) (initDeps s) (initTimeout s)
                          (subscribed s) n (inits s)
                          (calls s ++ [ForcedSignOutEnds])))
      end
  | InitTimeoutFires =>
      match initTimeout s with
      | None => None
      | Some (_, closedOver) =>
          let s' := mkSys (ui s) (browser s) (forceDeps s) (initDeps s) None
                          (subscribed s) (forcedInFlight s) (inits s) (calls s) in
          if closedOver then Some (settle s')
          else Some (settle
                       (mkSys (initStart (ui s')) (browser s') (forceDeps s')
                          (initDeps s') None (subscribed s') (forcedInFlight s')
                          (inits s' ++ [AwaitSession])
                          (calls s' ++ [SessionCheckBegins])))
      end
  | InitResumes i r =>
      match nth_error (inits s) i with
      | None => None
      | Some a =>
          match resume a r (ui s, browser s) with
          | None => None
          | Some (u, b, next) =>
              Some (settle (mkSys u b (forceDeps s) (initDeps s) (initTimeout s)
                              (subscribed s) (forcedInFlight s)
                              (replaceNth i next (inits s)) (calls s)))
          end
      end
  | ClickRetry => Some (settle (withUI handleRetry s))
  end.

Fixpoint run (s : Sys) (evs : list Event) : option Sys :=
  match evs with
  | [] => Some s
  | ev :: rest =>
      match step s ev with
      | Some s' => run s' rest
      | None => None
      end
  end.

(** ** The ordering property on the calls made *)

(** Forced sign-outs begun and not yet ended after [l], given [open]
    before it. *)
Fixpoint openAfter (open : nat) (l : list Call) : nat :=
  match l with
  | [] => open
  | ForcedSignOutBegins :: l' => openAfter (S open) l'
  | ForcedSignOutEnds :: l' => openAfter (pred open) l'
  | SessionCheckBegins :: l' => openAfter open l'
  end.

(** Every session check in [l] begins while no forced sign-out is in
    progress. *)
Fixpoint signOutFirstFrom (open : nat) (l : list Call) : bool :=
  match l with
  | [] => true
  | ForcedSignOutBegins :: l' => signOutFirstFrom (S open) l'
  | ForcedSignOutEnds :: l' => signOutFirstFrom (pred open) l'
  | SessionCheckBegins :: l' => Nat.eqb open 0 && signOutFirstFrom open l'
  end.

Definition signOutFirst (l : list Call) : bool := signOutFirstFrom 0 l.

(** What the runs in which retries keep apart maintain: no effect is
    pending; the forced sign-outs the log shows as begun and not ended are
    the ones in flight, at most one; every session check so far began with
    none in flight; and while one is in flight no timer of the second
    effect is armed. *)
Definition orderly (s : Sys) : Prop :=
  effectsPending s = false
  /\ openAfter 0 (calls s) = forcedInFlight s
  /\ signOutFirst (calls s) = true
  /\ forcedInFlight s <= 1
  /\ (forcedInFlight s = 1 -> initTimeout s = None).

(** Every retry clicked in [evs] is clicked on a control that is on
    screen. *)
Fixpoint retriesOffered (s : Sys) (evs : list Event) : bool :=
  match evs with
  | [] => true
  | ev :: rest =>
      (match ev with
       | ClickRetry => retryOffered (ui s)
       | _ => true
       end)
      && match step s ev with
         | Some s' => retriesOffered s' rest
         | None => true
         end
  end.

(** What every run maintains: no effect is pending; the debug lines are
    at most ten; and an armed [initTimeout] carries the delay
    [connectionRetries * 500], was armed by a render that saw no sign-out
    in progress, and none has been flagged since. *)
Definition tidy (s : Sys) : Prop :=
  effectsPending s = false
  /\ length (debugInfo (ui s)) <= 10
  /\ (forall d c, initTimeout s = Some (d, c) ->
                  d = connectionRetries (ui s) * 500
                  /\ c = false
                  /\ signOutInProgress (ui s) = false).


(** No retry is clicked in [evs] while a forced sign-out is in progress. *)
Fixpoint retriesApart (s : Sys) (evs : list Event) : bool :=
  match evs with
  | [] => true
  | ev :: rest =>
      (match ev with
       | ClickRetry => Nat.eqb (forcedInFlight s) 0
       | _ => true
       end)
      && match step s ev with
         | Some s' => retriesApart s' rest
         | None => true
         end
  end.

End App.

(* ================================================================== *)
(** * components/ConnectionStatus.tsx: the Connectivity Monitor *)
(* ================================================================== *)

Module ConnectionStatus.

Import Supabase.

Inductive Status : Type := checking | connected | disconnected.

Record State : Type := mkState {
  isOnline : bool;
  supabaseStatus : Status;
  lastChecked : string;
  checkCount : nat;
  errorMessage : string;
  debugInfo : list string;
  retryAttempts : nat
}.

(** [useState] initial values; [navigator.onLine] is an input. *)
Definition initialState (navigatorOnLine : bool) : State :=
  mkState navigatorOnLine checking "" 0 "" [] 0.

Definition setIsOnline (b : bool) (s : State) : State :=
  mkState b (supabaseStatus s) (lastChecked s) (checkCount s) (errorMessage s)
          (debugInfo s) (retryAttempts s).
Definition setSupabaseStatus (x : Status) (s : State) : State :=
  mkState (isOnline s) x (lastChecked s) (checkCount s) (errorMessage s)
          (debugInfo s) (retryAttempts s).
Definition setLastChecked (t : string) (s : State) : State :=
  mkState (isOnline s) (supabaseStatus s) t (checkCount s) (errorMessage s)
          (debugInfo s) (retryAttempts s).
Definition setCheckCount (n : nat) (s : State) : State :=
  mkState (isOnline s) (supabaseStatus s) (lastChecked s) n (errorMessage s)
          (debugInfo s) (retryAttempts s).
Definition setErrorMessage (m : string) (s : State) : State :=
  mkState (isOnline s) (supabaseStatus s) (lastChecked s) (checkCount s) m
          (debugInfo s) (retryAttempts s).
Definition setDebugInfo (d : list string) (s : State) : State :=
  mkState (isOnline s) (supabaseStatus s) (lastChecked s) (checkCount s)
          (errorMessage s) d (retryAttempts s).
Definition setRetryAttempts (n : nat) (s : State) : State :=
  mkState (isOnline s) (supabaseStatus s) (lastChecked s) (checkCount s)
          (errorMessage s) (debugInfo s) n.

Definition addDebugInfo (msg : string) (s : State) : State :=
  setDebugInfo (sliceLast 9 (debugInfo s) ++ [msg]) s.

(** ** Network transitions *)



(** ** The probe *)

(** What one probe is answered. *)
Record Probe : Type := mkProbe {
  configured : bool;
  sessionReply : SessionReply;
  userReply : UserReply;
  (** [new Date().toLocaleTimeString()] *)
  localeTime : string
}.

Definition eqbStatus (a b : Status) : bool :=
  match a, b with
  | checking, checking | connected, connected | disconnected, disconnected => true
  | _, _ => false
  end.

Local Open Scope js_scope.

(** The first check: [true] when it decided the probe ([return]). *)
Definition sessionCheck (p : Probe) : M State bool :=
  tryCatch
    (match getSession (configured p) (sessionReply p) with
     | SessionThrows e => throw e
     | SessionError err =>
         modify (addDebugInfo ("Session check error: " ++ message err)) ;;;
         ret false
     | SessionData _ =>
         modify (addDebugInfo "Session check succeeded") ;;;
         modify (setSupabaseStatus connected) ;;;
         modify (setErrorMessage "") ;;;
         modify (setRetryAttempts 0) ;;;
         ret true
     end)
    (fun sessionError =>
       modify (addDebugInfo
                 ("Session check failed: " ++ messageOr sessionError "Unknown error")) ;;;
       ret false).

(** The fallback check through [checkSupabaseDB], which does not throw. *)
Definition dbCheck (p : Probe) : M State bool :=
  tryCatch
    (isConnected <- ret (checkSupabaseDB (configured p) (userReply p)) ;;
     if (isConnected : bool) then
       modify (addDebugInfo "DB check succeeded") ;;;
       modify (setSupabaseStatus connected) ;;;
       modify (setErrorMessage "") ;;;
       modify (setRetryAttempts 0) ;;;
       ret true
     else
       modify (addDebugInfo "DB check failed") ;;;
       ret false)
    (fun dbCheckError =>
       let errorMsg := messageOr dbCheckError "Unknown error" in
       modify (addDebugInfo ("DB check error: " ++ errorMsg)) ;;;
       (if includes errorMsg "timeout" then
          modify (setErrorMessage "The server is taking too long to respond")
        else if includes errorMsg "Failed to fetch" || includes errorMsg "Unable to reach" then
          modify (setErrorMessage "Cannot connect to the Supabase server")
        else modify (setErrorMessage errorMsg)) ;;;
       ret false).

(** [checkSupabaseConnection] as created by the render [rendered]: the
    callback closes over that render's [isOnline] and [errorMessage]. *)
Definition checkSupabaseConnection (p : Probe) (rendered : State) : M State unit :=
  if negb (isOnline rendered) then
    modify (setSupabaseStatus disconnected) ;;;
    modify (setErrorMessage "Your device is offline") ;;;
    modify (addDebugInfo "Network offline, skipping Supabase check")
  else
    tryCatch
      (modify (setSupabaseStatus checking) ;;;
       modify (addDebugInfo "Checking Supabase connection...") ;;;
       done <- sessionCheck p ;;
       if (done : bool) then ret tt
       else
         done' <- dbCheck p ;;
         if (done' : bool) then ret tt
         else
           modify (setSupabaseStatus disconnected) ;;;
           (if String.eqb (errorMessage rendered) ""
            then modify (setErrorMessage "Cannot connect to the database")
            else ret tt) ;;;
           modify (addDebugInfo "Supabase connection checks failed") ;;;
           modify (setLastChecked (localeTime p)) ;;;
           modify (fun s => setCheckCount (checkCount s + 1) s))
      (fun error =>
         modify (addDebugInfo
                   ("Connection check error: " ++ messageOr error "Unknown error")) ;;;
         modify (setSupabaseStatus disconnected) ;;;
         modify (setErrorMessage "Unable to check connection status") ;;;
         modify (setLastChecked (localeTime p))).

(** A probe called from the render that shows [s]. *)
Definition probe (p : Probe) (s : State) : State :=
  exec (checkSupabaseConnection p s) s.

Local Close Scope js_scope.

(** The session-presence check and the identity-lookup check, as the
    probe judges them. *)
Definition sessionCheckSucceeds (p : Probe) : bool :=
  match getSession (configured p) (sessionReply p) with
  | SessionData _ => true
  | _ => false
  end.

Definition identityCheckSucceeds (p : Probe) : bool :=
  checkSupabaseDB (configured p) (userReply p).

(** ** Scheduling *)

Definition baseDelay : Z := 5000.
Definition maxDelay : Z := 120000.

(** [getRetryDelay], with the draw of [Math.random()] as an input.
    [baseDelay * Math.pow(2, retryAttempts)] is an integer that a double
    holds exactly as long as it is finite, and the minimum with
    [maxDelay] is [maxDelay] from attempt 5 on, also once the product
    has overflowed; the product with the draw and the sum are rounded. *)
Definition getRetryDelay (retryAttempts : nat) (random : Q) : Q :=
  if Nat.eqb retryAttempts 0 then inject_Z baseDelay
  else toDouble (inject_Z (Z.min (baseDelay * 2 ^ Z.of_nat retryAttempts) maxDelay)
                 + toDouble (random * inject_Z 1000))%Q.

(** The body of the scheduling effect: [None] when it returns early on
    the login page, else the delay of the timer it arms (after the
    immediate probe). *)
Definition scheduledDelay (pathname : string) (random : Q) (s : State) : option Q :=
  if includes pathname "/auth" && negb (eqbStatus (supabaseStatus s) checking)
  then None
  else Some (getRetryDelay (retryAttempts s) random).

(** The timer callback: [checkSupabaseConnection(); setRetryAttempts(prev => prev + 1)].
    The probe's writes to [retryAttempts] all come after its first
    [await], hence after the increment. *)
Definition scheduledProbe (p : Probe) (s : State) : State :=
  exec (checkSupabaseConnection p s) (setRetryAttempts (retryAttempts s + 1) s).

(** [handleRetry]: the probe it starts is the one created by the render
    before the two resets. *)
Definition handleRetry (p : Probe) (s : State) : State :=
  exec (checkSupabaseConnection p s) (setRetryAttempts 0 (setErrorMessage "" s)).


(** The delay the spec gives for attempt [n]:
    [min(baseDelay * 2^n, maxDelay) + jitter]. *)
Definition backoff (n : nat) : Z := Z.min (5000 * 2 ^ Z.of_nat n) 120000.


(** The component renders nothing. *)
Definition hidden (s : State) : bool :=
  isOnline s && eqbStatus (supabaseStatus s) connected.

(** Both checks of a probe fail. *)
Definition bothFail (p : Probe) : bool :=
  negb (sessionCheckSucceeds p || identityCheckSucceeds p).

(** The two automatic starts of a probe: the scheduling effect calls
    [checkSupabaseConnection] when it runs, and its timer callback calls
    it and counts one retry. *)
Inductive Check : Type :=
| ByEffect (p : Probe)
| ByTimer (p : Probe).

Definition probeOf (c : Check) : Probe :=
  match c with
  | ByEffect p | ByTimer p => p
  end.

Definition runCheck (s : State) (c : Check) : State :=
  match c with
  | ByEffect p => probe p s
  | ByTimer p => scheduledProbe p s
  end.

(** Automatic checks one after the other, each started from the render
    the one before it left. *)
Definition runChecks (cs : list Check) (s : State) : State := fold_left runCheck cs s.

(** How many of the checks the timer started. *)
Definition timerChecks (cs : list Check) : nat :=
  length (filter (fun c => match c with ByTimer _ => true | ByEffect _ => false end) cs).


(** The text of the banner; [None] when the component renders nothing. *)
Definition banner (s : State) : option string :=
  if hidden s then None
  else if negb (isOnline s)
       then Some "You are currently offline. Please check your internet connection."
       else if eqbStatus (supabaseStatus s) disconnected
            then Some (orElse (errorMessage s)
                         "Unable to connect to the server. Some features may not work correctly.")
            else Some "Checking connection...".


End ConnectionStatus.

(* ================================================================== *)
(** * The [social_connections] table *)
(* ================================================================== *)

Module Db.

(** Modelled from the spec: the persisted row shape of section 6,
    [{user_id, fb_page_id?, ig_account_id?, access_token, token_expiry,
    refreshed_at?}], with the [id] column the update filters on, and the
    store's [select], [insert] and [update] "filtered by equality
    predicates".  The store itself is the hosted service. *)
Record Row : Type := mkRow {
  id : nat;
  user_id : string;
  fb_page_id : option string;
  ig_account_id : option string;
  access_token : string;
  token_expiry : string;
  refreshed_at : option string
}.

Definition Table : Type := list Row.

(** The columns an insert supplies; the store assigns [id]. *)
Record NewRow : Type := mkNewRow {
  new_user_id : string;
  new_fb_page_id : option string;
  new_ig_account_id : option string;
  new_access_token : string;
  new_token_expiry : string
}.

Definition eqbOpt (a : option string) (b : string) : bool :=
  match a with
  | Some x => String.eqb x b
  | None => false
  end.

(** [.select('*').eq('user_id', u).eq('fb_page_id', p)] *)
Definition selectByUserAndPage (u p : string) (t : Table) : list Row :=
  filter (fun r => String.eqb (user_id r) u && eqbOpt (fb_page_id r) p) t.

(** [.update({access_token, token_expiry, refreshed_at}).eq('id', i)] *)
Definition updateById (i : nat) (token expiry refreshed : string) (t : Table) : Table :=
  map (fun r =>
         if Nat.eqb (id r) i
         then mkRow (id r) (user_id r) (fb_page_id r) (ig_account_id r)
                    token expiry (Some refreshed)
         else r) t.

(** An id no row of [t] has. *)
Definition freshId (t : Table) : nat := S (fold_right Nat.max 0 (map id t)).

(** [.insert(row)] *)
Definition insert (n : NewRow) (t : Table) : Table :=
  t ++ [mkRow (freshId t) (new_user_id n) (new_fb_page_id n) (new_ig_account_id n)
              (new_access_token n) (new_token_expiry n) None].

(** A request sent to the table. *)
Inductive Request : Type :=
| Select (u p : string)
| Update (i : nat)
| Insert (n : NewRow).

(** The (user, Facebook page) and (user, Instagram account) pairs of the
    rows of [t], one per row that names such an account. *)
Definition fbPairs (t : Table) : list (string * string) :=
  flat_map (fun r => match fb_page_id r with
                     | Some p => [(user_id r, p)]
                     | None => []
                     end) t.



(** The columns no request of the callback pages writes once the row
    exists: the update sets only [access_token], [token_expiry] and
    [refreshed_at]. *)
Definition account (r : Row) : nat * string * option string * option string :=
  (id r, user_id r, fb_page_id r, ig_account_id r).

(** The row names exactly one provider account. *)
Definition oneProvider (a : nat * string * option string * option string) : bool :=
  match a with
  | (_, _, Some _, None) | (_, _, None, Some _) => true
  | _ => false
  end.


(** The request changes the table when it is carried out. *)
Definition isWrite (r : Request) : bool :=
  match r with
  | Select _ _ => false
  | Update _ | Insert _ => true
  end.


End Db.

(* ================================================================== *)
(** * The two OAuth callback pages *)
(* ================================================================== *)

Module OAuth.

Inductive Status : Type := processing | success | error.

(** [navigate(to, { replace })] *)
Record Navigation : Type := mkNavigation { to : string; replace : bool }.

(** What a callback page shows, and what it has done to the outside:
    the table, the requests sent to it, and the timers armed with the
    navigation each will perform. *)
Record State : Type := mkState {
  errorText : option string;
  isProcessing : bool;
  status : Status;
  debugInfo : list string;
  table : Db.Table;
  requests : list Db.Request;
  timers : list (nat * Navigation)
}.

(** The page as first rendered, over the table [t]. *)
Definition initialState (t : Db.Table) : State :=
  mkState None true processing [] t [] [].

Definition setError (e : option string) (s : State) : State :=
  mkState e (isProcessing s) (status s) (debugInfo s) (table s) (requests s) (timers s).
Definition setProcessing (b : bool) (s : State) : State :=
  mkState (errorText s) b (status s) (debugInfo s) (table s) (requests s) (timers s).
Definition setStatus (x : Status) (s : State) : State :=
  mkState (errorText s) (isProcessing s) x (debugInfo s) (table s) (requests s) (timers s).
Definition setDebugInfo (d : list string) (s : State) : State :=
  mkState (errorText s) (isProcessing s) (status s) d (table s) (requests s) (timers s).
Definition setTable (t : Db.Table) (s : State) : State :=
  mkState (errorText s) (isProcessing s) (status s) (debugInfo s) t (requests s) (timers s).
Definition sent (r : Db.Request) (s : State) : State :=
  mkState (errorText s) (isProcessing s) (status s) (debugInfo s) (table s)
          (requests s ++ [r]) (timers s).
(** [setTimeout(() => navigate(to, { replace }), ms)] *)
Definition setTimeout (ms : nat) (n : Navigation) (s : State) : State :=
  mkState (errorText s) (isProcessing s) (status s) (debugInfo s) (table s)
          (requests s) (timers s ++ [(ms, n)]).

(** [new URLSearchParams(location.search)], parsed. *)
Definition URLSearchParams : Type := list (string * string).

(** [params.get(name)]: the first value under [name], or [null]. *)
Fixpoint get (name : string) (params : URLSearchParams) : option string :=
  match params with
  | [] => None
  | (k, v) :: rest => if String.eqb k name then Some v else get name rest
  end.

Definition eqbStatus (a b : Status) : bool :=
  match a, b with
  | processing, processing | success, success | error, error => true
  | _, _ => false
  end.

End OAuth.

Module FacebookCallback.

Import Supabase OAuth.
Local Open Scope js_scope.

(** What one run of the page is given. *)
Record Env : Type := mkEnv {
  search : URLSearchParams;
  configured : bool;
  userReply : UserReply;
  (** the error field of the three table answers, if any *)
  connectionError : option Exn;
  updateError : option Exn;
  insertError : option Exn;
  (** [expiryDate.toISOString()] and [new Date().toISOString()] *)
  expiryIso : string;
  nowIso : string;
  (** [new Date().toISOString().slice(11, 19)] at the [k]-th debug line *)
  clock : nat -> string
}.

Definition addDebugInfo (env : Env) (msg : string) : M State unit :=
  modify (fun s =>
            setDebugInfo
              (debugInfo s ++ [(clock env (length (debugInfo s)) ++ ": " ++ msg)%string]) s).

(** [mockPages[0]] *)
Definition selectedPageId : string := "540380515830720".
Definition selectedPageName : string := "Test Page".
Definition mockToken : string := "EAATk...mockToken123456789".

(** [if (e) { addDebugInfo(label + e.message); throw e }] *)
Definition throwIfError (env : Env) (label : string) (e : option Exn) : M State unit :=
  match e with
  | Some err => addDebugInfo env (label ++ message err) ;;; throw err
  | None => ret tt
  end.

(** The inner [try] block: the simulated exchange and the persistence
    step. *)
Definition persist (env : Env) (userId : string) : M State unit :=
  addDebugInfo env "Simulating Facebook token exchange..." ;;;
  addDebugInfo env ("Selected page: " ++ selectedPageName ++ " (" ++ selectedPageId ++ ")") ;;;
  addDebugInfo env ("Storing connection for page ID: " ++ selectedPageId) ;;;
  modify (sent (Db.Select userId selectedPageId)) ;;;
  throwIfError env "Error checking existing connections: " (connectionError env) ;;;
  existingConnections <- gets (fun s => Db.selectByUserAndPage userId selectedPageId (table s)) ;;
  match existingConnections with
  | first :: _ =>
      addDebugInfo env "Updating existing connection" ;;;
      modify (sent (Db.Update (Db.id first))) ;;;
      throwIfError env "Error updating connection: " (updateError env) ;;;
      modify (fun s => setTable (Db.updateById (Db.id first) mockToken
                                   (expiryIso env) (nowIso env) (table s)) s)
  | [] =>
      let row := Db.mkNewRow userId (Some selectedPageId) None mockToken (expiryIso env) in
      addDebugInfo env "Creating new Facebook connection" ;;;
      modify (sent (Db.Insert row)) ;;;
      throwIfError env "Error creating connection: " (insertError env) ;;;
      modify (fun s => setTable (Db.insert row (table s)) s)
  end ;;;
  addDebugInfo env "Facebook page connected successfully" ;;;
  modify (setStatus success) ;;;
  modify (setTimeout 2000 (mkNavigation "/settings" true)).

Definition handleFacebookCallback (env : Env) : M State unit :=
  tryCatch
    (code <- match get "code" (search env) with
             | Some c => if String.eqb c "" then throw (newError "Authorization code not found")
                         else ret c
             | None => throw (newError "Authorization code not found")
             end ;;
     addDebugInfo env ("Processing Facebook callback with code: "
                       ++ String.substring 0 10 code ++ "...") ;;;
     modify (setStatus processing) ;;;
     user <- match getUser (configured env) (userReply env) with
             | UserThrows e => throw e
             | UserError userError =>
                 addDebugInfo env ("Error getting user: " ++ message userError) ;;;
                 throw userError
             | UserData None =>
                 addDebugInfo env "User not authenticated" ;;;
                 throw (newError "User not authenticated")
             | UserData (Some u) => ret u
             end ;;
     addDebugInfo env ("Authenticated as user ID: " ++ authUserId user) ;;;
     tryCatch (persist env (authUserId user))
       (fun apiError =>
          addDebugInfo env ("API Error: " ++ messageOr apiError "Unknown error") ;;;
          throw (newError "Failed to process Facebook authentication")))
    (fun err =>
       addDebugInfo env ("Facebook OAuth Error: " ++ messageOr err "Unknown error") ;;;
       modify (setError (Some "Failed to connect your Facebook account. Please try again.")) ;;;
       modify (setStatus error) ;;;
       modify (setProcessing false)).

(** The page after its effect has run. *)
Definition callback (env : Env) (s : State) : State := exec (handleFacebookCallback env) s.

End FacebookCallback.

Module InstagramCallback.

Import Supabase OAuth.
Local Open Scope js_scope.

Record Env : Type := mkEnv {
  search : URLSearchParams;
  configured : bool;
  userReply : UserReply;
  dbError : option Exn;
  (** [Math.floor(Math.random() * 1000000000)] *)
  randomDraw : N;
  (** [Date.now()] *)
  dateNow : N;
  expiryIso : string
}.

Definition mockIgAccountId (env : Env) : string := "ig_business_" ++ showN (randomDraw env).
Definition mockToken (env : Env) : string := "ig_token_" ++ showN (dateNow env).

(** The inner [try] block. *)
Definition persist (env : Env) (userId : string) : M State unit :=
  let row := Db.mkNewRow userId None (Some (mockIgAccountId env)) (mockToken env)
                         (expiryIso env) in
  modify (sent (Db.Insert row)) ;;;
  match dbError env with
  | Some e => throw e
  | None => ret tt
  end ;;;
  modify (fun s => setTable (Db.insert row (table s)) s) ;;;
  modify (setStatus success) ;;;
  modify (setTimeout 2000 (mkNavigation "/settings" true)).

Definition handleInstagramCallback (env : Env) : M State unit :=
  tryCatch
    (code <- match get "code" (search env) with
             | Some c => if String.eqb c "" then throw (newError "Authorization code not found")
                         else ret c
             | None => throw (newError "Authorization code not found")
             end ;;
     modify (setStatus processing) ;;;
     user <- match getUser (configured env) (userReply env) with
             | UserThrows e => throw e
             | UserError _ | UserData None => throw (newError "User not authenticated")
             | UserData (Some u) => ret u
             end ;;
     tryCatch (persist env (authUserId user))
       (fun apiError =>
          throw (newError "Failed to exchange authorization code for access token")))
    (fun err =>
       modify (setError (Some "Failed to connect your Instagram account. Please try again.")) ;;;
       modify (setStatus error) ;;;
       modify (setProcessing false)).

Definition callback (env : Env) (s : State) : State := exec (handleInstagramCallback env) s.

End InstagramCallback.

(* ================================================================== *)
(** * lib/facebookAuth.ts *)
(* ================================================================== *)

Module FacebookAuth.

Record FacebookAuthResponse : Type := mkAuthResponse {
  accessToken : string;
  expiresIn : nat;
  signedRequest : string;
  userID : string
}.

Inductive LoginStatus : Type := connected | not_authorized | unknown | error.

Record FacebookStatusResponse : Type := mkStatusResponse {
  status : LoginStatus;
  authResponse : option FacebookAuthResponse
}.

(** What a call of an SDK function that reports through a callback
    does: it invokes the callback with [a], it returns without ever
    invoking it, or the call itself throws (as the call of a method the
    global object lacks does). *)
Inductive SdkCall (A : Type) : Type :=
| CallsBack (a : A)
| Silent
| Throws (e : Exn).
Arguments CallsBack {A} a.
Arguments Silent {A}.
Arguments Throws {A} e.

(** The global [FB] when it is defined, by what [FB.getLoginStatus]
    does. *)
Record Sdk : Type := mkSdk { getLoginStatus : SdkCall FacebookStatusResponse }.

(** How a promise ends up. *)
Inductive Promise (A : Type) : Type :=
| Resolved (a : A)
| Rejected (e : Exn)
| Pending.
Arguments Resolved {A} a.
Arguments Rejected {A} e.
Arguments Pending {A}.

(** The promise was rejected. *)
Definition rejected {A : Type} (p : Promise A) : bool :=
  match p with
  | Rejected _ => true
  | _ => false
  end.

(** [checkFacebookLoginStatus()], with [FB] ([None] when
    [typeof FB === 'undefined']).  [FB.getLoginStatus] is called in the
    promise executor outside any [try]: when the call throws, the promise
    is rejected with the thrown value. *)
Definition checkFacebookLoginStatus (FB : option Sdk) : Promise FacebookStatusResponse :=
  match FB with
  | None => Resolved (mkStatusResponse error None)
  | Some sdk =>
      match getLoginStatus sdk with
      | CallsBack response => Resolved response
      | Silent => Pending
      | Throws e => Rejected e
      end
  end.

(** ** The other SDK calls *)

(** What [FB.api] passes to its callback, if it calls back at all. *)
Inductive ApiReply (A : Type) : Type :=
| ApiSilent                (* the callback is not invoked *)
| ApiNull                  (* invoked with a falsy response *)
| ApiFailed (e : Exn)       (* invoked with a response whose [error] is [e] *)
| ApiAnswer (a : A)
| ApiThrows (e : Exn).      (* the call of [FB.api] itself throws *)
Arguments ApiSilent {A}.
Arguments ApiNull {A}.
Arguments ApiFailed {A} e.
Arguments ApiAnswer {A} a.
Arguments ApiThrows {A} e.

(** The fields of a [/{user-id}] response this code reads. *)
Record UserInfo : Type := mkUserInfo { email : option string }.

(** [import.meta.env], [window.location.origin], [Date.now()] and the
    built-in [encodeURIComponent]. *)
Record Page : Type := mkPage {
  VITE_APP_URL : option string;
  VITE_META_APP_ID : option string;
  origin : string;
  dateNow : N;
  encodeURIComponent : string -> string
}.

(** [import.meta.env.VITE_APP_URL || window.location.origin] *)
Definition appUrl (pg : Page) : string := optOrElse (VITE_APP_URL pg) (origin pg).

(** [!appId] *)
Definition appIdMissing (pg : Page) : bool :=
  match VITE_META_APP_ID pg with
  | Some a => String.eqb a ""
  | None => true
  end.

(** The URL of the OAuth dialog, as the three functions build it. *)
Definition dialogUrl (pg : Page) : string :=
  "https://www.facebook.com/v18.0/dialog/oauth?client_id="
  ++ optOrElse (VITE_META_APP_ID pg) ""
  ++ "&redirect_uri=" ++ encodeURIComponent pg (appUrl pg ++ "/oauth/facebook/callback")
  ++ "&response_type=code&scope=public_profile,email,pages_show_list,pages_messaging".

(** The URL of the fallback redirect, [?code=auth_code_${Date.now()}]. *)
Definition fallbackUrl (pg : Page) : string :=
  appUrl pg ++ "/oauth/facebook/callback?code=auth_code_" ++ showN (dateNow pg).

(** A promise together with the last value assigned to
    [window.location.href] on the way, if any. *)
Definition Outcome (A : Type) : Type := Promise A * option string.

(** [getFacebookUserInfo] and [getFacebookPages]: the promise around
    [FB.api]; [fallback] is the message of the error made up when the
    response carries none. *)
Definition apiPromise {A B : Type} (fallback : string) (select : A -> B)
  (FB : option Sdk) (reply : ApiReply A) : Promise B :=
  match FB with
  | None => Rejected (newError "Facebook SDK not loaded")
  | Some _ =>
      match reply with
      | ApiSilent => Pending
      | ApiNull => Rejected (newError fallback)
      | ApiFailed e => Rejected e
      | ApiAnswer a => Resolved (select a)
      | ApiThrows e => Rejected e
      end
  end.

Definition getFacebookUserInfo (FB : option Sdk) (reply : ApiReply UserInfo)
  : Promise UserInfo :=
  apiPromise "Failed to get user info" (fun r => r) FB reply.

(** [response.data] is what [getFacebookPages] resolves with. *)
Definition getFacebookPages {A : Type} (FB : option Sdk) (reply : ApiReply (list A))
  : Promise (list A) :=
  apiPromise "Failed to get pages" (fun data => data) FB reply.

(** [loginWithFacebook], with what the call of [FB.login] does.  That
    call too sits in the promise executor outside any [try]. *)
Definition loginWithFacebook (pg : Page) (FB : option Sdk)
  (loginReply : SdkCall FacebookStatusResponse) : Outcome FacebookStatusResponse :=
  match FB with
  | None =>
      if appIdMissing pg
      then (Rejected (newError "Facebook App ID is not configured"), None)
      else (Rejected (newError "Facebook SDK not loaded, redirecting to OAuth flow"),
            Some (dialogUrl pg))
  | Some _ =>
      match loginReply with
      | CallsBack response => (Resolved response, None)
      | Silent => (Pending, None)
      | Throws e => (Rejected e, None)
      end
  end.

(** [handleFacebookStatusChange] *)
Definition handleFacebookStatusChange (pg : Page) (FB : option Sdk)
  (userInfoReply : ApiReply UserInfo) (response : FacebookStatusResponse)
  : Outcome bool :=
  match status response, authResponse response with
  | connected, Some _ =>
      match getFacebookUserInfo FB userInfoReply with
      | Rejected _ => (Resolved false, None)
      | Pending => (Pending, None)
      | Resolved userInfo =>
          if negb (String.eqb (optOrElse (email userInfo) "") "")
          then if appIdMissing pg then (Resolved false, None)
               else (Resolved true, Some (dialogUrl pg))
          else (Resolved true, Some (fallbackUrl pg))
      end
  | not_authorized, _ =>
      if appIdMissing pg then (Resolved false, None)
      else (Resolved false, Some (dialogUrl pg))
  | _, _ => (Resolved false, None)
  end.

(** [statusChangeCallback] *)
Definition statusChangeCallback (pg : Page) (FB : option Sdk)
  (userInfoReply : ApiReply UserInfo) (response : FacebookStatusResponse)
  : Outcome bool :=
  handleFacebookStatusChange pg FB userInfoReply response.

(** [checkLoginState]: [Ok None] when it returns at once because the
    SDK is missing or [FB.getLoginStatus] does not call back; the promise
    of [statusChangeCallback] is dropped.  When [FB.getLoginStatus]
    throws, so does [checkLoginState]. *)
Definition checkLoginState (pg : Page) (FB : option Sdk)
  (userInfoReply : ApiReply UserInfo) : Res (option (Outcome bool)) :=
  match FB with
  | None => Ok None
  | Some sdk =>
      match getLoginStatus sdk with
      | CallsBack response => Ok (Some (statusChangeCallback pg FB userInfoReply response))
      | Silent => Ok None
      | Throws e => Throw e
      end
  end.

(** [isFacebookSDKLoaded()] *)
Definition isFacebookSDKLoaded (FB : option Sdk) : bool :=
  match FB with
  | Some _ => true
  | None => false
  end.

End FacebookAuth.

(* ================================================================== *)
(** * components/FacebookLoginButton.tsx *)
(* ================================================================== *)

Module FacebookLoginButton.

Import FacebookAuth.

(** The two optional callback props.  [None]: the prop was not passed.
    [onLoginSuccess] is called without argument and at most once in a
    press: it returns ([None]) or throws.  [onLoginFailure] may be
    called twice: what its [k]-th call (from 0) with the message [msg]
    does. *)
Record Props : Type := mkProps {
  onLoginSuccess : option (option Exn);
  onLoginFailure : option (nat -> string -> option Exn)
}.

(** A call of one of the props. *)
Inductive Notice : Type :=
| LoginSuccess
| LoginFailure (message : string).

(** What one press of the button has done: the calls of the props in
    order, the redirect [handleFacebookStatusChange] issued, and the
    exception or rejection that nothing handles, if any. *)
Record Press : Type := mkPress {
  calls : list Notice;
  redirect : option string;
  uncaught : option Exn
}.

(** [if (onLoginFailure) onLoginFailure(msg)], as call number [k]. *)
Definition notifyFailure (props : Props) (k : nat) (msg : string)
  : list Notice * option Exn :=
  match onLoginFailure props with
  | Some f => ([LoginFailure msg], f k msg)
  | None => ([], None)
  end.

(** The [catch] block of [statusChangeCallback], entered with [e] after
    [k] calls of [onLoginFailure]. *)
Definition catchBlock (props : Props) (k : nat) (e : Exn) : list Notice * option Exn :=
  notifyFailure props k (messageOr e "Unknown error occurred").

(** The effect's [statusChangeCallback].  The [try] block encloses the
    calls of the props: a prop that throws lands in the [catch], which
    calls [onLoginFailure] with the message of what was thrown. *)
Definition statusChangeCallback (props : Props) (pg : Page) (FB : option Sdk)
  (userInfoReply : ApiReply UserInfo) (response : FacebookStatusResponse) : Press :=
  match handleFacebookStatusChange pg FB userInfoReply response with
  | (Resolved true, redirect) =>
      match onLoginSuccess props with
      | Some None => mkPress [LoginSuccess] redirect None
      | Some (Some e) =>
          let '(again, thrown) := catchBlock props 0 e in
          mkPress (LoginSuccess :: again) redirect thrown
      | None => mkPress [] redirect None
      end
  | (Resolved false, redirect) =>
      match notifyFailure props 0 "Login was not successful" with
      | (first, Some e) =>
          let '(again, thrown) := catchBlock props 1 e in
          mkPress (first ++ again) redirect thrown
      | (first, None) => mkPress first redirect None
      end
  | (Rejected e, redirect) =>
      let '(again, thrown) := catchBlock props 0 e in
      mkPress again redirect thrown
  | (Pending, redirect) => mkPress [] redirect None
  end.

(** [window.checkLoginState], the function the button calls on login.
    A throw of [FB.getLoginStatus] or of [onLoginFailure] leaves it
    uncaught. *)
Definition checkLoginState (props : Props) (pg : Page) (FB : option Sdk)
  (userInfoReply : ApiReply UserInfo) : Press :=
  match FB with
  | Some sdk =>
      match getLoginStatus sdk with
      | CallsBack response => statusChangeCallback props pg FB userInfoReply response
      | Silent => mkPress [] None None
      | Throws e => mkPress [] None (Some e)
      end
  | None =>
      let '(first, thrown) := notifyFailure props 0 "Facebook SDK not initialized" in
      mkPress first None thrown
  end.

(** No prop throws, whatever it is called with. *)
Definition neverThrows (props : Props) : Prop :=
  (forall e, onLoginSuccess props <> Some (Some e))
  /\ (forall f k msg, onLoginFailure props = Some f -> f k msg = None).

End FacebookLoginButton.


(* ================================================================== *)
(** * Callback completions against the shared table *)
(* ================================================================== *)

Module Connections.

Import OAuth.

(** One visit of a callback page, by provider. *)
Inductive Completion : Type :=
| ViaFacebook (env : FacebookCallback.Env)
| ViaInstagram (env : InstagramCallback.Env).

Definition searchOf (c : Completion) : URLSearchParams :=
  match c with
  | ViaFacebook env => FacebookCallback.search env
  | ViaInstagram env => InstagramCallback.search env
  end.

(** The page, freshly mounted over the table [t], after its callback
    effect has run. *)
Definition pageAfter (c : Completion) (t : Db.Table) : State :=
  match c with
  | ViaFacebook env => FacebookCallback.callback env (initialState t)
  | ViaInstagram env => InstagramCallback.callback env (initialState t)
  end.

(** The table after the visit, and after a sequence of visits. *)
Definition complete (t : Db.Table) (c : Completion) : Db.Table := table (pageAfter c t).

Definition completeAll (cs : list Completion) (t : Db.Table) : Db.Table :=
  fold_left complete cs t.

(** What [supabase.auth.getUser()] answers during the visit. *)
Definition userOf (c : Completion) : Supabase.UserReply :=
  match c with
  | ViaFacebook env =>
      Supabase.getUser (FacebookCallback.configured env) (FacebookCallback.userReply env)
  | ViaInstagram env =>
      Supabase.getUser (InstagramCallback.configured env) (InstagramCallback.userReply env)
  end.

(** The URL of the visit carries a non-empty [code]. *)
Definition hasCode (c : Completion) : bool :=
  match get "code" (searchOf c) with
  | Some code => negb (String.eqb code "")
  | None => false
  end.

Definition isNone {A : Type} (o : option A) : bool :=
  match o with
  | None => true
  | Some _ => false
  end.

(** The persistence step of the visit succeeds on the table [t]: the
    user lookup returned a user, and every request the page then sends
    to [social_connections] is answered without error (for Facebook the
    select and then the update or the insert, whichever the select calls
    for; for Instagram the insert). *)
Definition persistenceSucceeds (c : Completion) (t : Db.Table) : bool :=
  match userOf c with
  | Supabase.UserData (Some u) =>
      match c with
      | ViaFacebook env =>
          isNone (FacebookCallback.connectionError env)
          && match Db.selectByUserAndPage (Supabase.authUserId u)
                     FacebookCallback.selectedPageId t with
             | _ :: _ => isNone (FacebookCallback.updateError env)
             | [] => isNone (FacebookCallback.insertError env)
             end
      | ViaInstagram env => isNone (InstagramCallback.dbError env)
      end
  | _ => false
  end.

(** The one message the page shows for every failure. *)
Definition failureText (c : Completion) : string :=
  match c with
  | ViaFacebook _ => "Failed to connect your Facebook account. Please try again."
  | ViaInstagram _ => "Failed to connect your Instagram account. Please try again."
  end.

(** The request concerns the user [u] only: a select or an insert under
    that user id, or an update of a row of [t] that belongs to [u]. *)
Definition concerns (u : string) (t : Db.Table) (r : Db.Request) : Prop :=
  match r with
  | Db.Select u' _ => u' = u
  | Db.Update i => exists row, In row t /\ Db.id row = i /\ Db.user_id row = u
  | Db.Insert n => Db.new_user_id n = u
  end.

(** The rows of [t] that belong to other users than [u]. *)
Definition rowsOfOthers (u : string) (t : Db.Table) : Db.Table :=
  filter (fun r => negb (String.eqb (Db.user_id r) u)) t.


End Connections.

(* ================================================================== *)
(** * Properties *)
(* ================================================================== *)

(** ** Facebook login status *)

Section FacebookLoginStatus.

Import FacebookAuth.

(** C10, as the code has it.  When the SDK is not loaded ([FB]
    undefined) [checkFacebookLoginStatus] resolves with
    [{ status: 'error', authResponse: null }]; when the SDK answers, it
    resolves with that answer; it is rejected exactly when the call of
    [FB.getLoginStatus] itself throws, with what was thrown; and it stays
    pending exactly when the SDK is loaded and never calls back. *)
Theorem checkFacebookLoginStatus_rejects_only_when_sdk_throws :
  forall FB : option Sdk,
    checkFacebookLoginStatus None = Resolved (mkStatusResponse error None)
    /\ (forall response,
          checkFacebookLoginStatus (Some (mkSdk (CallsBack response))) = Resolved response)
    /\ (forall e, checkFacebookLoginStatus FB = Rejected e <-> FB = Some (mkSdk (Throws e)))
    /\ (checkFacebookLoginStatus FB = Pending <-> FB = Some (mkSdk Silent)).
Proof.
  intros FB. split; [| split; [| split]].
  - reflexivity.
  - intros response. reflexivity.
  - intros e. destruct FB as [[[r | | e']] |]; cbn; split; intros H;
      try discriminate; try reflexivity; congruence.
  - destruct FB as [[[r | | e']] |]; cbn; split; intros H; try discriminate; reflexivity.
Qed.

(** C10 as stated fails: with the SDK loaded and [FB.getLoginStatus]
    throwing, the promise is rejected and the caller receives no status
    object. *)
Lemma checkFacebookLoginStatus_rejects_when_sdk_throws :
  rejected (checkFacebookLoginStatus
              (Some (mkSdk (Throws (newError "FB.getLoginStatus is not a function")))))
  = true
  /\ checkFacebookLoginStatus
       (Some (mkSdk (Throws (newError "FB.getLoginStatus is not a function"))))
     = Rejected (newError "FB.getLoginStatus is not a function").
Proof. split; reflexivity. Qed.

End FacebookLoginStatus.

(** ** OAuth callbacks *)

Section OAuthCallbacks.

Import Supabase OAuth Connections.

(** The table operations stay folded while a page run is unfolded. *)
#[local] Arguments Db.selectByUserAndPage : simpl never.
#[local] Arguments Db.updateById : simpl never.
#[local] Arguments Db.insert : simpl never.

(** Unfolds one run of a callback page down to its branches. *)
Ltac unfold_callback :=
  unfold complete, pageAfter, FacebookCallback.callback, InstagramCallback.callback,
    FacebookCallback.handleFacebookCallback, InstagramCallback.handleInstagramCallback,
    FacebookCallback.persist, InstagramCallback.persist,
    FacebookCallback.throwIfError, FacebookCallback.addDebugInfo,
    exec, tryCatch, bind, modify, gets, ret, throw in *.

(** C4.  For both providers, a callback whose URL carries no [code]
    parameter ends in the [error] status, and sends no request to
    [social_connections]: the table is left as it was and no navigation is
    scheduled. *)
Theorem callback_without_code_is_terminal_error :
  forall (c : Completion) (t : Db.Table),
    get "code" (searchOf c) = None ->
    status (pageAfter c t) = error
    /\ requests (pageAfter c t) = []
    /\ table (pageAfter c t) = t
    /\ timers (pageAfter c t) = [].
Proof.
  intros [env | env] t H; cbn [searchOf] in H; unfold_callback;
    rewrite H; cbn; auto.
Qed.

Lemma callback_without_code_witness :
  get "code" [("state", "xyz")] = None
  /\ status (pageAfter
               (ViaInstagram
                  (InstagramCallback.mkEnv [("state", "xyz")] true
                     (UserData (Some (mkAuthUser "u1"))) None 7%N 1700000000000%N
                     "2026-01-01T00:00:00.000Z")) []) = error.
Proof.
  split; [reflexivity |].
  apply (@callback_without_code_is_terminal_error
           (ViaInstagram
              (InstagramCallback.mkEnv [("state", "xyz")] true
                 (UserData (Some (mkAuthUser "u1"))) None 7%N 1700000000000%N
                 "2026-01-01T00:00:00.000Z")) [] eq_refl).
Defined.

(** C9.  For both providers, a callback visit whose URL carries a code
    and whose persistence step succeeds starts showing [processing],
    ends showing [success], and has armed exactly one timer: 2000 ms,
    navigating to [/settings] with [replace: true]. *)
Theorem callback_success_navigates_once :
  forall (c : Completion) (t : Db.Table),
    hasCode c = true ->
    persistenceSucceeds c t = true ->
    status (initialState t) = processing
    /\ status (pageAfter c t) = success
    /\ timers (pageAfter c t) = [(2000, mkNavigation "/settings" true)].
Proof.
  intros c t Hcode Hok. split; [reflexivity |].
  unfold hasCode in Hcode. unfold persistenceSucceeds in Hok.
  destruct c as [env | env]; unfold userOf in Hok; cbn [searchOf] in Hcode; unfold_callback.
  - destruct (get "code" (FacebookCallback.search env)) as [code |]; [| discriminate].
    apply negb_true_iff in Hcode. rewrite Hcode. cbn.
    destruct (getUser (FacebookCallback.configured env) (FacebookCallback.userReply env))
      as [e | e | [u |]]; try discriminate. cbn.
    apply andb_true_iff in Hok as [Hc Hw].
    destruct (FacebookCallback.connectionError env); [discriminate |]. cbn.
    destruct (Db.selectByUserAndPage (authUserId u) FacebookCallback.selectedPageId t);
      cbn.
    + destruct (FacebookCallback.insertError env); [discriminate |]. split; reflexivity.
    + destruct (FacebookCallback.updateError env); [discriminate |]. split; reflexivity.
  - destruct (get "code" (InstagramCallback.search env)) as [code |]; [| discriminate].
    apply negb_true_iff in Hcode. rewrite Hcode. cbn.
    destruct (getUser (InstagramCallback.configured env) (InstagramCallback.userReply env))
      as [e | e | [u |]]; try discriminate. cbn.
    destruct (InstagramCallback.dbError env); [discriminate |]. split; reflexivity.
Qed.

Lemma callback_success_witness :
  status (pageAfter
            (ViaFacebook
               (FacebookCallback.mkEnv [("code", "AQD3x")] true
                  (UserData (Some (mkAuthUser "u1"))) None None None
                  "2026-03-01T10:00:00.000Z" "2026-01-01T10:00:00.000Z"
                  (fun _ => "10:00:00"))) []) = success
  /\ timers (pageAfter
               (ViaFacebook
                  (FacebookCallback.mkEnv [("code", "AQD3x")] true
                     (UserData (Some (mkAuthUser "u1"))) None None None
                     "2026-03-01T10:00:00.000Z" "2026-01-01T10:00:00.000Z"
                     (fun _ => "10:00:00"))) [])
     = [(2000, mkNavigation "/settings" true)].
Proof.
  exact (proj2 (@callback_success_navigates_once
                  (ViaFacebook
                     (FacebookCallback.mkEnv [("code", "AQD3x")] true
                        (UserData (Some (mkAuthUser "u1"))) None None None
                        "2026-03-01T10:00:00.000Z" "2026-01-01T10:00:00.000Z"
                        (fun _ => "10:00:00"))) [] eq_refl eq_refl)).
Defined.


(** *** The table operations *)

Lemma updateById_length :
  forall i tok e r t, length (Db.updateById i tok e r t) = length t.
Proof. intros. unfold Db.updateById. apply length_map. Qed.

Lemma updateById_fbPairs :
  forall i tok e r t, Db.fbPairs (Db.updateById i tok e r t) = Db.fbPairs t.
Proof.
  intros i tok e r t. unfold Db.updateById, Db.fbPairs.
  induction t as [| row t IH]; cbn; [reflexivity |].
  rewrite IH. destruct (Nat.eqb (Db.id row) i); reflexivity.
Qed.

Lemma updateById_In :
  forall i tok e r t row,
    In row t -> Db.id row = i ->
    In (Db.mkRow (Db.id row) (Db.user_id row) (Db.fb_page_id row) (Db.ig_account_id row)
                 tok e (Some r))
       (Db.updateById i tok e r t).
Proof.
  intros i tok e r t row Hin Hid. unfold Db.updateById.
  apply in_map_iff. exists row. split; [| exact Hin].
  rewrite Hid, Nat.eqb_refl. subst i. reflexivity.
Qed.

Lemma insert_fbPairs :
  forall n t,
    Db.fbPairs (Db.insert n t)
    = Db.fbPairs t ++ match Db.new_fb_page_id n with
                      | Some p => [(Db.new_user_id n, p)]
                      | None => []
                      end.
Proof.
  intros n t. unfold Db.insert, Db.fbPairs.
  rewrite flat_map_app. cbn. rewrite app_nil_r. reflexivity.
Qed.


Lemma select_head :
  forall u p t row rest,
    Db.selectByUserAndPage u p t = row :: rest ->
    In row t /\ Db.user_id row = u /\ Db.fb_page_id row = Some p.
Proof.
  intros u p t row rest H.
  assert (Hin : In row (Db.selectByUserAndPage u p t)) by (rewrite H; left; reflexivity).
  unfold Db.selectByUserAndPage in Hin. apply filter_In in Hin as [Hin Hm].
  apply andb_true_iff in Hm as [Hu Hp]. apply String.eqb_eq in Hu.
  unfold Db.eqbOpt in Hp. destruct (Db.fb_page_id row) as [q |]; [| discriminate].
  apply String.eqb_eq in Hp. subst. auto.
Qed.

Lemma select_none :
  forall u p t, Db.selectByUserAndPage u p t = [] -> ~ In (u, p) (Db.fbPairs t).
Proof.
  intros u p t H Hin. unfold Db.fbPairs in Hin.
  apply in_flat_map in Hin as [row [Hrow Hpair]].
  destruct (Db.fb_page_id row) as [q |] eqn:Hq; [| contradiction].
  destruct Hpair as [Hpair | []]. inversion Hpair; subst.
  assert (Hsel : In row (Db.selectByUserAndPage (Db.user_id row) p t)).
  { unfold Db.selectByUserAndPage. apply filter_In. split; [exact Hrow |].
    rewrite String.eqb_refl. unfold Db.eqbOpt. rewrite Hq. apply String.eqb_refl. }
  rewrite H in Hsel. contradiction.
Qed.

(** C5.  A successful Facebook callback by the user [u], for the page
    the exchange selected: when the table already holds a row for (that
    user, that page), the first such row has its access token, token
    expiry and refreshed-at rewritten in place (an update filtered on its
    id) and nothing is inserted; when it holds none, exactly one row is
    inserted. *)
Theorem facebook_callback_updates_in_place_or_inserts_once :
  forall (env : FacebookCallback.Env) (t : Db.Table) (u : AuthUser),
    getUser (FacebookCallback.configured env) (FacebookCallback.userReply env)
    = UserData (Some u) ->
    status (pageAfter (ViaFacebook env) t) = success ->
    match Db.selectByUserAndPage (authUserId u) FacebookCallback.selectedPageId t with
    | existing :: _ =>
        table (pageAfter (ViaFacebook env) t)
        = Db.updateById (Db.id existing) FacebookCallback.mockToken
            (FacebookCallback.expiryIso env) (FacebookCallback.nowIso env) t
        /\ requests (pageAfter (ViaFacebook env) t)
           = [Db.Select (authUserId u) FacebookCallback.selectedPageId;
              Db.Update (Db.id existing)]
        /\ length (table (pageAfter (ViaFacebook env) t)) = length t
        /\ In existing t
        /\ In (Db.mkRow (Db.id existing) (authUserId u)
                 (Some FacebookCallback.selectedPageId) (Db.ig_account_id existing)
                 FacebookCallback.mockToken (FacebookCallback.expiryIso env)
                 (Some (FacebookCallback.nowIso env)))
              (table (pageAfter (ViaFacebook env) t))
    | [] =>
        table (pageAfter (ViaFacebook env) t)
        = t ++ [Db.mkRow (Db.freshId t) (authUserId u)
                  (Some FacebookCallback.selectedPageId) None
                  FacebookCallback.mockToken (FacebookCallback.expiryIso env) None]
        /\ requests (pageAfter (ViaFacebook env) t)
           = [Db.Select (authUserId u) FacebookCallback.selectedPageId;
              Db.Insert (Db.mkNewRow (authUserId u)
                           (Some FacebookCallback.selectedPageId) None
                           FacebookCallback.mockToken (FacebookCallback.expiryIso env))]
        /\ length (table (pageAfter (ViaFacebook env) t)) = S (length t)
    end.
Proof.
  intros env t u Hu. unfold_callback. rewrite Hu.
  destruct (get "code" (FacebookCallback.search env)) as [code |]; cbn;
    [destruct (String.eqb code ""); cbn |]; try discriminate.
  destruct (FacebookCallback.connectionError env); cbn; try discriminate.
  destruct (Db.selectByUserAndPage (authUserId u) FacebookCallback.selectedPageId t)
    as [| existing rest] eqn:Hsel; cbn.
  - destruct (FacebookCallback.insertError env); cbn; try discriminate.
    intros _. repeat split.
    unfold Db.insert. rewrite length_app. cbn. lia.
  - destruct (FacebookCallback.updateError env); cbn; try discriminate.
    intros _. destruct (select_head _ _ _ Hsel) as [Hin [Hid Hpage]].
    repeat split; try assumption.
    + apply updateById_length.
    + rewrite <- Hid, <- Hpage. apply updateById_In; [assumption | reflexivity].
Qed.

Lemma facebook_callback_reauthorization_witness :
  Db.selectByUserAndPage "u1" FacebookCallback.selectedPageId
    [Db.mkRow 7 "u1" (Some "540380515830720") None "old" "2026-01-01T00:00:00.000Z" None]
  = [Db.mkRow 7 "u1" (Some "540380515830720") None "old" "2026-01-01T00:00:00.000Z" None]
  /\ table (pageAfter
              (ViaFacebook
                 (FacebookCallback.mkEnv [("code", "AQD3x")] true
                    (UserData (Some (mkAuthUser "u1"))) None None None
                    "2026-05-01T10:00:00.000Z" "2026-03-02T10:00:00.000Z"
                    (fun _ => "10:00:00")))
              [Db.mkRow 7 "u1" (Some "540380515830720") None "old"
                 "2026-01-01T00:00:00.000Z" None])
     = [Db.mkRow 7 "u1" (Some "540380515830720") None "EAATk...mockToken123456789"
          "2026-05-01T10:00:00.000Z" (Some "2026-03-02T10:00:00.000Z")].
Proof.
  split; [reflexivity |].
  exact (proj1
           (@facebook_callback_updates_in_place_or_inserts_once
              (FacebookCallback.mkEnv [("code", "AQD3x")] true
                 (UserData (Some (mkAuthUser "u1"))) None None None
                 "2026-05-01T10:00:00.000Z" "2026-03-02T10:00:00.000Z"
                 (fun _ => "10:00:00"))
              [Db.mkRow 7 "u1" (Some "540380515830720") None "old"
                 "2026-01-01T00:00:00.000Z" None]
              (mkAuthUser "u1") eq_refl eq_refl)).
Defined.


(** *** The shared table across visits *)

(** What one visit does to the (user, page) pairs: nothing, or it adds a
    pair for which the table had no row. *)
Lemma complete_fbPairs :
  forall (c : Completion) (t : Db.Table),
    Db.fbPairs (complete t c) = Db.fbPairs t
    \/ exists u p, Db.selectByUserAndPage u p t = []
                   /\ Db.fbPairs (complete t c) = Db.fbPairs t ++ [(u, p)].
Proof.
  intros [env | env] t; unfold_callback.
  - destruct (get "code" (FacebookCallback.search env)) as [code |]; cbn;
      [destruct (String.eqb code ""); cbn |]; try (left; reflexivity).
    destruct (getUser (FacebookCallback.configured env) (FacebookCallback.userReply env))
      as [e | e | [u |]]; cbn; try (left; reflexivity).
    destruct (FacebookCallback.connectionError env); cbn; try (left; reflexivity).
    destruct (Db.selectByUserAndPage (authUserId u) FacebookCallback.selectedPageId t)
      as [| existing rest] eqn:Hsel; cbn.
    + destruct (FacebookCallback.insertError env); cbn; try (left; reflexivity).
      right. exists (authUserId u), FacebookCallback.selectedPageId.
      split; [exact Hsel |]. rewrite insert_fbPairs. reflexivity.
    + destruct (FacebookCallback.updateError env); cbn; try (left; reflexivity).
      left. apply updateById_fbPairs.
  - destruct (get "code" (InstagramCallback.search env)) as [code |]; cbn;
      [destruct (String.eqb code ""); cbn |]; try (left; reflexivity).
    destruct (getUser (InstagramCallback.configured env) (InstagramCallback.userReply env))
      as [e | e | [u |]]; cbn; try (left; reflexivity).
    destruct (InstagramCallback.dbError env); cbn; try (left; reflexivity).
    left. rewrite insert_fbPairs. cbn. apply app_nil_r.
Qed.




(** A Facebook visit that finds a row for its (user, page) pair leaves
    the number of rows as it was. *)
Lemma facebook_reauthorization_keeps_rows :
  forall (env : FacebookCallback.Env) (t : Db.Table) (u : AuthUser),
    getUser (FacebookCallback.configured env) (FacebookCallback.userReply env)
    = UserData (Some u) ->
    Db.selectByUserAndPage (authUserId u) FacebookCallback.selectedPageId t <> [] ->
    length (complete t (ViaFacebook env)) = length t.
Proof.
  intros env t u Hu Hsel. unfold_callback. rewrite Hu.
  destruct (get "code" (FacebookCallback.search env)) as [code |]; cbn;
    [destruct (String.eqb code ""); cbn |]; try reflexivity.
  destruct (FacebookCallback.connectionError env); cbn; try reflexivity.
  destruct (Db.selectByUserAndPage (authUserId u) FacebookCallback.selectedPageId t)
    as [| existing rest]; [contradiction |]. cbn.
  destruct (FacebookCallback.updateError env); cbn; try reflexivity.
  apply updateById_length.
Qed.




End OAuthCallbacks.

(** ** Rounding to doubles *)

Section DoubleRounding.

#[local] Unset Implicit Arguments.

Lemma roundHalfEven_bounds :
  forall m, (Qfloor m <= roundHalfEven m <= Qfloor m + 1)%Z.
Proof.
  intros m. unfold roundHalfEven.
  destruct (Qcompare (m - inject_Z (Qfloor m)) (1 # 2)); try lia.
  destruct (Z.even (Qfloor m)); lia.
Qed.

Lemma roundHalfEven_Z : forall z, roundHalfEven (inject_Z z) = z.
Proof.
  intros z. unfold roundHalfEven. rewrite Qfloor_Z.
  destruct (Qcompare_spec (inject_Z z - inject_Z z) (1 # 2)) as [H | H | H];
    try reflexivity; exfalso; lra.
Qed.

Lemma roundHalfEven_mono :
  forall a b, (a <= b)%Q -> (roundHalfEven a <= roundHalfEven b)%Z.
Proof.
  intros a b H.
  pose proof (Qfloor_resp_le _ _ H) as Hf.
  destruct (Z.eq_dec (Qfloor a) (Qfloor b)) as [E | N].
  - unfold roundHalfEven. rewrite E.
    destruct (Qcompare_spec (a - inject_Z (Qfloor b)) (1 # 2)) as [Ha | Ha | Ha];
      destruct (Qcompare_spec (b - inject_Z (Qfloor b)) (1 # 2)) as [Hb | Hb | Hb];
      try destruct (Z.even (Qfloor b)); try lia; exfalso; lra.
  - pose proof (roundHalfEven_bounds a). pose proof (roundHalfEven_bounds b). lia.
Qed.

Lemma roundHalfEven_le_Z :
  forall a z, (a <= inject_Z z)%Q -> (roundHalfEven a <= z)%Z.
Proof.
  intros a z H. rewrite <- (roundHalfEven_Z z). apply roundHalfEven_mono. exact H.
Qed.

Lemma roundHalfEven_ge_Z :
  forall a z, (inject_Z z <= a)%Q -> (z <= roundHalfEven a)%Z.
Proof.
  intros a z H. rewrite <- (roundHalfEven_Z z) at 1. apply roundHalfEven_mono. exact H.
Qed.

Lemma inject_Z_pow2_pos : forall j, (0 <= j)%Z -> (0 < inject_Z (2 ^ j))%Q.
Proof.
  intros j H. change 0%Q with (inject_Z 0). rewrite <- Zlt_Qlt.
  apply Z.pow_pos_nonneg; lia.
Qed.

Lemma spacing_nonneg : forall s, (0 <= spacing s)%Z.
Proof. intros s. unfold spacing. lia. Qed.

Lemma div_pow2_le :
  forall a b j, (0 <= j)%Z -> (a <= b)%Q ->
                (a / inject_Z (2 ^ j) <= b / inject_Z (2 ^ j))%Q.
Proof.
  intros a b j Hj H. pose proof (inject_Z_pow2_pos j Hj) as P.
  unfold Qdiv. apply Qmult_le_compat_r; [exact H |].
  apply Qlt_le_weak. apply Qinv_lt_0_compat. exact P.
Qed.

Lemma inject_pow2_div :
  forall a j, (0 <= j <= a)%Z ->
              (inject_Z (2 ^ a) / inject_Z (2 ^ j) == inject_Z (2 ^ (a - j)))%Q.
Proof.
  intros a j H. pose proof (inject_Z_pow2_pos j (proj1 H)) as P.
  replace a with ((a - j) + j)%Z at 1 by lia.
  rewrite Z.pow_add_r by lia. rewrite inject_Z_mult. field. lra.
Qed.

Lemma roundScaled_mono :
  forall x y, (0 <= x)%Q -> (x <= y)%Q -> (roundScaled x <= roundScaled y)%Z.
Proof.
  intros x y H0 H.
  pose proof (Qfloor_resp_le _ _ H) as Hf.
  assert (F0 : (0 <= Qfloor x)%Z).
  { change 0%Z with (Qfloor 0). apply Qfloor_resp_le. exact H0. }
  assert (Hl : (Z.log2 (Qfloor x) <= Z.log2 (Qfloor y))%Z) by (apply Z.log2_le_mono; exact Hf).
  pose proof (spacing_nonneg x) as Jx. pose proof (spacing_nonneg y) as Jy.
  unfold roundScaled.
  destruct (Z.eq_dec (spacing x) (spacing y)) as [E | N].
  - rewrite E. apply Z.mul_le_mono_nonneg_r; [apply Z.pow_nonneg; lia |].
    apply roundHalfEven_mono. apply div_pow2_le; assumption.
  - assert (Hj : (spacing x < spacing y)%Z) by (unfold spacing in *; lia).
    assert (Ly : (spacing y = Z.log2 (Qfloor y) - 52)%Z) by (unfold spacing in *; lia).
    assert (Lxy : (Z.log2 (Qfloor x) < Z.log2 (Qfloor y))%Z) by (unfold spacing in *; lia).
    set (L := Z.log2 (Qfloor y)) in *.
    assert (Fy : (0 < Qfloor y)%Z).
    { destruct (Z.lt_ge_cases 0 (Qfloor y)) as [P | P]; [exact P |].
      exfalso. pose proof (Z.log2_nonpos _ P) as Z0.
      pose proof (Z.log2_nonneg (Qfloor x)). unfold L in *. lia. }
    pose proof (Z.log2_spec _ Fy) as [Ylo _]. fold L in Ylo.
    (* x lies below 2^L *)
    assert (Xhi : (x <= inject_Z (2 ^ L))%Q).
    { apply Qlt_le_weak. apply Qlt_le_trans with (inject_Z (Qfloor x + 1)).
      - apply Qlt_floor.
      - rewrite <- Zle_Qle.
        destruct (Z.eq_dec (Qfloor x) 0) as [Z0 | NZ].
        + rewrite Z0. cbn. assert (2 ^ 0 <= 2 ^ L)%Z by (apply Z.pow_le_mono_r; lia).
          change (2 ^ 0)%Z with 1%Z in *. lia.
        + assert (Fx : (0 < Qfloor x)%Z) by lia.
          pose proof (Z.log2_spec _ Fx) as [_ Xhi].
          assert (2 ^ (Z.succ (Z.log2 (Qfloor x))) <= 2 ^ L)%Z
            by (apply Z.pow_le_mono_r; lia).
          lia. }
    apply Z.le_trans with (2 ^ L)%Z.
    + replace (2 ^ L)%Z with (2 ^ (L - spacing x) * 2 ^ spacing x)%Z
        by (rewrite <- Z.pow_add_r by lia; f_equal; lia).
      apply Z.mul_le_mono_nonneg_r; [apply Z.pow_nonneg; lia |].
      apply roundHalfEven_le_Z.
      rewrite <- inject_pow2_div by lia.
      apply div_pow2_le; assumption.
    + replace (2 ^ L)%Z with (2 ^ 52 * 2 ^ spacing y)%Z
        by (rewrite <- Z.pow_add_r by lia; f_equal; lia).
      apply Z.mul_le_mono_nonneg_r; [apply Z.pow_nonneg; lia |].
      apply roundHalfEven_ge_Z.
      replace 52%Z with (L - spacing y)%Z by lia.
      rewrite <- inject_pow2_div by lia.
      apply div_pow2_le; [lia |].
      apply Qle_trans with (inject_Z (Qfloor y)); [| apply Qfloor_le].
      rewrite <- Zle_Qle. exact Ylo.
Qed.

Lemma roundMagnitude_mono :
  forall x y, (0 <= x)%Q -> (x <= y)%Q -> (roundMagnitude x <= roundMagnitude y)%Q.
Proof.
  intros x y H0 H. unfold roundMagnitude.
  pose proof (inject_Z_pow2_pos 1074 ltac:(lia)) as P.
  apply div_pow2_le; [lia |]. rewrite <- Zle_Qle.
  apply roundScaled_mono.
  - apply Qmult_le_0_compat; [exact H0 | apply Qlt_le_weak; exact P].
  - apply Qmult_le_compat_r; [exact H | apply Qlt_le_weak; exact P].
Qed.

Lemma toDouble_nonneg :
  forall x, (0 <= x)%Q -> toDouble x = roundMagnitude x.
Proof.
  intros x H. unfold toDouble.
  destruct (Qcompare_spec x 0) as [E | L | G]; try reflexivity. exfalso. lra.
Qed.

(** Rounding to the nearest double keeps the order of non-negative
    numbers. *)
Lemma toDouble_mono :
  forall x y, (0 <= x)%Q -> (x <= y)%Q -> (toDouble x <= toDouble y)%Q.
Proof.
  intros x y H0 H. rewrite !toDouble_nonneg by lra. apply roundMagnitude_mono; assumption.
Qed.

(** What the rounded sum of a backoff and a jitter can be. *)
Lemma double_sum_bounds :
  forall (b : Z) (j : Q),
    In b [10000; 20000; 40000; 80000; 120000]%Z ->
    (0 <= j)%Q -> (j <= 1000)%Q ->
    (inject_Z b <= toDouble (inject_Z b + j))%Q
    /\ (toDouble (inject_Z b + j) <= inject_Z b + 1000)%Q.
Proof.
  intros b j Hb H0 H1.
  assert (P : (0 <= inject_Z b)%Q).
  { change 0%Q with (inject_Z 0). rewrite <- Zle_Qle.
    cbn in Hb. decompose [or] Hb; subst; try lia; contradiction. }
  assert (Lo : (toDouble (inject_Z b) <= toDouble (inject_Z b + j))%Q)
    by (apply toDouble_mono; lra).
  assert (Hi : (toDouble (inject_Z b + j) <= toDouble (inject_Z b + 1000))%Q)
    by (apply toDouble_mono; lra).
  assert (Fb : (inject_Z b <= toDouble (inject_Z b))%Q
               /\ (toDouble (inject_Z b + 1000) <= inject_Z b + 1000)%Q).
  { cbn in Hb. decompose [or] Hb; subst; try contradiction;
      split; vm_compute; discriminate. }
  destruct Fb as [F1 F2]. split; lra.
Qed.

(** The rounded product of a draw in [[0, 1)] and 1000. *)
Lemma double_jitter_bounds :
  forall random : Q,
    (0 <= random)%Q -> (random < 1)%Q ->
    (0 <= toDouble (random * inject_Z 1000))%Q
    /\ (toDouble (random * inject_Z 1000) <= 1000)%Q.
Proof.
  intros random H0 H1. change (inject_Z 1000) with 1000%Q.
  assert (Lo : (toDouble 0 <= toDouble (random * 1000))%Q)
    by (apply toDouble_mono; lra).
  assert (Hi : (toDouble (random * 1000) <= toDouble 1000)%Q)
    by (apply toDouble_mono; lra).
  assert (F0 : (0 <= toDouble 0)%Q) by (vm_compute; discriminate).
  assert (F1 : (toDouble 1000 <= 1000)%Q) by (vm_compute; discriminate).
  split; lra.
Qed.

End DoubleRounding.

(** ** Connectivity monitor *)

Section Connectivity.

Import Supabase ConnectionStatus.

Ltac unfold_probe :=
  unfold probe, scheduledProbe, handleRetry, checkSupabaseConnection, sessionCheck,
    dbCheck, sessionCheckSucceeds, identityCheckSucceeds,
    exec, tryCatch, bind, modify, gets, ret, throw in *.

(** The status a call of [checkSupabaseConnection] leaves, for a callback
    created while online: whatever state it starts from, it is
    [connected] exactly when one of the two checks succeeds and
    [disconnected] exactly when both fail. *)
Lemma checkSupabaseConnection_status :
  forall (p : Probe) (rendered s : State),
    isOnline rendered = true ->
    supabaseStatus (exec (checkSupabaseConnection p rendered) s)
    = if sessionCheckSucceeds p || identityCheckSucceeds p
      then connected else disconnected.
Proof.
  intros p rendered s H. unfold_probe. rewrite H. cbn.
  destruct (getSession (configured p) (sessionReply p)) as [e | e | d]; cbn;
    try reflexivity;
    destruct (checkSupabaseDB (configured p) (userReply p)); cbn;
    try reflexivity;
    destruct (String.eqb (errorMessage rendered) ""); reflexivity.
Qed.

(** C2.  A probe run while the browser is online marks the backend
    [connected] if the session check or the fallback identity check
    succeeds, and marks it [disconnected] only if both fail (and then it
    does). *)
Theorem probe_connected_iff_a_check_succeeds :
  forall (p : Probe) (s : State),
    isOnline s = true ->
    (sessionCheckSucceeds p = true \/ identityCheckSucceeds p = true ->
     supabaseStatus (probe p s) = connected)
    /\ (supabaseStatus (probe p s) = disconnected ->
        sessionCheckSucceeds p = false /\ identityCheckSucceeds p = false)
    /\ (sessionCheckSucceeds p = false /\ identityCheckSucceeds p = false ->
        supabaseStatus (probe p s) = disconnected).
Proof.
  intros p s H. unfold probe. rewrite (checkSupabaseConnection_status p s s H).
  destruct (sessionCheckSucceeds p), (identityCheckSucceeds p); cbn;
    repeat split; try reflexivity; try discriminate;
    intros [? | ?] || intros [? ?]; try reflexivity; discriminate.
Qed.

Lemma probe_fallback_witness :
  isOnline (initialState true) = true
  /\ sessionCheckSucceeds
       (mkProbe true (SessionError (newError "JWT expired"))
          (UserData (Some (mkAuthUser "u1"))) "10:00:00") = false
  /\ supabaseStatus
       (probe (mkProbe true (SessionError (newError "JWT expired"))
                 (UserData (Some (mkAuthUser "u1"))) "10:00:00")
              (initialState true)) = connected.
Proof.
  split; [reflexivity |]. split; [reflexivity |].
  exact (proj1
           (@probe_connected_iff_a_check_succeeds
              (mkProbe true (SessionError (newError "JWT expired"))
                 (UserData (Some (mkAuthUser "u1"))) "10:00:00")
              (initialState true) eq_refl)
           (or_intror eq_refl)).
Defined.


(** *** Retry delays *)

Lemma backoff_capped : forall n, 5 <= n -> backoff n = 120000%Z.
Proof.
  intros n H. unfold backoff. apply Z.min_r.
  assert (2 ^ 5 <= 2 ^ Z.of_nat n)%Z by (apply Z.pow_le_mono_r; lia).
  change (2 ^ 5)%Z with 32%Z in *. lia.
Qed.

(** The backoff of attempts 1 to 4 and the cap are the only values the
    sum is taken at. *)
Lemma backoff_values :
  forall n, In (backoff (S n)) [10000; 20000; 40000; 80000; 120000]%Z.
Proof.
  intros [| [| [| [| n]]]].
  - left. reflexivity.
  - right. left. reflexivity.
  - do 2 right. left. reflexivity.
  - do 3 right. left. reflexivity.
  - do 4 right. left. symmetry. apply backoff_capped. lia.
Qed.



End Connectivity.

(** ** Session bootstrapper: one boot cycle *)

Section BootCycle.

Import Supabase App.

(** The index loop of the local sweep ends within [length ls - i]
    iterations: more fuel changes nothing. *)
Lemma removeItem_length :
  forall k ls, length (removeItem k ls) <= length ls.
Proof. intros k ls. unfold removeItem. apply filter_length_le. Qed.

Lemma sweepFrom_fuel :
  forall fuel i ls,
    length ls <= i + fuel -> sweepFrom (S fuel) i ls = sweepFrom fuel i ls.
Proof.
  induction fuel as [| fuel IH]; intros i ls H.
  - cbn [sweepFrom]. destruct (Nat.ltb_spec i (length ls)); [lia | reflexivity].
  - cbn [sweepFrom]. destruct (Nat.ltb_spec i (length ls)); [| reflexivity].
    destruct (key i ls) as [k |].
    + destruct (negb (String.eqb k "") && isAuthName k).
      * apply IH. pose proof (removeItem_length k ls). lia.
      * apply IH. lia.
    + apply IH. lia.
Qed.

(** *** What the local sweep removes *)

Lemma isAuthName_guard :
  forall k, negb (String.eqb k "") && isAuthName k = isAuthName k.
Proof.
  intros k. destruct (String.eqb_spec k "") as [-> | _]; reflexivity.
Qed.

Lemma key_at_prefix :
  forall (pre : Storage) a suf, key (length pre) (pre ++ a :: suf) = Some (fst a).
Proof.
  intros pre a suf. unfold key. rewrite map_app. cbn.
  rewrite nth_error_app2 by (rewrite length_map; lia).
  rewrite length_map, Nat.sub_diag. reflexivity.
Qed.

Lemma removeItem_absent :
  forall k (ls : Storage), ~ In k (map fst ls) -> removeItem k ls = ls.
Proof.
  intros k ls. unfold removeItem. induction ls as [| [k' v] ls IH]; cbn; intros H.
  - reflexivity.
  - destruct (String.eqb_spec k' k) as [-> | _]; cbn.
    + exfalso. apply H. left. reflexivity.
    + rewrite IH; [reflexivity |]. intros Hin. apply H. right. exact Hin.
Qed.

Lemma removeItem_unique :
  forall (pre : Storage) a suf,
    NoDup (map fst (pre ++ a :: suf)) ->
    removeItem (fst a) (pre ++ a :: suf) = pre ++ suf.
Proof.
  intros pre a suf H. rewrite map_app in H. cbn in H.
  pose proof (NoDup_remove_2 _ _ _ H) as Hnot.
  unfold removeItem. rewrite filter_app. cbn. rewrite String.eqb_refl. cbn.
  fold (removeItem (fst a) pre). fold (removeItem (fst a) suf).
  rewrite !removeItem_absent; [reflexivity | |];
    intros Hin; apply Hnot; apply in_or_app; auto.
Qed.

(** Started behind a prefix it has already passed, the loop removes every
    Supabase entry of a rest in which no two of them are neighbours. *)
Lemma sweepFrom_spaced :
  forall fuel (pre suf : Storage),
    NoDup (map fst (pre ++ suf)) ->
    spaced suf = true ->
    length suf <= fuel ->
    sweepFrom fuel (length pre) (pre ++ suf)
    = pre ++ filter (fun kv => negb (isAuthName (fst kv))) suf.
Proof.
  induction fuel as [| fuel IH]; intros pre suf Hu Hs Hl.
  - destruct suf; [cbn; rewrite app_nil_r; reflexivity | cbn in Hl; lia].
  - cbn [sweepFrom]. destruct suf as [| a suf].
    + cbn [filter]. rewrite app_nil_r. rewrite Nat.ltb_irrefl. reflexivity.
    + replace (Nat.ltb (length pre) (length (pre ++ a :: suf))) with true
        by (symmetry; apply Nat.ltb_lt; rewrite length_app; cbn; lia).
      rewrite key_at_prefix, isAuthName_guard.
      cbn [filter]. destruct (isAuthName (fst a)) eqn:Ha; cbn [negb].
      * rewrite removeItem_unique by exact Hu.
        assert (Hu' : NoDup (map fst (pre ++ suf))).
        { rewrite map_app in *. cbn in Hu. exact (NoDup_remove_1 _ _ _ Hu). }
        destruct suf as [| b suf].
        -- cbn [filter]. rewrite !app_nil_r.
           destruct fuel; cbn [sweepFrom]; [reflexivity |].
           replace (Nat.ltb (S (length pre)) (length pre)) with false
             by (symmetry; apply Nat.ltb_ge; lia).
           reflexivity.
        -- cbn in Hs. rewrite Ha in Hs. cbn in Hs.
           apply andb_true_iff in Hs as [Hb Hs]. apply negb_true_iff in Hb.
           cbn [filter]. rewrite Hb. cbn [negb].
           replace (S (length pre)) with (length (pre ++ [b]))
             by (rewrite length_app; cbn; lia).
           replace (pre ++ b :: suf) with ((pre ++ [b]) ++ suf)
             by (rewrite <- app_assoc; reflexivity).
           rewrite IH.
           ++ rewrite <- app_assoc. reflexivity.
           ++ rewrite <- app_assoc. exact Hu'.
           ++ destruct suf as [| c suf]; [reflexivity |].
              cbn in Hs. rewrite Hb in Hs. exact Hs.
           ++ cbn in Hl. lia.
      * replace (S (length pre)) with (length (pre ++ [a]))
          by (rewrite length_app; cbn; lia).
        replace (pre ++ a :: suf) with ((pre ++ [a]) ++ suf)
          by (rewrite <- app_assoc; reflexivity).
        rewrite IH.
        -- rewrite <- app_assoc. reflexivity.
        -- rewrite <- app_assoc. exact Hu.
        -- cbn in Hs. apply andb_true_iff in Hs as [_ Hs]. exact Hs.
        -- cbn in Hl. lia.
Qed.

(** When no two Supabase entries are neighbours in [localStorage] (and
    the store is readable), the sweep of [clearSupabaseAuth] leaves none
    of them. *)
Lemma clearSupabaseAuth_clears_spaced_storage :
  forall (reply : SignOutReply) (b : Browser),
    NoDup (map fst (localStorage b)) ->
    spaced (localStorage b) = true ->
    storageBlocked b = false ->
    storedSessionsCleared (snd (clearSupabaseAuth reply b)) = true.
Proof.
  intros reply b Hu Hs Hb.
  assert (E : localStorage (snd (clearSupabaseAuth reply b))
              = filter (fun kv => negb (isAuthName (fst kv))) (localStorage b)).
  { unfold clearSupabaseAuth, clearEnd, clearBegin. rewrite Hb.
    destruct reply; cbn; unfold sweepLocalStorage;
      apply (@sweepFrom_spaced (length (localStorage b)) [] (localStorage b));
      auto. }
  unfold storedSessionsCleared. rewrite E. apply forallb_forall.
  intros kv Hin. apply filter_In in Hin. apply Hin.
Qed.

Lemma clearSupabaseAuth_clears_witness :
  storedSessionsCleared
    (snd (clearSupabaseAuth (SignOutError (newError "Failed to fetch"))
            (mkBrowser [("sb-crt-auth-token", "session"); ("theme", "dark");
                        ("sb-crt-auth-token-code-verifier", "verifier")]
                       false [] []))) = true.
Proof.
  apply (@clearSupabaseAuth_clears_spaced_storage
           (SignOutError (newError "Failed to fetch"))
           (mkBrowser [("sb-crt-auth-token", "session"); ("theme", "dark");
                       ("sb-crt-auth-token-code-verifier", "verifier")]
                      false [] [])).
  - cbn. repeat constructor; cbn; intuition discriminate.
  - reflexivity.
  - reflexivity.
Defined.

(** [clearSupabaseAuth] returns [true] whatever happens, and has sent
    exactly one [signOut] request of scope [global]. *)
Lemma clearSupabaseAuth_best_effort :
  forall reply b,
    fst (clearSupabaseAuth reply b) = true
    /\ signOutRequests (snd (clearSupabaseAuth reply b)) = signOutRequests b ++ ["global"].
Proof.
  intros reply b. unfold clearSupabaseAuth, clearEnd, clearBegin.
  destruct reply, (storageBlocked b); cbn; auto.
Qed.





(** C8, at a failing input.  [localStorage] holds four neighbouring
    Supabase entries, the session token last; every [signOut] request
    fails; the session is found and [getCurrentUser] answers [null].  The
    boot cycle ends with [user = null] and ready, having sent its two
    [signOut] requests, but the index loop of the sweep has stepped over
    the token both times: the stored session is still there.  A second
    boot then removes it, so the two boots do not leave the same store. *)
Theorem unresolved_session_boot_leaves_stored_session :
  let env := mkBackend true
               (SessionData (Some (mkSession (Some "ann@example.org"))))
               (CurrentUser None)
               (SignOutError (newError "Failed to fetch")) in
  let st' := boot (SignOutError (newError "Failed to fetch")) env
               (initialUI,
                mkBrowser [("supabase.auth.token", "legacy");
                           ("sb-crt-auth-token-code-verifier", "verifier");
                           ("sb-crt-auth-token-user", "ann");
                           ("sb-crt-auth-token", "session")]
                          false [] []) in
    unresolved env
    /\ localStorage
         (snd (forceClearAuthEnd (SignOutError (newError "Failed to fetch"))
                 (forceClearAuthBegin
                    (initialUI,
                     mkBrowser [("supabase.auth.token", "legacy");
                                ("sb-crt-auth-token-code-verifier", "verifier");
                                ("sb-crt-auth-token-user", "ann");
                                ("sb-crt-auth-token", "session")]
                               false [] []))))
       = [("sb-crt-auth-token-code-verifier", "verifier");
          ("sb-crt-auth-token", "session")]
    /\ user (fst st') = None
    /\ authChecked (fst st') = true
    /\ signOutRequests (snd st') = ["global"; "global"]
    /\ localStorage (snd st') = [("sb-crt-auth-token", "session")]
    /\ storedSessionsCleared (snd st') = false
    /\ localStorage
         (snd (boot (SignOutError (newError "Failed to fetch")) env st')) = [].
Proof.
  cbv zeta. split.
  - split; [eexists; reflexivity | left; reflexivity].
  - vm_compute. repeat split.
Qed.

End BootCycle.

(** ** Session bootstrapper: the order of sign-out and session check *)

Section BootOrder.

Import Supabase App.

#[local] Arguments addDebugInfo : simpl never.
#[local] Arguments clearBegin : simpl never.
#[local] Arguments clearEnd : simpl never.

(** *** The call log *)

Lemma openAfter_app :
  forall l l' open, openAfter open (l ++ l') = openAfter (openAfter open l) l'.
Proof.
  induction l as [| c l IH]; intros l' open; [reflexivity |].
  destruct c; cbn; apply IH.
Qed.

Lemma signOutFirstFrom_app :
  forall l l' open,
    signOutFirstFrom open (l ++ l')
    = signOutFirstFrom open l && signOutFirstFrom (openAfter open l) l'.
Proof.
  induction l as [| c l IH]; intros l' open; [reflexivity |].
  destruct c; cbn; rewrite IH; [reflexivity | reflexivity |].
  apply andb_assoc.
Qed.

(** *** Commits *)

Lemma eqbForceDeps_refl : forall b, eqbForceDeps (Some b) b = true.
Proof. intros []; reflexivity. Qed.

Lemma eqbInitDeps_refl : forall n b, eqbInitDeps (Some (n, b)) (n, b) = true.
Proof. intros n []; cbn; rewrite Nat.eqb_refl; reflexivity. Qed.

Ltac open_effects :=
  unfold runEffects, forceEffect, initEffect, initCleanup, forceClearAuthBegin.

(** One commit, field by field. *)
Lemma runEffects_ui :
  forall s,
    ui (runEffects s)
    = if forcePending s
      then addDebugInfo "Performing forced sign out to clear any stale sessions"
             (setSignOutInProgress true (ui s))
      else ui s.
Proof.
  intros s. open_effects.
  destruct (forcePending s), (initPending s), (signOutInProgress (ui s)); reflexivity.
Qed.

Lemma runEffects_forceDeps :
  forall s,
    forceDeps (runEffects s)
    = if forcePending s then Some (forceReset (ui s)) else forceDeps s.
Proof.
  intros s. open_effects.
  destruct (forcePending s), (initPending s), (signOutInProgress (ui s)); reflexivity.
Qed.

Lemma runEffects_initDeps :
  forall s,
    initDeps (runEffects s)
    = if initPending s
      then Some (connectionRetries (ui s), signOutInProgress (ui s))
      else initDeps s.
Proof.
  intros s. open_effects.
  destruct (forcePending s), (initPending s), (signOutInProgress (ui s)); reflexivity.
Qed.

Lemma runEffects_initTimeout :
  forall s,
    initTimeout (runEffects s)
    = if initPending s
      then if signOutInProgress (ui s) then None
           else Some (connectionRetries (ui s) * 500, false)
      else initTimeout s.
Proof.
  intros s. open_effects.
  destruct (forcePending s), (initPending s), (signOutInProgress (ui s)); reflexivity.
Qed.

Lemma runEffects_calls :
  forall s,
    calls (runEffects s)
    = calls s ++ (if forcePending s then [ForcedSignOutBegins] else [])
    /\ forcedInFlight (runEffects s)
       = forcedInFlight s + (if forcePending s then 1 else 0).
Proof.
  intros s. open_effects.
  destruct (forcePending s), (initPending s), (signOutInProgress (ui s)); cbn;
    rewrite ?app_nil_r, ?Nat.add_0_r, ?Nat.add_1_r; split; reflexivity.
Qed.

(** After one commit the first effect is no longer pending, and the
    second is pending again exactly when the first has just raised
    [signOutInProgress]. *)
Lemma runEffects_forcePending : forall s, forcePending (runEffects s) = false.
Proof.
  intros s. unfold forcePending at 1.
  rewrite runEffects_forceDeps, runEffects_ui.
  destruct (forcePending s) eqn:E.
  - unfold addDebugInfo. cbn. rewrite Bool.eqb_reflx. reflexivity.
  - unfold forcePending in E. rewrite E. reflexivity.
Qed.

Lemma runEffects_initPending :
  forall s,
    initPending (runEffects s) = forcePending s && negb (signOutInProgress (ui s)).
Proof.
  intros s. unfold initPending at 1.
  rewrite runEffects_initDeps, runEffects_ui.
  destruct (forcePending s) eqn:F, (initPending s) eqn:I; unfold addDebugInfo; cbn.
  - destruct (signOutInProgress (ui s)); cbn; rewrite Nat.eqb_refl; reflexivity.
  - unfold initPending in I. apply negb_false_iff in I.
    destruct (initDeps s) as [[m c] |]; [| discriminate]. cbn in *.
    apply andb_true_iff in I as [I1 I2]. rewrite I1. cbn.
    destruct c, (signOutInProgress (ui s)); cbn in *; congruence.
  - rewrite Nat.eqb_refl, Bool.eqb_reflx. reflexivity.
  - unfold initPending in I. rewrite I. reflexivity.
Qed.

(** With no effect pending, a commit changes nothing. *)
Lemma settle_idle : forall s, effectsPending s = false -> settle s = s.
Proof. intros s H. unfold settle, settleN. rewrite H. reflexivity. Qed.

(** [settle], in terms of single commits. *)
Lemma settle_unfold :
  forall s,
    settle s
    = if effectsPending s
      then if forcePending s && negb (signOutInProgress (ui s))
           then runEffects (runEffects s)
           else runEffects s
      else s.
Proof.
  intros s. unfold settle, settleN.
  destruct (effectsPending s); [| reflexivity].
  unfold effectsPending at 1.
  rewrite runEffects_forcePending, runEffects_initPending. reflexivity.
Qed.

(** Two rounds of commits leave no effect pending. *)
Lemma settle_quiet : forall s, effectsPending (settle s) = false.
Proof.
  intros s. rewrite settle_unfold.
  destruct (effectsPending s) eqn:P; [| exact P].
  destruct (forcePending s && negb (signOutInProgress (ui s))) eqn:Q;
    unfold effectsPending;
    rewrite ?runEffects_forcePending, ?runEffects_initPending,
      ?runEffects_forcePending, ?Q; reflexivity.
Qed.

(** A commit begins a forced sign-out exactly when the first effect was
    pending. *)
Lemma settle_calls :
  forall s,
    calls (settle s)
    = calls s ++ (if forcePending s then [ForcedSignOutBegins] else [])
    /\ forcedInFlight (settle s)
       = forcedInFlight s + (if forcePending s then 1 else 0).
Proof.
  intros s. rewrite settle_unfold.
  destruct (effectsPending s) eqn:P.
  - destruct (forcePending s && negb (signOutInProgress (ui s))) eqn:Q.
    + destruct (runEffects_calls (runEffects s)) as [C1 N1].
      destruct (runEffects_calls s) as [C0 N0].
      rewrite C1, N1, C0, N0, runEffects_forcePending, app_nil_r, Nat.add_0_r.
      split; reflexivity.
    + apply runEffects_calls.
  - unfold effectsPending in P. apply orb_false_iff in P as [P _]. rewrite P.
    rewrite app_nil_r, Nat.add_0_r. split; reflexivity.
Qed.

(** When both effects were pending, the timer the second one may have
    armed has been cleared again by the time the commits are over. *)
Lemma settle_clears_timer :
  forall s,
    forcePending s = true -> initPending s = true -> initTimeout (settle s) = None.
Proof.
  intros s F I. rewrite settle_unfold. unfold effectsPending. rewrite F, I. cbn.
  destruct (signOutInProgress (ui s)) eqn:S; cbn.
  - rewrite runEffects_initTimeout, I, S. reflexivity.
  - rewrite runEffects_initTimeout, runEffects_initPending, F, S. cbn.
    rewrite runEffects_ui, F. reflexivity.
Qed.


(** *** Runs in which retries keep apart from forced sign-outs *)

Lemma quiet_flags :
  forall s, effectsPending s = false -> forcePending s = false /\ initPending s = false.
Proof. intros s H. unfold effectsPending in H. apply orb_false_iff in H. exact H. Qed.

Ltac split_orderly := split; [| split; [| split; [| split]]].

Lemma mount_orderly : forall b, orderly (mount b).
Proof.
  intros b. unfold mount.
  destruct (settle_calls (unmounted b)) as [C N].
  assert (T : initTimeout (settle (unmounted b)) = None)
    by (apply settle_clears_timer; reflexivity).
  change (calls (settle (unmounted b)) = [ForcedSignOutBegins]) in C.
  change (forcedInFlight (settle (unmounted b)) = 1) in N.
  unfold orderly. rewrite C, N.
  split_orderly; [apply settle_quiet | reflexivity | reflexivity | lia | intros _; exact T].
Qed.

(** The cells the dependency arrays read are not written by
    [initializeAuth]. *)
Lemma resume_keeps_deps :
  forall a r u b u' b' next,
    resume a r (u, b) = Some (u', b', next) ->
    forceReset u' = forceReset u
    /\ connectionRetries u' = connectionRetries u
    /\ signOutInProgress u' = signOutInProgress u.
Proof.
  intros a r u b u' b' next H.
  destruct a, r as [r | r | r]; cbn in H; try discriminate.
  - destruct r as [[isErr msg | te] | e | [session |]]; cbn in H; inversion H; subst; repeat split.
  - destruct r as [[isErr msg | te] | [cu |]]; cbn in H; inversion H; subst; repeat split.
  - inversion H; subst; repeat split.
  - inversion H; subst; repeat split.
Qed.

Lemma step_orderly :
  forall s ev s',
    orderly s ->
    (ev = ClickRetry -> forcedInFlight s = 0) ->
    step s ev = Some s' ->
    orderly s'.
Proof.
  intros s ev s' (Q & O & F & L & T) Hclick Hstep.
  destruct (quiet_flags s Q) as [FP IP].
  destruct ev as [r | | i r |]; cbn [step] in Hstep.
  - (* a forced sign-out settles *)
    destruct (forcedInFlight s) as [| n] eqn:En; [discriminate |].
    assert (n = 0) by lia. subst n.
    unfold forceClearAuthEnd in Hstep. injection Hstep as <-.
    match goal with |- orderly (settle ?x) => set (s0 := x) end.
    assert (FP0 : forcePending s0 = false) by exact FP.
    destruct (settle_calls s0) as [C N]. rewrite FP0 in C, N.
    unfold orderly. rewrite C, N. subst s0. cbn [calls forcedInFlight].
    rewrite app_nil_r, Nat.add_0_r. unfold signOutFirst.
    rewrite openAfter_app, signOutFirstFrom_app, O. cbn.
    unfold signOutFirst in F. rewrite F.
    split_orderly;
      [apply settle_quiet | reflexivity | reflexivity | lia | intros; discriminate].
  - (* the timer fires *)
    destruct (initTimeout s) as [[d closedOver] |] eqn:Et; [| discriminate].
    assert (N0 : forcedInFlight s = 0).
    { destruct (forcedInFlight s) as [| [| n]] eqn:En; [reflexivity | | lia].
      specialize (T eq_refl). discriminate. }
    destruct closedOver; injection Hstep as <-.
    + rewrite settle_idle by exact Q.
      unfold orderly. cbn [calls forcedInFlight initTimeout].
      split_orderly; [exact Q | exact O | exact F | lia | reflexivity].
    + rewrite settle_idle by exact Q.
      unfold orderly. cbn [calls forcedInFlight initTimeout].
      unfold signOutFirst in *.
      rewrite openAfter_app, signOutFirstFrom_app, O, F, N0. cbn.
      split_orderly; [exact Q | reflexivity | reflexivity | lia | reflexivity].
  - (* an initializeAuth resumes *)
    destruct (nth_error (inits s) i) as [a |]; [| discriminate].
    destruct (resume a r (ui s, browser s)) as [[[u b] next] |] eqn:Er; [| discriminate].
    injection Hstep as <-.
    destruct (resume_keeps_deps _ _ _ _ Er) as (R1 & R2 & R3).
    assert (Q0 : forall x y z,
               effectsPending (mkSys u b (forceDeps s) (initDeps s) x (subscribed s) y z (calls s))
               = false).
    { intros. unfold effectsPending, forcePending, initPending in *. cbn.
      rewrite R1, R2, R3. exact Q. }
    rewrite settle_idle by apply Q0.
    unfold orderly. cbn [calls forcedInFlight initTimeout].
    split_orderly; [apply Q0 | exact O | exact F | exact L | exact T].
  - (* a retry is clicked *)
    specialize (Hclick eq_refl).
    injection Hstep as <-.
    set (s0 := withUI handleRetry s).
    assert (FP0 : forcePending s0 = true).
    { unfold forcePending in *. subst s0. unfold withUI, handleRetry, addDebugInfo. cbn.
      apply negb_false_iff in FP.
      destruct (forceDeps s) as [fd |]; [| discriminate]. cbn in *.
      destruct fd, (forceReset (ui s)); cbn in *; congruence. }
    assert (IP0 : initPending s0 = true).
    { unfold initPending in *. subst s0. unfold withUI, handleRetry, addDebugInfo. cbn.
      apply negb_false_iff in IP.
      destruct (initDeps s) as [[m c] |]; [| discriminate]. cbn in *.
      apply andb_true_iff in IP as [IP _]. apply Nat.eqb_eq in IP. subst m.
      replace (Nat.eqb (connectionRetries (ui s)) (connectionRetries (ui s) + 1))
        with false by (symmetry; apply Nat.eqb_neq; lia).
      reflexivity. }
    destruct (settle_calls s0) as [C N]. rewrite FP0 in C, N.
    pose proof (settle_clears_timer s0 FP0 IP0) as T0.
    unfold orderly. rewrite C, N. subst s0. cbn [calls forcedInFlight withUI].
    unfold signOutFirst in *.
    rewrite openAfter_app, signOutFirstFrom_app, O, F, Hclick. cbn.
    split_orderly;
      [apply settle_quiet | reflexivity | reflexivity | lia | intros _; exact T0].
Qed.

Lemma run_orderly :
  forall evs s s',
    orderly s -> retriesApart s evs = true -> run s evs = Some s' -> orderly s'.
Proof.
  induction evs as [| ev evs IH]; intros s s' Hs Ha Hr; cbn in Ha, Hr.
  - injection Hr as <-. exact Hs.
  - apply andb_true_iff in Ha as [Hev Hrest].
    destruct (step s ev) as [s1 |] eqn:Es; [| discriminate].
    apply (IH s1 s'); [| exact Hrest | exact Hr].
    apply (@step_orderly s ev s1); [exact Hs | | exact Es].
    intros ->. apply Nat.eqb_eq. exact Hev.
Qed.

(** In every run from mount in which no retry is clicked while a forced
    sign-out is in progress, each session check begins only after every
    forced sign-out begun before it has completed. *)
Lemma session_check_waits_when_retries_keep_apart :
  forall (b : Browser) (evs : list Event) (s : Sys),
    retriesApart (mount b) evs = true ->
    run (mount b) evs = Some s ->
    signOutFirst (calls s) = true.
Proof.
  intros b evs s Ha Hr.
  destruct (@run_orderly evs (mount b) s (mount_orderly b) Ha Hr) as (_ & _ & F & _).
  exact F.
Qed.


Lemma session_check_waits_witness :
  retriesApart (mount (mkBrowser [] false [] []))
    [ForcedSignOutSettles SignedOut; InitTimeoutFires; ClickRetry;
     ForcedSignOutSettles SignedOut; InitTimeoutFires] = true
  /\ option_map calls
       (run (mount (mkBrowser [] false [] []))
          [ForcedSignOutSettles SignedOut; InitTimeoutFires; ClickRetry;
           ForcedSignOutSettles SignedOut; InitTimeoutFires])
     = Some [ForcedSignOutBegins; ForcedSignOutEnds; SessionCheckBegins;
             ForcedSignOutBegins; ForcedSignOutEnds; SessionCheckBegins]
  /\ forall s,
       run (mount (mkBrowser [] false [] []))
         [ForcedSignOutSettles SignedOut; InitTimeoutFires; ClickRetry;
          ForcedSignOutSettles SignedOut; InitTimeoutFires] = Some s ->
       signOutFirst (calls s) = true.
Proof.
  split; [vm_compute; reflexivity |]. split; [vm_compute; reflexivity |].
  intros s.
  apply (@session_check_waits_when_retries_keep_apart (mkBrowser [] false [] [])).
  vm_compute. reflexivity.
Defined.

(** C1, at a failing schedule.  After the first boot has started its
    session check, the retry button of the loading screen is clicked
    twice, the second time while the forced sign-out of the first click
    is still in progress.  The second effect then returns early, the
    flag is reset when the earlier sign-out completes, the timer is armed
    and fires, and [getSession] is called while the forced sign-out of
    the second retry has not completed. *)
Theorem retry_during_forced_sign_out_starts_session_check_early :
  exists s : Sys,
    run (mount (mkBrowser [] false [] []))
      [ForcedSignOutSettles SignedOut; InitTimeoutFires;
       ClickRetry; ClickRetry;
       ForcedSignOutSettles SignedOut; InitTimeoutFires] = Some s
    /\ retriesOffered (mount (mkBrowser [] false [] []))
         [ForcedSignOutSettles SignedOut; InitTimeoutFires;
          ClickRetry; ClickRetry;
          ForcedSignOutSettles SignedOut; InitTimeoutFires] = true
    /\ calls s = [ForcedSignOutBegins; ForcedSignOutEnds; SessionCheckBegins;
                  ForcedSignOutBegins; ForcedSignOutBegins; ForcedSignOutEnds;
                  SessionCheckBegins]
    /\ forcedInFlight s = 1
    /\ connectionRetries (ui s) = 2
    /\ signOutFirst (calls s) = false.
Proof.
  eexists. split; [vm_compute; reflexivity |]. vm_compute. repeat split.
Qed.

End BootOrder.

(** ** [clearSupabaseAuth]: what the two sweeps leave alone *)

Section ClearFrame.

Import Supabase.

Lemma removeItem_keeps_foreign :
  forall k ls, isAuthName k = true -> filter foreign (removeItem k ls) = filter foreign ls.
Proof.
  intros k ls Hk. unfold removeItem. induction ls as [| [k' v] ls IH]; [reflexivity |].
  cbn [filter fst]. destruct (String.eqb_spec k' k) as [-> | Hne]; cbn [negb].
  - unfold foreign at 2. cbn [fst]. rewrite Hk. cbn [negb]. exact IH.
  - cbn [filter]. rewrite IH. reflexivity.
Qed.

Lemma sweepFrom_keeps_foreign :
  forall fuel i ls, filter foreign (sweepFrom fuel i ls) = filter foreign ls.
Proof.
  induction fuel as [| fuel IH]; intros i ls; [reflexivity |].
  cbn [sweepFrom]. destruct (Nat.ltb i (length ls)); [| reflexivity].
  destruct (key i ls) as [k |]; [| apply IH].
  destruct (negb (String.eqb k "") && isAuthName k) eqn:E; [| apply IH].
  apply andb_true_iff in E as [_ E].
  rewrite IH. apply removeItem_keeps_foreign. exact E.
Qed.

Lemma sweepFrom_incl :
  forall fuel i ls kv, In kv (sweepFrom fuel i ls) -> In kv ls.
Proof.
  induction fuel as [| fuel IH]; intros i ls kv H; [exact H |].
  cbn [sweepFrom] in H. destruct (Nat.ltb i (length ls)); [| exact H].
  destruct (key i ls) as [k |]; [| exact (IH _ _ _ H)].
  destruct (negb (String.eqb k "") && isAuthName k); [| exact (IH _ _ _ H)].
  apply IH in H. unfold removeItem in H. apply filter_In in H. apply H.
Qed.

(** Whatever the storage holds and whatever [signOut] answers,
    [clearSupabaseAuth] leaves every [localStorage] entry whose key
    contains neither [supabase] nor [sb-] in place and in order, and
    writes no entry. *)
Theorem clearSupabaseAuth_keeps_foreign_entries :
  forall (reply : SignOutReply) (b : Browser),
    filter foreign (localStorage (snd (clearSupabaseAuth reply b)))
    = filter foreign (localStorage b)
    /\ (forall kv, In kv (localStorage (snd (clearSupabaseAuth reply b))) ->
                   In kv (localStorage b)).
Proof.
  intros reply b. unfold clearSupabaseAuth, clearEnd, clearBegin, sweepLocalStorage.
  destruct reply, (storageBlocked b); cbn; split; auto;
    try apply sweepFrom_keeps_foreign; intros kv; apply sweepFrom_incl.
Qed.

(** The cookie sweep runs exactly when [signOut] did not throw: then no
    cookie named like a Supabase one is left and the others are kept in
    order; after a throw the cookies are as they were. *)
Theorem clearSupabaseAuth_cookies :
  forall (reply : SignOutReply) (b : Browser),
    match reply with
    | SignOutThrows _ => cookies (snd (clearSupabaseAuth reply b)) = cookies b
    | _ =>
        forallb foreign (cookies (snd (clearSupabaseAuth reply b))) = true
        /\ cookies (snd (clearSupabaseAuth reply b)) = filter foreign (cookies b)
    end.
Proof.
  intros reply b. unfold clearSupabaseAuth, clearEnd, clearBegin, sweepCookies.
  destruct reply, (storageBlocked b); cbn; try reflexivity;
    (split; [| reflexivity]); apply forallb_forall; intros c Hc;
    apply filter_In in Hc; apply Hc.
Qed.

End ClearFrame.

(** ** [initializeAuth]: the other outcomes *)

Section BootOutcomes.

Import Supabase App.

Lemma clearSupabaseAuth_requests :
  forall reply b,
    signOutRequests (snd (clearSupabaseAuth reply b)) = signOutRequests b ++ ["global"].
Proof.
  intros reply b. unfold clearSupabaseAuth, clearEnd, clearBegin.
  destruct reply, (storageBlocked b); reflexivity.
Qed.

(** A lookup that fails decides nothing: [user] and [authChecked] keep
    their values, [loading] is cleared, and nothing is signed out or
    swept.  A returned session error shows [Failed to check
    authentication status]; a thrown value other than [null] and
    [undefined] shows [Failed to initialize application]; when
    [getSession] throws [null] or [undefined] the [catch] block itself
    throws on [err.message] and no error is shown at all; when a session
    is found and [getCurrentUser] throws [null] or [undefined], the inner
    [catch] throws and the outer one shows [Failed to initialize
    application]. *)
Theorem failed_session_lookup_exposes_error :
  forall (env : Backend) (st : UI * Browser),
    let after := initializeAuth env st in
    let undecided :=
      user (fst after) = user (fst st)
      /\ authChecked (fst after) = authChecked (fst st)
      /\ loading (fst after) = false
      /\ snd after = snd st in
    match getSession (configured env) (sessionReply env) with
    | SessionError _ =>
        error (fst after) = Some "Failed to check authentication status" /\ undecided
    | SessionThrows (mkExn _ _) =>
        error (fst after) = Some "Failed to initialize application" /\ undecided
    | SessionThrows (Nullish _) =>
        error (fst after) = None /\ undecided
    | SessionData (Some _) =>
        match currentUserReply env with
        | CurrentUserThrows (Nullish _) =>
            error (fst after) = Some "Failed to initialize application" /\ undecided
        | _ => True
        end
    | SessionData None => True
    end.
Proof.
  intros env [s b]. cbv zeta. unfold initializeAuth.
  destruct (getSession (configured env) (sessionReply env))
    as [[isErr msg | te] | e | [session |]]; cbn; try (repeat split; fail).
  destruct (currentUserReply env) as [[isErr msg | te] | u]; cbn;
    try exact I; repeat split.
Qed.



(** Nobody is signed in by [initializeAuth] except through a resolved
    session: a user shown after a run is the one [getCurrentUser]
    returned for a session that was found, or else the one shown before
    the run, which is kept only when the session lookup itself failed or
    when [getCurrentUser] threw [null] or [undefined].  And every run
    ends with [loading] cleared. *)
Theorem user_only_from_resolution :
  forall (env : Backend) (st : UI * Browser),
    loading (fst (initializeAuth env st)) = false
    /\ forall u,
         user (fst (initializeAuth env st)) = Some u ->
         ((exists session,
              getSession (configured env) (sessionReply env) = SessionData (Some session))
          /\ currentUserReply env = CurrentUser (Some u))
         \/ (user (fst st) = Some u
             /\ ((forall d, getSession (configured env) (sessionReply env) <> SessionData d)
                 \/ ((exists session,
                         getSession (configured env) (sessionReply env)
                         = SessionData (Some session))
                     /\ exists typeError,
                          currentUserReply env = CurrentUserThrows (Nullish typeError)))).
Proof.
  intros env [s b]. unfold initializeAuth.
  destruct (getSession (configured env) (sessionReply env))
    as [[isErr msg | te] | e | [session |]]; cbn.
  - split; [reflexivity |]. intros u H. right.
    split; [exact H | left; intros d; discriminate].
  - split; [reflexivity |]. intros u H. right.
    split; [exact H | left; intros d; discriminate].
  - split; [reflexivity |]. intros u H. right.
    split; [exact H | left; intros d; discriminate].
  - destruct (currentUserReply env) as [[isErr msg | te] | [cu |]]; cbn;
      unfold initAfterClear, clearEnd;
      try destruct (signOut (configured env) (signOutReply env));
      cbn; (split; [reflexivity |]); intros u H; try discriminate;
      first [ left; split; [eexists; reflexivity | inversion H; reflexivity]
            | right; split; [exact H |]; right; split; eexists; reflexivity ].
  - split; [reflexivity |]. intros u H. discriminate.
Qed.

(** The auth-state listener: a sign-out notice clears [user]; a sign-in
    or refresh notice sets the resolved user and sends no sign-out
    request; when there is no user to resolve, either notice clears
    [user] and sends one sign-out request of scope [global]; when the
    resolution throws, neither notice signs out nor touches [user]; any
    other notice leaves [user] and the browser alone; and no notice
    writes any other cell than [user] and the debug lines. *)
Theorem onAuthStateChange_effects :
  forall (ev : AuthEvent) (r : CurrentUserReply) (so : SignOutReply) (st : UI * Browser),
    (loading (fst (onAuthStateChange ev r so st)) = loading (fst st)
     /\ error (fst (onAuthStateChange ev r so st)) = error (fst st)
     /\ authChecked (fst (onAuthStateChange ev r so st)) = authChecked (fst st)
     /\ connectionRetries (fst (onAuthStateChange ev r so st)) = connectionRetries (fst st)
     /\ forceReset (fst (onAuthStateChange ev r so st)) = forceReset (fst st)
     /\ signOutInProgress (fst (onAuthStateChange ev r so st)) = signOutInProgress (fst st))
    /\ (user (fst (onAuthStateChange SIGNED_OUT r so st)) = None
        /\ snd (onAuthStateChange SIGNED_OUT r so st) = snd st)
    /\ (forall e,
          user (fst (onAuthStateChange SIGNED_IN (CurrentUserThrows e) so st)) = user (fst st)
          /\ snd (onAuthStateChange SIGNED_IN (CurrentUserThrows e) so st) = snd st
          /\ user (fst (onAuthStateChange TOKEN_REFRESHED (CurrentUserThrows e) so st))
             = user (fst st)
          /\ snd (onAuthStateChange TOKEN_REFRESHED (CurrentUserThrows e) so st) = snd st)
    /\ (forall u,
          user (fst (onAuthStateChange SIGNED_IN (CurrentUser u) so st)) = u
          /\ user (fst (onAuthStateChange TOKEN_REFRESHED (CurrentUser u) so st)) = u)
    /\ (forall u,
          snd (onAuthStateChange SIGNED_IN (CurrentUser (Some u)) so st) = snd st
          /\ snd (onAuthStateChange TOKEN_REFRESHED (CurrentUser (Some u)) so st) = snd st)
    /\ (signOutRequests (snd (onAuthStateChange SIGNED_IN (CurrentUser None) so st))
        = signOutRequests (snd st) ++ ["global"]
        /\ signOutRequests (snd (onAuthStateChange TOKEN_REFRESHED (CurrentUser None) so st))
           = signOutRequests (snd st) ++ ["global"])
    /\ (forall name,
          user (fst (onAuthStateChange (OtherAuthEvent name) r so st)) = user (fst st)
          /\ snd (onAuthStateChange (OtherAuthEvent name) r so st) = snd st).
Proof.
  intros ev r so [s b].
  split; [| split; [| split; [| split; [| split; [| split]]]]].
  - destruct ev, r as [[isErr msg | te] | [u |]]; cbn; repeat split.
  - split; reflexivity.
  - intros [isErr msg | te]; cbn; repeat split.
  - intros [u |]; cbn; split; reflexivity.
  - intros u. split; reflexivity.
  - cbn. split; apply clearSupabaseAuth_requests.
  - intros name. split; reflexivity.
Qed.

(** [handleForceReset] always reaches the redirect to [/auth], after
    exactly one sign-out request, and writes no cell but the debug
    lines. *)
Theorem handleForceReset_always_redirects :
  forall (reply : SignOutReply) (st : UI * Browser),
    snd (handleForceReset reply st) = Some "/auth"
    /\ signOutRequests (snd (fst (handleForceReset reply st)))
       = signOutRequests (snd st) ++ ["global"]
    /\ user (fst (fst (handleForceReset reply st))) = user (fst st)
    /\ authChecked (fst (fst (handleForceReset reply st))) = authChecked (fst st)
    /\ signOutInProgress (fst (fst (handleForceReset reply st)))
       = signOutInProgress (fst st).
Proof.
  intros reply [s b]. cbn. repeat split. apply clearSupabaseAuth_requests.
Qed.

End BootOutcomes.

(** ** Session bootstrapper: what every run maintains *)

Section BootRuns.

Import Supabase App.

#[local] Arguments addDebugInfo : simpl never.
#[local] Arguments clearBegin : simpl never.
#[local] Arguments clearEnd : simpl never.

Lemma sliceLast_length :
  forall (A : Type) k (l : list A), length (sliceLast k l) <= k.
Proof. intros A k l. unfold sliceLast. rewrite length_skipn. lia. Qed.

(** [addDebugInfo] keeps the last nine lines and appends one. *)
Lemma addDebugInfo_bounded :
  forall msg u, length (debugInfo (addDebugInfo msg u)) <= 10.
Proof.
  intros msg u. unfold addDebugInfo. cbn. rewrite length_app. cbn.
  pose proof (sliceLast_length 9 (debugInfo u)). lia.
Qed.

Lemma runEffects_bounded :
  forall s, length (debugInfo (ui s)) <= 10 ->
            length (debugInfo (ui (runEffects s))) <= 10.
Proof.
  intros s H. rewrite runEffects_ui. destruct (forcePending s);
    [apply addDebugInfo_bounded | exact H].
Qed.

Lemma settle_bounded :
  forall s, length (debugInfo (ui s)) <= 10 ->
            length (debugInfo (ui (settle s))) <= 10.
Proof.
  intros s H. rewrite settle_unfold.
  destruct (effectsPending s); [| exact H].
  destruct (forcePending s && negb (signOutInProgress (ui s)));
    repeat apply runEffects_bounded; exact H.
Qed.

Lemma resume_bounded :
  forall a r u b u' b' next,
    resume a r (u, b) = Some (u', b', next) ->
    length (debugInfo u) <= 10 -> length (debugInfo u') <= 10.
Proof.
  intros a r u b u' b' next H Hu.
  destruct a, r as [r | r | r]; cbn in H; try discriminate.
  - destruct r as [[isErr msg | te] | e | [session |]]; cbn in H; inversion H; subst;
      cbn; first [apply addDebugInfo_bounded | exact Hu].
  - destruct r as [[isErr msg | te] | [cu |]]; cbn in H; inversion H; subst;
      cbn; first [apply addDebugInfo_bounded | exact Hu].
  - inversion H; subst. exact Hu.
  - inversion H; subst. exact Hu.
Qed.

(** A click on retry makes both effects pending. *)
Lemma retry_makes_effects_pending :
  forall s,
    effectsPending s = false ->
    forcePending (withUI handleRetry s) = true
    /\ initPending (withUI handleRetry s) = true.
Proof.
  intros s Q. destruct (quiet_flags s Q) as [FP IP]. split.
  - unfold forcePending in *. unfold withUI, handleRetry, addDebugInfo. cbn.
    apply negb_false_iff in FP.
    destruct (forceDeps s) as [fd |]; [| discriminate]. cbn in *.
    destruct fd, (forceReset (ui s)); cbn in *; congruence.
  - unfold initPending in *. unfold withUI, handleRetry, addDebugInfo. cbn.
    apply negb_false_iff in IP.
    destruct (initDeps s) as [[m c] |]; [| discriminate]. cbn in *.
    apply andb_true_iff in IP as [IP _]. apply Nat.eqb_eq in IP. subst m.
    replace (Nat.eqb (connectionRetries (ui s)) (connectionRetries (ui s) + 1))
      with false by (symmetry; apply Nat.eqb_neq; lia).
    reflexivity.
Qed.

Ltac split_tidy := split; [| split].

Lemma mount_tidy : forall b, tidy (mount b).
Proof.
  intros b. unfold mount. split_tidy.
  - apply settle_quiet.
  - apply settle_bounded. cbn. lia.
  - rewrite settle_clears_timer by reflexivity. intros d c H. discriminate.
Qed.

Lemma step_tidy :
  forall s ev s', tidy s -> step s ev = Some s' -> tidy s'.
Proof.
  intros s ev s' (Q & B & T) Hstep.
  destruct (quiet_flags s Q) as [FP IP].
  destruct ev as [r | | i r |]; cbn [step] in Hstep.
  - (* a forced sign-out settles *)
    destruct (forcedInFlight s) as [| n]; [discriminate |].
    unfold forceClearAuthEnd in Hstep. injection Hstep as <-.
    match goal with |- tidy (settle ?x) => set (s0 := x) end.
    assert (FP0 : forcePending s0 = false) by exact FP.
    assert (S0 : signOutInProgress (ui s0) = false) by reflexivity.
    assert (R0 : connectionRetries (ui s0) = connectionRetries (ui s)) by reflexivity.
    assert (B0 : length (debugInfo (ui s0)) <= 10) by apply addDebugInfo_bounded.
    split_tidy; [apply settle_quiet | apply settle_bounded; exact B0 |].
    rewrite settle_unfold. unfold effectsPending. rewrite FP0. cbn [orb andb].
    destruct (initPending s0) eqn:IP0.
    + rewrite runEffects_initTimeout, runEffects_ui, IP0, FP0, S0.
      intros d c H. inversion H; subst. auto.
    + intros d c H. change (initTimeout s = Some (d, c)) in H.
      destruct (T d c H) as (Hd & Hc & _). rewrite S0, R0. auto.
  - (* the timer fires *)
    destruct (initTimeout s) as [[d closedOver] |]; [| discriminate].
    destruct closedOver; injection Hstep as <-; rewrite settle_idle by exact Q;
      (split_tidy; [exact Q | | intros d' c' H; discriminate]).
    + exact B.
    + cbn. apply addDebugInfo_bounded.
  - (* an initializeAuth resumes *)
    destruct (nth_error (inits s) i) as [a |]; [| discriminate].
    destruct (resume a r (ui s, browser s)) as [[[u b] next] |] eqn:Er; [| discriminate].
    injection Hstep as <-.
    destruct (resume_keeps_deps _ _ _ _ Er) as (R1 & R2 & R3).
    pose proof (resume_bounded _ _ _ _ Er B) as Bu.
    assert (Q0 : forall x y z,
               effectsPending (mkSys u b (forceDeps s) (initDeps s) x (subscribed s) y z (calls s))
               = false).
    { intros. unfold effectsPending, forcePending, initPending in *. cbn.
      rewrite R1, R2, R3. exact Q. }
    rewrite settle_idle by apply Q0.
    split_tidy; [apply Q0 | exact Bu |].
    cbn. rewrite R2, R3. exact T.
  - (* a retry is clicked *)
    injection Hstep as <-.
    destruct (retry_makes_effects_pending s Q) as [FP0 IP0].
    split_tidy; [apply settle_quiet | apply settle_bounded; apply addDebugInfo_bounded |].
    rewrite (settle_clears_timer _ FP0 IP0). intros d c H. discriminate.
Qed.

Lemma run_tidy :
  forall evs s s', tidy s -> run s evs = Some s' -> tidy s'.
Proof.
  induction evs as [| ev evs IH]; intros s s' Hs Hr; cbn in Hr.
  - injection Hr as <-. exact Hs.
  - destruct (step s ev) as [s1 |] eqn:Es; [| discriminate].
    apply (IH s1 s'); [| exact Hr]. apply (@step_tidy s ev s1 Hs Es).
Qed.

(** In every run from mount the debug lines on screen are at most ten. *)
Theorem debug_lines_stay_bounded :
  forall (b : Browser) (evs : list Event),
    match run (mount b) evs with
    | Some s => length (debugInfo (ui s)) <= 10
    | None => True
    end.
Proof.
  intros b evs. destruct (run (mount b) evs) as [s |] eqn:Hr; [| exact I].
  destruct (@run_tidy evs (mount b) s (mount_tidy b) Hr) as (_ & B & _). exact B.
Qed.

(** In every run from mount, a pending [initTimeout] was armed with the
    delay [connectionRetries * 500] ms for the current retry count, by a
    render that saw no sign-out in progress, and [signOutInProgress] is
    still unset: when it fires, [initializeAuth] starts. *)
Theorem pending_init_timer_matches_retry_count :
  forall (b : Browser) (evs : list Event),
    match run (mount b) evs with
    | Some s =>
        match initTimeout s with
        | Some (delay, closedOver) =>
            delay = connectionRetries (ui s) * 500
            /\ closedOver = false
            /\ signOutInProgress (ui s) = false
            /\ option_map calls (step s InitTimeoutFires)
               = Some (calls s ++ [SessionCheckBegins])
        | None => step s InitTimeoutFires = None
        end
    | None => True
    end.
Proof.
  intros b evs. destruct (run (mount b) evs) as [s |] eqn:Hr; [| exact I].
  destruct (@run_tidy evs (mount b) s (mount_tidy b) Hr) as (Q & _ & T).
  destruct (initTimeout s) as [[delay closedOver] |] eqn:Et.
  - destruct (T _ _ eq_refl) as (Hd & Hc & Hs). repeat split; try assumption.
    cbn [step]. rewrite Et, Hc. rewrite settle_idle by exact Q. reflexivity.
  - cbn [step]. rewrite Et. reflexivity.
Qed.

(** In every state a run from mount reaches, a click on retry counts one
    more retry, begins a forced sign-out at once, raises
    [signOutInProgress] and leaves no [initTimeout] pending. *)
Theorem retry_click_restarts_boot :
  forall (b : Browser) (evs : list Event),
    match run (mount b) evs with
    | Some s =>
        exists s',
          step s ClickRetry = Some s'
          /\ connectionRetries (ui s') = connectionRetries (ui s) + 1
          /\ calls s' = calls s ++ [ForcedSignOutBegins]
          /\ forcedInFlight s' = forcedInFlight s + 1
          /\ signOutInProgress (ui s') = true
          /\ initTimeout s' = None
    | None => True
    end.
Proof.
  intros b evs. destruct (run (mount b) evs) as [s |] eqn:Hr; [| exact I].
  destruct (@run_tidy evs (mount b) s (mount_tidy b) Hr) as (Q & _ & _).
  destruct (retry_makes_effects_pending s Q) as [FP0 IP0].
  eexists. split; [reflexivity |].
  destruct (settle_calls (withUI handleRetry s)) as [C N]. rewrite FP0 in C, N.
  split; [| split; [exact C | split; [exact N | split]]].
  - rewrite settle_unfold. unfold effectsPending. rewrite FP0. cbn [orb].
    destruct (signOutInProgress (ui (withUI handleRetry s))); cbn [andb negb];
      rewrite ?runEffects_ui, ?runEffects_forcePending, ?FP0; reflexivity.
  - rewrite settle_unfold. unfold effectsPending. rewrite FP0. cbn [orb].
    destruct (signOutInProgress (ui (withUI handleRetry s))); cbn [andb negb];
      rewrite ?runEffects_ui, ?runEffects_forcePending, ?FP0; reflexivity.
  - apply (settle_clears_timer _ FP0 IP0).
Qed.

End BootRuns.

(** ** What [App] renders: route gating *)

Section Rendering.

Import App.

Lemma pick_In :
  forall table location r, pick table location = Some r -> In r table.
Proof.
  intros table location r H. unfold pick in H.
  destruct (find (fun r0 => negb (isSplat r0) && matches (path r0) location) table)
    as [r1 |] eqn:E.
  - inversion H; subst. apply (find_some _ _ E).
  - apply (find_some _ _ H).
Qed.

Lemma pick_total :
  forall table location rest e,
    In (mkRoute (Splat :: rest) Bare e) table -> pick table location <> None.
Proof.
  intros table location rest e Hin H. unfold pick in H.
  destruct (find (fun r0 => negb (isSplat r0) && matches (path r0) location) table);
    [discriminate |].
  pose proof (find_none _ _ H _ Hin) as Hm. cbn in Hm. discriminate.
Qed.

Lemma routes_have_catch_all :
  forall u, exists to,
    In (mkRoute [Splat] Bare (NavigateTo to true)) (routes u).
Proof.
  intros [usr |]; cbn.
  - exists "/dashboard". destruct (String.eqb (role usr) "admin"); cbn; intuition.
  - exists "/auth". intuition.
Qed.

(** Whatever the location, once [App] shows its routes it shows some
    element of the table for the current user; a visitor who is not
    signed in gets the login page, the deletion-status page or a redirect,
    never a page that needs a user; an element of the admin sub-tree is
    shown only to a user whose role is [admin]; and the login page is
    never shown to a signed-in user. *)
Theorem route_gating :
  forall (s : UI) (location : list string),
    match render s location with
    | Routed None => False
    | Routed (Some r) =>
        (user s = None ->
         element r = AuthPage \/ element r = DeletionStatusPage
         \/ element r = NavigateTo "/auth" true)
        /\ (isAdminElement (element r) = true ->
            exists usr, user s = Some usr /\ role usr = "admin")
        /\ (element r = AuthPage -> user s = None)
    | _ => True
    end.
Proof.
  intros s location.
  assert (G : match pick (routes (user s)) location with
              | None => False
              | Some r =>
                  (user s = None ->
                   element r = AuthPage \/ element r = DeletionStatusPage
                   \/ element r = NavigateTo "/auth" true)
                  /\ (isAdminElement (element r) = true ->
                      exists usr, user s = Some usr /\ role usr = "admin")
                  /\ (element r = AuthPage -> user s = None)
              end).
  { destruct (pick (routes (user s)) location) as [r |] eqn:Hp.
    - apply pick_In in Hp. destruct (user s) as [usr |]; cbn in Hp.
      + destruct (String.eqb_spec (role usr) "admin") as [Hr | Hr]; cbn in Hp;
          repeat (destruct Hp as [Hp | Hp]; [subst r; cbn |]); try contradiction;
          repeat split; intros H; try discriminate; eauto.
      + repeat (destruct Hp as [Hp | Hp]; [subst r; cbn |]); try contradiction;
          repeat split; intros H; try discriminate; auto.
    - destruct (routes_have_catch_all (user s)) as [to Hin].
      exact (@pick_total (routes (user s)) location [] _ Hin Hp). }
  unfold render. destruct (loading s && negb (authChecked s)); [exact I |].
  destruct (error s) as [e |]; [destruct (String.eqb e ""); [exact G | exact I] | exact G].
Qed.

(** A location no other route matches is redirected, with the history
    entry replaced: to [/auth] for a visitor, to [/dashboard] for a
    signed-in user. *)
Theorem unmatched_location_redirects :
  forall (u : option User) (location : list string),
    find (fun r => negb (isSplat r) && matches (path r) location) (routes u) = None ->
    option_map element (pick (routes u) location)
    = Some (NavigateTo (match u with Some _ => "/dashboard" | None => "/auth" end) true).
Proof.
  intros u location H. unfold pick. rewrite H.
  destruct u as [usr |]; cbn in *.
  - destruct (String.eqb (role usr) "admin"); cbn in *;
      repeat match goal with
             | H : context [if ?c then _ else _] |- _ =>
                 destruct c eqn:?; cbn in *; try discriminate
             | |- context [if ?c then _ else _] =>
                 destruct c eqn:?; cbn in *; try discriminate
             end; try reflexivity; try congruence.
  - repeat match goal with
           | H : context [if ?c then _ else _] |- _ =>
               destruct c eqn:?; cbn in *; try discriminate
           | |- context [if ?c then _ else _] =>
               destruct c eqn:?; cbn in *; try discriminate
           end; try reflexivity; try congruence.
Qed.

Lemma unmatched_location_witness :
  option_map element (pick (routes None) ["dashboard"])
  = Some (NavigateTo "/auth" true).
Proof.
  exact (@unmatched_location_redirects None ["dashboard"] eq_refl).
Defined.

End Rendering.

(** ** Connectivity monitor: probes, counters and the banner *)

Section Monitor.

Import Supabase ConnectionStatus.

Ltac unfold_probe :=
  unfold probe, scheduledProbe, handleRetry, checkSupabaseConnection, sessionCheck,
    dbCheck, bothFail, sessionCheckSucceeds, identityCheckSucceeds,
    exec, tryCatch, bind, modify, gets, ret, throw in *.

(** A probe made by a render that is offline does not look at what the
    backend would answer: it marks [disconnected] with
    [Your device is offline], leaves the counters and the last-checked
    time alone, and the banner shows the offline text. *)
Theorem offline_probe_asks_nothing :
  forall (p p' : Probe) (s : State),
    probe p (setIsOnline false s) = probe p' (setIsOnline false s)
    /\ supabaseStatus (probe p (setIsOnline false s)) = disconnected
    /\ errorMessage (probe p (setIsOnline false s)) = "Your device is offline"
    /\ retryAttempts (probe p (setIsOnline false s)) = retryAttempts s
    /\ checkCount (probe p (setIsOnline false s)) = checkCount s
    /\ lastChecked (probe p (setIsOnline false s)) = lastChecked s
    /\ banner (probe p (setIsOnline false s))
       = Some "You are currently offline. Please check your internet connection.".
Proof. intros p p' s. unfold_probe. cbn. repeat split. Qed.

(** What an online probe writes besides the status.  When a check
    succeeds: the error message is emptied, the retry counter reset, the
    check count and last-checked time are left as they were, and the
    banner disappears.  When both fail: the retry counter is left as it
    was, the check count grows by one, the last-checked time is set, and
    the error message becomes [Cannot connect to the database] only if
    none was shown before. *)
Theorem online_probe_outcome :
  forall (p : Probe) (s : State),
    isOnline s = true ->
    if bothFail p
    then retryAttempts (probe p s) = retryAttempts s
         /\ checkCount (probe p s) = checkCount s + 1
         /\ lastChecked (probe p s) = localeTime p
         /\ errorMessage (probe p s)
            = (if String.eqb (errorMessage s) "" then "Cannot connect to the database"
               else errorMessage s)
         /\ hidden (probe p s) = false
    else retryAttempts (probe p s) = 0
         /\ checkCount (probe p s) = checkCount s
         /\ lastChecked (probe p s) = lastChecked s
         /\ errorMessage (probe p s) = ""
         /\ banner (probe p s) = None.
Proof.
  intros p s H. unfold banner, hidden. unfold_probe. rewrite H. cbn.
  destruct (getSession (configured p) (sessionReply p)) as [e | e | d]; cbn;
    try (repeat split; fail);
    destruct (checkSupabaseDB (configured p) (userReply p)); cbn;
    try (repeat split; fail);
    destruct (String.eqb (errorMessage s) ""); cbn; rewrite ?H; repeat split.
Qed.

Lemma online_probe_witness :
  isOnline (setErrorMessage "The server is taking too long to respond" (initialState true))
  = true
  /\ errorMessage
       (probe (mkProbe true (SessionError (newError "timeout")) (UserError (newError "timeout"))
                 "10:00:00")
              (setErrorMessage "The server is taking too long to respond"
                 (initialState true)))
     = "The server is taking too long to respond".
Proof.
  split; [reflexivity |].
  pose proof (@online_probe_outcome
                (mkProbe true (SessionError (newError "timeout"))
                   (UserError (newError "timeout")) "10:00:00")
                (setErrorMessage "The server is taking too long to respond"
                   (initialState true)) eq_refl) as H.
  cbn in H. apply H.
Defined.

(** The retry counter under automatic checks: over a run of checks that
    all fail, started by the effect or by its timer, the counter grows by
    one per timer check and by nothing else, whether the browser is
    online or not; a check of which a probe succeeds online leaves it at
    0; and no check changes [isOnline]. *)
Theorem scheduled_probes_count_failures :
  forall (cs : list Check) (s : State),
    forallb (fun c => bothFail (probeOf c)) cs = true ->
    retryAttempts (runChecks cs s) = retryAttempts s + timerChecks cs
    /\ isOnline (runChecks cs s) = isOnline s
    /\ forall c,
         bothFail (probeOf c) = false -> isOnline s = true ->
         retryAttempts (runCheck (runChecks cs s) c) = 0.
Proof.
  assert (Hon : forall c s, isOnline (runCheck s c) = isOnline s).
  { intros [p | p] [on st lc cc em dbg ra]; unfold runCheck; unfold_probe; cbn;
      (destruct on; cbn; [| reflexivity]);
      destruct (getSession (configured p) (sessionReply p)) as [e | e | d]; cbn;
      try reflexivity;
      destruct (checkSupabaseDB (configured p) (userReply p)); cbn; try reflexivity;
      destruct (String.eqb em ""); reflexivity. }
  assert (Hfail : forall c s, bothFail (probeOf c) = true ->
                              retryAttempts (runCheck s c)
                              = retryAttempts s + timerChecks [c]).
  { intros [p | p] [on st lc cc em dbg ra]; unfold runCheck, timerChecks; unfold_probe; cbn;
      (destruct on; cbn; [| lia]);
      destruct (getSession (configured p) (sessionReply p)) as [e | e | d]; cbn;
      try discriminate;
      destruct (checkSupabaseDB (configured p) (userReply p)); cbn; try discriminate;
      destruct (String.eqb em ""); cbn; intros _; lia. }
  assert (Hok : forall c s, bothFail (probeOf c) = false -> isOnline s = true ->
                            retryAttempts (runCheck s c) = 0).
  { intros [p | p] s Hp Hs; cbn [probeOf] in Hp; unfold runCheck; unfold_probe;
      rewrite Hs; cbn;
      destruct (getSession (configured p) (sessionReply p)) as [e | e | d]; cbn in *;
      try reflexivity;
      destruct (checkSupabaseDB (configured p) (userReply p)); cbn in *;
      try reflexivity; discriminate Hp. }
  induction cs as [| c cs IH]; intros s H; cbn [forallb] in H.
  - cbn. rewrite Nat.add_0_r. repeat split. intros c Hc Hs. apply Hok; assumption.
  - apply andb_true_iff in H as [Hc Hcs].
    change (runChecks (c :: cs) s) with (runChecks cs (runCheck s c)).
    destruct (IH (runCheck s c) Hcs) as (I1 & I2 & I3).
    rewrite I1, I2, (Hfail c s Hc), (Hon c s).
    split; [| split; [reflexivity |]].
    + unfold timerChecks. cbn [filter]. destruct c; cbn [length]; lia.
    + intros q Hq Hs. apply I3; [exact Hq | rewrite Hon; exact Hs].
Qed.

Lemma scheduled_probes_witness :
  retryAttempts
    (runChecks
       [ByEffect (mkProbe true (SessionError (newError "x")) (UserError (newError "y"))
                    "10:00:00");
        ByTimer (mkProbe true (SessionError (newError "x")) (UserError (newError "y"))
                   "10:00:05");
        ByTimer (mkProbe false (SessionData None) (UserData None) "10:00:15")]
       (initialState true)) = 2.
Proof.
  exact (proj1 (@scheduled_probes_count_failures
                  [ByEffect (mkProbe true (SessionError (newError "x"))
                               (UserError (newError "y")) "10:00:00");
                   ByTimer (mkProbe true (SessionError (newError "x"))
                              (UserError (newError "y")) "10:00:05");
                   ByTimer (mkProbe false (SessionData None) (UserData None) "10:00:15")]
                  (initialState true) eq_refl)).
Defined.

(** The delay is never below the base delay and never above 121 s; the
    backoff part never shrinks as the counter grows.  The bound of 121 s
    is reached: at the cap, with the largest double below 1 as the draw,
    the sum rounds up to 121000 ms exactly. *)
Theorem retry_delay_bounds :
  forall (n : nat) (random : Q),
    (0 <= random)%Q -> (random < 1)%Q ->
    (5000 <= getRetryDelay n random)%Q
    /\ (getRetryDelay n random <= 121000)%Q
    /\ (backoff n <= backoff (S n))%Z
    /\ (5000 <= backoff n <= 120000)%Z
    /\ (getRetryDelay 5 (1 - (1 # 9007199254740992)) == 121000)%Q.
Proof.
  intros n random H0 H1.
  assert (P : (1 <= 2 ^ Z.of_nat n)%Z) by (apply Z.pow_le_mono_r with (b := 0%Z); lia).
  assert (M : (2 ^ Z.of_nat n <= 2 ^ Z.of_nat (S n))%Z)
    by (apply Z.pow_le_mono_r; lia).
  assert (B : (5000 <= backoff n <= 120000)%Z) by (unfold backoff; lia).
  assert (D : (inject_Z (backoff n) <= getRetryDelay n random)%Q
              /\ (getRetryDelay n random <= inject_Z (backoff n) + 1000)%Q).
  { destruct n as [| n].
    - unfold getRetryDelay, baseDelay. cbn [Nat.eqb]. change (backoff 0) with 5000%Z.
      change (inject_Z 5000) with 5000%Q. split; lra.
    - destruct (double_jitter_bounds random H0 H1) as [J0 J1].
      exact (double_sum_bounds _ _ (backoff_values n) J0 J1). }
  assert (Q1 : (5000 <= inject_Z (backoff n))%Q)
    by (change 5000%Q with (inject_Z 5000); rewrite <- Zle_Qle; lia).
  assert (Q2 : (inject_Z (backoff n) <= 120000)%Q)
    by (change 120000%Q with (inject_Z 120000); rewrite <- Zle_Qle; lia).
  destruct D as [D1 D2].
  split; [lra |]. split; [lra |]. split; [unfold backoff; lia |]. split; [exact B |].
  vm_compute. reflexivity.
Qed.

Lemma retry_delay_bounds_witness :
  (0 <= 9 # 10)%Q /\ (9 # 10 < 1)%Q /\ (getRetryDelay 12 (9 # 10) <= 121000)%Q.
Proof.
  split; [unfold Qle; cbn; lia |]. split; [unfold Qlt; cbn; lia |].
  refine (proj1 (proj2 (@retry_delay_bounds 12 (9 # 10) _ _))).
  - unfold Qle; cbn; lia.
  - unfold Qlt; cbn; lia.
Defined.

(** A manual retry always leaves the retry counter at 0.  Its probe is
    the one created before the error message was emptied: when both
    checks fail online and a message was showing, no message is set and
    the banner falls back to its generic text. *)
Theorem manual_retry_resets_counter :
  forall (p : Probe) (s : State),
    retryAttempts (handleRetry p s) = 0
    /\ (isOnline s = true -> bothFail p = true ->
        errorMessage (handleRetry p s)
        = (if String.eqb (errorMessage s) "" then "Cannot connect to the database" else "")
        /\ (String.eqb (errorMessage s) "" = false ->
            banner (handleRetry p s)
            = Some "Unable to connect to the server. Some features may not work correctly.")).
Proof.
  intros p [on st lc cc em dbg ra]. split.
  - unfold_probe. cbn. destruct on; cbn; [| reflexivity].
    destruct (getSession (configured p) (sessionReply p)) as [e | e | d]; cbn;
      try reflexivity;
      destruct (checkSupabaseDB (configured p) (userReply p)); cbn; try reflexivity;
      destruct (String.eqb em ""); reflexivity.
  - cbn [isOnline errorMessage]. intros Hs Hp. subst on.
    unfold banner, hidden. unfold_probe. cbn.
    destruct (getSession (configured p) (sessionReply p)) as [e | e | d]; cbn in *;
      try discriminate;
      destruct (checkSupabaseDB (configured p) (userReply p)); cbn in *;
      try discriminate;
      destruct (String.eqb em ""); cbn;
      split; try reflexivity; intros; discriminate.
Qed.

End Monitor.

(** ** What a callback visit can and cannot do *)

Section CallbackEffects.

Import Supabase OAuth Connections.

#[local] Arguments Db.selectByUserAndPage : simpl never.
#[local] Arguments Db.updateById : simpl never.
#[local] Arguments Db.insert : simpl never.

(** Unfolds one visit and splits it along the branches of the source:
    the code parameter, the user lookup, then the table answers. *)
Ltac open_visit :=
  unfold complete, pageAfter, userOf, searchOf,
    FacebookCallback.callback, InstagramCallback.callback,
    FacebookCallback.handleFacebookCallback, InstagramCallback.handleInstagramCallback,
    FacebookCallback.persist, InstagramCallback.persist,
    FacebookCallback.throwIfError, FacebookCallback.addDebugInfo,
    exec, tryCatch, bind, modify, gets, ret, throw in *.

Ltac split_visit c t :=
  let env := fresh "env" in
  destruct c as [env | env]; open_visit;
  [ destruct (get "code" (FacebookCallback.search env)) as [code |]; cbn;
    [ destruct (String.eqb code "") eqn:Hcode; cbn;
      [| destruct (getUser (FacebookCallback.configured env) (FacebookCallback.userReply env))
           as [e | e | [u |]] eqn:Huser; cbn;
         [| | destruct (FacebookCallback.connectionError env); cbn;
                [| match goal with
                   | |- context [Db.selectByUserAndPage ?a ?b ?tb] =>
                       destruct (Db.selectByUserAndPage a b tb)
                         as [| existing rest] eqn:Hsel
                   end; cbn;
                   [ destruct (FacebookCallback.insertError env); cbn
                   | destruct (FacebookCallback.updateError env); cbn ]] |]]
    |]
  | destruct (get "code" (InstagramCallback.search env)) as [code |]; cbn;
    [ destruct (String.eqb code "") eqn:Hcode; cbn;
      [| destruct (getUser (InstagramCallback.configured env) (InstagramCallback.userReply env))
           as [e | e | [u |]] eqn:Huser; cbn;
         [| | destruct (InstagramCallback.dbError env); cbn |]]
    |] ].

(** Every visit of a callback page whose requests are answered ends
    showing success or error, never the spinner.  On error the table is
    as it was, no navigation is scheduled, the processing flag is off and
    the page shows the one fixed message of its provider, whatever went
    wrong; on success no error text is shown. *)
Theorem callback_ends_in_success_or_error :
  forall (c : Completion) (t : Db.Table),
    (status (pageAfter c t) = success
     /\ errorText (pageAfter c t) = None)
    \/ (status (pageAfter c t) = error
        /\ errorText (pageAfter c t) = Some (failureText c)
        /\ isProcessing (pageAfter c t) = false
        /\ table (pageAfter c t) = t
        /\ timers (pageAfter c t) = []).
Proof.
  intros c t. split_visit c t;
    try (left; split; reflexivity);
    right; repeat split; reflexivity.
Qed.


(** *** Helper facts on the table *)


Lemma updateById_account :
  forall i tok e r t, map Db.account (Db.updateById i tok e r t) = map Db.account t.
Proof.
  intros i tok e r t. unfold Db.updateById. rewrite map_map.
  apply map_ext. intros row. destruct (Nat.eqb (Db.id row) i); reflexivity.
Qed.

Lemma select_pair :
  forall u p t, In (u, p) (Db.fbPairs t) -> Db.selectByUserAndPage u p t <> [].
Proof.
  intros u p t Hin Hsel. exact (select_none _ _ _ Hsel Hin).
Qed.

Lemma select_head_pair :
  forall u p t row rest,
    Db.selectByUserAndPage u p t = row :: rest -> In (u, p) (Db.fbPairs t).
Proof.
  intros u p t row rest H. destruct (select_head _ _ _ H) as [Hin [Hu Hp]].
  unfold Db.fbPairs. apply in_flat_map. exists row. split; [exact Hin |].
  rewrite Hp, Hu. left. reflexivity.
Qed.

Lemma same_id_same_row :
  forall (t : Db.Table) (a b : Db.Row),
    NoDup (map Db.id t) -> In a t -> In b t -> Db.id a = Db.id b -> a = b.
Proof.
  intros t a b Hnd. induction t as [| r t IH]; cbn; [intros [] |].
  cbn in Hnd. inversion Hnd as [| x l Hx Hl]; subst.
  intros [Ha | Ha] [Hb | Hb] E.
  - congruence.
  - subst r. exfalso. apply Hx. rewrite E. apply in_map. exact Hb.
  - subst r. exfalso. apply Hx. rewrite <- E. apply in_map. exact Ha.
  - apply IH; assumption.
Qed.

Lemma rowsOfOthers_update :
  forall u i tok e r t,
    (forall row, In row t -> Db.id row = i -> Db.user_id row = u) ->
    rowsOfOthers u (Db.updateById i tok e r t) = rowsOfOthers u t.
Proof.
  intros u i tok e r t. unfold rowsOfOthers, Db.updateById.
  induction t as [| row t IH]; intros H; cbn; [reflexivity |].
  rewrite IH by (intros row' Hin; apply H; right; exact Hin).
  destruct (Nat.eqb (Db.id row) i) eqn:E; [| reflexivity].
  apply Nat.eqb_eq in E. cbn.
  rewrite (H row (or_introl eq_refl) E), String.eqb_refl. reflexivity.
Qed.

Lemma rowsOfOthers_insert :
  forall u n t,
    Db.new_user_id n = u -> rowsOfOthers u (Db.insert n t) = rowsOfOthers u t.
Proof.
  intros u n t H. unfold rowsOfOthers, Db.insert. rewrite filter_app. cbn.
  rewrite H, String.eqb_refl. cbn. apply app_nil_r.
Qed.

(** What one visit does to the table: nothing, an update of the first
    row found for the user's page, or one insert under the user's id. *)
Lemma complete_table :
  forall (c : Completion) (t : Db.Table),
    (status (pageAfter c t) = error /\ complete t c = t)
    \/ (exists u existing rest tok e r,
          userOf c = UserData (Some u)
          /\ status (pageAfter c t) = success
          /\ Db.selectByUserAndPage (authUserId u) FacebookCallback.selectedPageId t
             = existing :: rest
          /\ complete t c = Db.updateById (Db.id existing) tok e r t)
    \/ (exists u tok e,
          userOf c = UserData (Some u)
          /\ status (pageAfter c t) = success
          /\ complete t c
             = Db.insert
                 (Db.mkNewRow (authUserId u)
                    match c with
                    | ViaFacebook _ => Some FacebookCallback.selectedPageId
                    | ViaInstagram _ => None
                    end
                    match c with
                    | ViaFacebook _ => None
                    | ViaInstagram env => Some (InstagramCallback.mockIgAccountId env)
                    end tok e) t).
Proof.
  intros c t. split_visit c t; try (left; split; reflexivity); right.
  - right. exists u. do 2 eexists. repeat split; first [reflexivity | assumption].
  - left. exists u, existing, rest. do 3 eexists.
    repeat split; first [reflexivity | assumption].
  - right. exists u. do 2 eexists. repeat split; first [reflexivity | assumption].
Qed.

(** A visit sends a request to the table only when the URL carries
    a non-empty code and the user lookup returned a user; every request
    it then sends concerns that user only, and at most one of them
    writes. *)
Theorem callback_requests_need_code_and_user :
  forall (c : Completion) (t : Db.Table),
    requests (pageAfter c t) = []
    \/ exists code u,
         get "code" (searchOf c) = Some code
         /\ code <> ""
         /\ userOf c = UserData (Some u)
         /\ Forall (concerns (authUserId u) t) (requests (pageAfter c t))
         /\ length (filter Db.isWrite (requests (pageAfter c t))) <= 1.
Proof.
  intros c t. split_visit c t; try (left; reflexivity); right;
    exists code, u;
    (split; [reflexivity |]);
    (split; [intros ->; discriminate |]);
    (split; [reflexivity |]);
    (split; [| cbn; lia]);
    repeat constructor.
  all: destruct (select_head _ _ _ Hsel) as [Hin [Hu _]];
    exists existing; auto.
Qed.

(** When the ids of the table are distinct, a visit leaves the rows
    of every other user than the one it runs for exactly as they were,
    and without a user it leaves the whole table as it was. *)
Theorem callback_leaves_other_users_rows :
  forall (c : Completion) (t : Db.Table),
    NoDup (map Db.id t) ->
    match userOf c with
    | UserData (Some u) =>
        rowsOfOthers (authUserId u) (complete t c) = rowsOfOthers (authUserId u) t
    | _ => complete t c = t
    end.
Proof.
  intros c t Hnd.
  destruct (complete_table c t)
    as [[_ E] | [[u [existing [rest [tok [e [r [Hu [_ [Hsel E]]]]]]]]] | [u [tok [e [Hu [_ E]]]]]]].
  - rewrite E. destruct (userOf c) as [x | x | [u |]]; reflexivity.
  - rewrite Hu, E. apply rowsOfOthers_update.
    destruct (select_head _ _ _ Hsel) as [Hin [Huser _]].
    intros row Hrow Hid.
    rewrite (same_id_same_row t row existing Hnd Hrow Hin Hid). exact Huser.
  - rewrite Hu, E. apply rowsOfOthers_insert. reflexivity.
Qed.

Lemma callback_leaves_other_users_witness :
  NoDup (map Db.id
           [Db.mkRow 1 "u2" (Some "540380515830720") None "tok2"
              "2026-01-01T00:00:00.000Z" None;
            Db.mkRow 2 "u1" (Some "540380515830720") None "old"
              "2026-01-01T00:00:00.000Z" None])
  /\ rowsOfOthers "u1"
       (complete
          [Db.mkRow 1 "u2" (Some "540380515830720") None "tok2"
             "2026-01-01T00:00:00.000Z" None;
           Db.mkRow 2 "u1" (Some "540380515830720") None "old"
             "2026-01-01T00:00:00.000Z" None]
          (ViaFacebook
             (FacebookCallback.mkEnv [("code", "AQD3x")] true
                (UserData (Some (mkAuthUser "u1"))) None None None
                "2026-05-01T10:00:00.000Z" "2026-03-02T10:00:00.000Z"
                (fun _ => "10:00:00"))))
     = [Db.mkRow 1 "u2" (Some "540380515830720") None "tok2"
          "2026-01-01T00:00:00.000Z" None].
Proof.
  assert (H : NoDup (map Db.id
           [Db.mkRow 1 "u2" (Some "540380515830720") None "tok2"
              "2026-01-01T00:00:00.000Z" None;
            Db.mkRow 2 "u1" (Some "540380515830720") None "old"
              "2026-01-01T00:00:00.000Z" None])).
  { cbn. repeat constructor; cbn; intuition discriminate. }
  split; [exact H |].
  exact (@callback_leaves_other_users_rows
           (ViaFacebook
              (FacebookCallback.mkEnv [("code", "AQD3x")] true
                 (UserData (Some (mkAuthUser "u1"))) None None None
                 "2026-05-01T10:00:00.000Z" "2026-03-02T10:00:00.000Z"
                 (fun _ => "10:00:00")))
           [Db.mkRow 1 "u2" (Some "540380515830720") None "tok2"
              "2026-01-01T00:00:00.000Z" None;
            Db.mkRow 2 "u1" (Some "540380515830720") None "old"
              "2026-01-01T00:00:00.000Z" None] H).
Defined.

(** *** Across visits *)

Lemma complete_keeps_pairs :
  forall (c : Completion) (t : Db.Table) (x : string * string),
    In x (Db.fbPairs t) -> In x (Db.fbPairs (complete t c)).
Proof.
  intros c t x H. destruct (complete_fbPairs c t) as [E | [u [p [_ E]]]]; rewrite E.
  - exact H.
  - apply in_or_app. left. exact H.
Qed.

Lemma completeAll_keeps_pairs :
  forall (cs : list Completion) (t : Db.Table) (x : string * string),
    In x (Db.fbPairs t) -> In x (Db.fbPairs (completeAll cs t)).
Proof.
  intros cs. induction cs as [| c cs IH]; intros t x H; cbn; [exact H |].
  apply IH. apply complete_keeps_pairs. exact H.
Qed.

Lemma facebook_success_pair :
  forall (env : FacebookCallback.Env) (t : Db.Table) (u : AuthUser),
    userOf (ViaFacebook env) = UserData (Some u) ->
    status (pageAfter (ViaFacebook env) t) = success ->
    In (authUserId u, FacebookCallback.selectedPageId)
       (Db.fbPairs (complete t (ViaFacebook env))).
Proof.
  intros env t u Hu Hs.
  destruct (complete_table (ViaFacebook env) t)
    as [[Hf _] | [[u' [existing [rest [tok [e [r [Hu' [_ [Hsel E]]]]]]]]] | [u' [tok [e [Hu' [_ E]]]]]]].
  - rewrite Hs in Hf. discriminate.
  - rewrite Hu in Hu'. injection Hu' as <-.
    rewrite E, updateById_fbPairs. apply (select_head_pair _ _ _ Hsel).
  - rewrite Hu in Hu'. injection Hu' as <-.
    rewrite E, insert_fbPairs. apply in_or_app. right. left. reflexivity.
Qed.


(** Once a Facebook visit by a user has succeeded, the user's page
    stays connected through every later sequence of visits, of either
    provider and by any user, and a further Facebook visit by that user
    adds no row. *)
Theorem facebook_page_connected_once :
  forall (env : FacebookCallback.Env) (t : Db.Table) (u : AuthUser)
         (cs : list Completion) (again : FacebookCallback.Env),
    userOf (ViaFacebook env) = UserData (Some u) ->
    status (pageAfter (ViaFacebook env) t) = success ->
    userOf (ViaFacebook again) = UserData (Some u) ->
    In (authUserId u, FacebookCallback.selectedPageId)
       (Db.fbPairs (completeAll cs (complete t (ViaFacebook env))))
    /\ length (complete (completeAll cs (complete t (ViaFacebook env))) (ViaFacebook again))
       = length (completeAll cs (complete t (ViaFacebook env))).
Proof.
  intros env t u cs again Hu Hs Hagain.
  assert (Hin : In (authUserId u, FacebookCallback.selectedPageId)
                   (Db.fbPairs (completeAll cs (complete t (ViaFacebook env))))).
  { apply completeAll_keeps_pairs. apply facebook_success_pair; assumption. }
  split; [exact Hin |].
  apply (@facebook_reauthorization_keeps_rows again _ u Hagain).
  apply select_pair. exact Hin.
Qed.

Lemma facebook_page_connected_once_witness :
  length (complete
            (completeAll
               [ViaInstagram
                  (InstagramCallback.mkEnv [("code", "c1")] true
                     (UserData (Some (mkAuthUser "u2"))) None 42%N 1700000000000%N
                     "2026-03-01T10:00:00.000Z")]
               (complete []
                  (ViaFacebook
                     (FacebookCallback.mkEnv [("code", "AQD3x")] true
                        (UserData (Some (mkAuthUser "u1"))) None None None
                        "2026-03-01T10:00:00.000Z" "2026-01-01T10:00:00.000Z"
                        (fun _ => "10:00:00")))))
            (ViaFacebook
               (FacebookCallback.mkEnv [("code", "AQD9z")] true
                  (UserData (Some (mkAuthUser "u1"))) None None None
                  "2026-03-02T10:00:00.000Z" "2026-01-02T10:00:00.000Z"
                  (fun _ => "10:00:00"))))
  = 2.
Proof.
  exact (proj2
           (@facebook_page_connected_once
              (FacebookCallback.mkEnv [("code", "AQD3x")] true
                 (UserData (Some (mkAuthUser "u1"))) None None None
                 "2026-03-01T10:00:00.000Z" "2026-01-01T10:00:00.000Z"
                 (fun _ => "10:00:00"))
              [] (mkAuthUser "u1")
              [ViaInstagram
                 (InstagramCallback.mkEnv [("code", "c1")] true
                    (UserData (Some (mkAuthUser "u2"))) None 42%N 1700000000000%N
                    "2026-03-01T10:00:00.000Z")]
              (FacebookCallback.mkEnv [("code", "AQD9z")] true
                 (UserData (Some (mkAuthUser "u1"))) None None None
                 "2026-03-02T10:00:00.000Z" "2026-01-02T10:00:00.000Z"
                 (fun _ => "10:00:00"))
              eq_refl eq_refl eq_refl)).
Defined.

Lemma complete_accounts :
  forall (c : Completion) (t : Db.Table),
    exists added,
      map Db.account (complete t c) = map Db.account t ++ added
      /\ length added <= 1
      /\ forallb Db.oneProvider added = true.
Proof.
  intros c t.
  destruct (complete_table c t)
    as [[_ E] | [[u [existing [rest [tok [e [r [Hu [_ [Hsel E]]]]]]]]] | [u [tok [e [Hu [_ E]]]]]]];
    rewrite E.
  - exists []. rewrite app_nil_r. cbn. auto.
  - exists []. rewrite app_nil_r, updateById_account. cbn. auto.
  - eexists [_]. unfold Db.insert. rewrite map_app. cbn.
    split; [reflexivity |]. split; [lia |]. destruct c; reflexivity.
Qed.

(** Over every sequence of visits, of either provider and whatever
    their outcome, the table only grows: the rows it held are all still
    there, in place, with their id, user and provider account unchanged;
    at most one row per visit has been added after them, and every added
    row names exactly one provider account. *)
Theorem connections_only_grow :
  forall (cs : list Completion) (t : Db.Table),
    exists added,
      map Db.account (completeAll cs t) = map Db.account t ++ added
      /\ length added <= length cs
      /\ forallb Db.oneProvider added = true.
Proof.
  intros cs. induction cs as [| c cs IH]; intros t.
  - exists []. rewrite app_nil_r. cbn. auto.
  - change (completeAll (c :: cs) t) with (completeAll cs (complete t c)).
    destruct (complete_accounts c t) as [a1 [E1 [L1 P1]]].
    destruct (IH (complete t c)) as [a2 [E2 [L2 P2]]].
    exists (a1 ++ a2). rewrite E2, E1, <- app_assoc.
    split; [reflexivity |]. split.
    + rewrite length_app. cbn [length]. lia.
    + rewrite forallb_app, P1, P2. reflexivity.
Qed.




End CallbackEffects.

(** ** The Facebook SDK wrappers *)

Section FacebookSdk.

Import FacebookAuth.

(** The promise of [handleFacebookStatusChange] is never rejected.
    It resolves [true] only after the browser has been sent away, and
    only for a connected response with an auth response whose user info
    was fetched.  The browser is only ever sent to the OAuth dialog,
    which needs a configured app id, or to the application's own
    callback with a made-up code, which happens exactly when the user
    info carries no email.  A response that is neither connected nor
    not-authorized resolves [false] without a redirect. *)
Theorem handleFacebookStatusChange_outcome :
  forall (pg : Page) (FB : option Sdk) (userInfoReply : ApiReply UserInfo)
         (response : FacebookStatusResponse),
    let outcome := handleFacebookStatusChange pg FB userInfoReply response in
    rejected (fst outcome) = false
    /\ (fst outcome = Resolved true ->
        snd outcome <> None
        /\ status response = connected
        /\ authResponse response <> None
        /\ exists userInfo, getFacebookUserInfo FB userInfoReply = Resolved userInfo)
    /\ (forall url, snd outcome = Some url ->
          (url = dialogUrl pg /\ appIdMissing pg = false)
          \/ (url = fallbackUrl pg
              /\ exists userInfo,
                   getFacebookUserInfo FB userInfoReply = Resolved userInfo
                   /\ optOrElse (email userInfo) "" = ""))
    /\ (status response <> connected -> status response <> not_authorized ->
        outcome = (Resolved false, None)).
Proof.
  intros pg FB userInfoReply [st auth]. cbv zeta.
  unfold handleFacebookStatusChange. cbn [status authResponse].
  destruct st; destruct auth as [a |];
    try (repeat split; cbn;
         solve [ reflexivity | discriminate | congruence
               | intros; discriminate | intros; congruence
               | destruct (appIdMissing pg); reflexivity
               | destruct (appIdMissing pg); discriminate
               | destruct (appIdMissing pg) eqn:E; cbn; intros url H;
                 [discriminate | injection H as <-; left; auto] ]).
  destruct (getFacebookUserInfo FB userInfoReply) as [info | e |] eqn:Hinfo;
    try (repeat split; cbn; solve [reflexivity | discriminate | congruence
                                  | intros; discriminate | intros; congruence]).
  destruct (String.eqb (optOrElse (email info) "") "") eqn:Hmail; cbn [negb].
  - apply String.eqb_eq in Hmail.
    repeat split; cbn; try discriminate; try congruence.
    + exists info. reflexivity.
    + intros url H. injection H as <-. right. split; [reflexivity |].
      exists info. auto.
  - destruct (appIdMissing pg) eqn:E;
      repeat split; cbn; try discriminate; try congruence.
    + exists info. reflexivity.
    + intros url H. injection H as <-. left. auto.
Qed.

(** [loginWithFacebook] is rejected exactly when the SDK is not loaded
    or the call of [FB.login] throws; it redirects the browser exactly
    when the SDK is not loaded and an app id is configured, and then to
    the OAuth dialog; with the SDK loaded it resolves with the answer of
    [FB.login] unchanged, whatever its status, and is rejected with what
    [FB.login] threw. *)
Theorem loginWithFacebook_outcome :
  forall (pg : Page) (FB : option Sdk) (loginReply : SdkCall FacebookStatusResponse),
    let outcome := loginWithFacebook pg FB loginReply in
    (rejected (fst outcome) = true
     <-> isFacebookSDKLoaded FB = false \/ exists e, loginReply = Throws e)
    /\ snd outcome
       = (if isFacebookSDKLoaded FB || appIdMissing pg then None else Some (dialogUrl pg))
    /\ (forall response,
          isFacebookSDKLoaded FB = true -> loginReply = CallsBack response ->
          fst outcome = Resolved response)
    /\ (forall e,
          isFacebookSDKLoaded FB = true -> loginReply = Throws e ->
          fst outcome = Rejected e).
Proof.
  intros pg [sdk |] [response | | e]; cbn;
    try destruct (appIdMissing pg); cbn; repeat split;
    try reflexivity; try discriminate; try congruence; intros;
    repeat match goal with
           | H : _ \/ _ |- _ => destruct H
           | H : exists _, _ |- _ => destruct H
           end;
    try discriminate; try congruence; auto; try (right; eexists; reflexivity).
Qed.

(** The three ways the status handler can end. *)
Lemma handleFacebookStatusChange_ends :
  forall (pg : Page) (FB : option Sdk) (userInfoReply : ApiReply UserInfo)
         (response : FacebookStatusResponse),
    handleFacebookStatusChange pg FB userInfoReply response = (Pending, None)
    \/ (exists redirect,
          handleFacebookStatusChange pg FB userInfoReply response
          = (Resolved false, redirect))
    \/ (exists url,
          handleFacebookStatusChange pg FB userInfoReply response
          = (Resolved true, Some url)).
Proof.
  intros pg FB userInfoReply [st auth]. unfold handleFacebookStatusChange.
  cbn [status authResponse].
  destruct st; destruct auth as [a |];
    try (right; left; destruct (appIdMissing pg); eexists; reflexivity).
  destruct (getFacebookUserInfo FB userInfoReply) as [info | e |];
    [| right; left; eexists; reflexivity | left; reflexivity].
  destruct (negb (String.eqb (optOrElse (email info) "") ""));
    [destruct (appIdMissing pg) |];
    solve [ right; left; eexists; reflexivity | right; right; eexists; reflexivity ].
Qed.

Import FacebookLoginButton.

Ltac settle_press :=
  repeat split; intros; cbn in *; try lia; try discriminate; try contradiction;
  repeat match goal with
         | H : _ /\ _ |- _ => destruct H
         | H : _ \/ _ |- _ => destruct H
         | H : False |- _ => destruct H
         | H : LoginFailure _ = LoginFailure _ |- _ => injection H as <-
         | H : forall e, Some (Some ?x) <> Some (Some e) |- _ =>
             exfalso; apply (H x); reflexivity
         | H : forall f k msg, Some ?g = Some f -> f k msg = None,
           E : ?g ?k ?m = Some _ |- _ =>
             rewrite (H g k m eq_refl) in E; discriminate E
         | H : forall f k msg, Some ?g = Some f -> f k msg = None,
           E : Some _ = ?g ?k ?m |- _ =>
             rewrite (H g k m eq_refl) in E; discriminate E
         | H : _ = _ |- _ => discriminate H
         | H : @Some Exn _ = Some _ |- _ => inversion H; subst; clear H
         end;
  try lia; auto;
  try (eexists; left; split; reflexivity);
  try (eexists; right; split; [reflexivity | eexists; split; [reflexivity | eassumption]]);
  try (eexists; split; reflexivity).

(** One press of the login button.  A prop that was not passed is never
    called; [onLoginSuccess] is called only after the browser has been
    sent away; at most two calls are made, and a second one is always
    the [onLoginFailure] of the [catch] block, called with the message of
    what the first call threw.  When no prop throws, at most one call is
    made, [onLoginFailure] only gets one of the two fixed messages, and
    the only exception left uncaught is a throw of [FB.getLoginStatus]. *)
Theorem login_button_notices :
  forall (props : Props) (pg : Page) (FB : option Sdk) (userInfoReply : ApiReply UserInfo),
    let result := checkLoginState props pg FB userInfoReply in
    length (calls result) <= 2
    /\ (In LoginSuccess (calls result) ->
        onLoginSuccess props <> None /\ redirect result <> None)
    /\ (forall m, In (LoginFailure m) (calls result) -> onLoginFailure props <> None)
    /\ (2 <= length (calls result) ->
        exists e,
          (calls result = [LoginSuccess; LoginFailure (messageOr e "Unknown error occurred")]
           /\ onLoginSuccess props = Some (Some e))
          \/ (calls result = [LoginFailure "Login was not successful";
                              LoginFailure (messageOr e "Unknown error occurred")]
              /\ exists f, onLoginFailure props = Some f
                           /\ f 0 "Login was not successful" = Some e))
    /\ (neverThrows props ->
        length (calls result) <= 1
        /\ (forall m, In (LoginFailure m) (calls result) ->
              m = "Login was not successful" \/ m = "Facebook SDK not initialized")
        /\ (forall e, uncaught result = Some e ->
              exists sdk, FB = Some sdk /\ getLoginStatus sdk = Throws e)).
Proof.
  intros [onS onF] pg FB userInfoReply. cbv zeta.
  unfold checkLoginState, neverThrows.
  destruct FB as [[[response | | thrown]] |]; cbn [getLoginStatus].
  - unfold statusChangeCallback, catchBlock, notifyFailure.
    destruct (handleFacebookStatusChange_ends pg (Some (mkSdk (CallsBack response)))
                userInfoReply response) as [E | [[to E] | [url E]]];
      rewrite E; cbn [onLoginSuccess onLoginFailure];
      destruct onS as [[e |] |], onF as [f |]; cbn;
      try destruct (f 0 "Login was not successful") as [e' |] eqn:F0; cbn;
      settle_press.
  - settle_press.
  - settle_press.
  - unfold notifyFailure. cbn [onLoginFailure]. destruct onF as [f |]; cbn; settle_press.
Qed.

(** A press in which [onLoginSuccess] throws: the [catch] block calls
    [onLoginFailure] with the message of what was thrown. *)
Lemma throwing_success_prop_reaches_catch :
  calls (checkLoginState
           (mkProps (Some (Some (newError "render failed"))) (Some (fun _ _ => None)))
           (mkPage None (Some "1234") "https://app.example" 1700000000000%N (fun s => s))
           (Some (mkSdk (CallsBack
                           (mkStatusResponse connected
                              (Some (mkAuthResponse "token" 3600 "signed" "42"))))))
           (ApiAnswer (mkUserInfo (Some "ann@example.org"))))
  = [LoginSuccess; LoginFailure "render failed"].
Proof. reflexivity. Qed.

End FacebookSdk.

(** ** The client without its environment variables *)

Section Unconfigured.

Import Supabase OAuth Connections.

(** With the stub client (the environment variables missing),
    whatever the hosted service would have answered: both health checks
    are false; an online connectivity probe ends disconnected; a boot
    ends on the error screen with "Failed to check authentication
    status" at every location, with the user and the auth-checked flag
    as they were and nothing but the forced sign-out sent; and both callback pages end in error without a
    request to the table. *)
Theorem unconfigured_client_fails_closed :
  (forall sessionReply userReply,
     checkSupabaseAuth false sessionReply = false
     /\ checkSupabaseDB false userReply = false)
  /\ (forall sessionReply userReply localeTime lastChecked checkCount errorMessage
             debugInfo retryAttempts status,
        ConnectionStatus.supabaseStatus
          (ConnectionStatus.probe
             (ConnectionStatus.mkProbe false sessionReply userReply localeTime)
             (ConnectionStatus.mkState true status lastChecked checkCount errorMessage
                debugInfo retryAttempts))
        = ConnectionStatus.disconnected)
  /\ (forall forced sessionReply currentUserReply signOutReply s b location,
        let st := App.boot forced
                    (App.mkBackend false sessionReply currentUserReply signOutReply)
                    (s, b) in
        App.render (fst st) location
        = App.ErrorScreen "Failed to check authentication status"
        /\ App.user (fst st) = App.user s
        /\ App.authChecked (fst st) = App.authChecked s
        /\ signOutRequests (snd st) = signOutRequests b ++ ["global"])
  /\ (forall search userReply connectionError updateError insertError expiryIso nowIso
             clock t,
        let page := pageAfter
                      (ViaFacebook
                         (FacebookCallback.mkEnv search false userReply connectionError
                            updateError insertError expiryIso nowIso clock)) t in
        status page = error /\ requests page = [] /\ table page = t)
  /\ (forall search userReply dbError randomDraw dateNow expiryIso t,
        let page := pageAfter
                      (ViaInstagram
                         (InstagramCallback.mkEnv search false userReply dbError
                            randomDraw dateNow expiryIso)) t in
        status page = error /\ requests page = [] /\ table page = t).
Proof.
  split; [intros; split; reflexivity |].
  split.
  { intros. unfold ConnectionStatus.probe.
    rewrite checkSupabaseConnection_status by reflexivity. reflexivity. }
  split.
  - intros forced sr cr so s [ls blocked cs rq] location. cbn. repeat split.
    destruct blocked; reflexivity.
  - split; cbv zeta; intros; unfold pageAfter, FacebookCallback.callback,
      InstagramCallback.callback, FacebookCallback.handleFacebookCallback,
      InstagramCallback.handleInstagramCallback, FacebookCallback.addDebugInfo,
      exec, tryCatch, bind, modify, gets, ret, throw; cbn;
      (destruct (get "code" search) as [code |]; cbn;
       [destruct (String.eqb code ""); cbn |]); repeat split.
Qed.

End Unconfigured.
